(** * Marker-based flattening of a Neovim configuration tree

    A shallow embedding of [flatten.py] (the encoder) and [unflatten.py]
    (the decoder) of [.config/nvim], and the properties of the encode /
    decode pair.

    Text is modelled as a list of characters ([ascii]: the bytes of the
    UTF-8 text).  Every literal the two regular expressions look for is
    plain ASCII and UTF-8 is self-synchronising, so matching on bytes and
    matching on code points find the same occurrences.

    A run of a script is a function on a world: the files, the directories
    made and the lines printed.  [sys.exit] and an uncaught exception end
    the run with their status.  The storage answers a read with the text or
    with nothing and takes every write: a read gives the bytes as they are
    stored (the decoding and the line breaks of text mode are left out, so
    a statement about a text that is read is about a text that decodes and
    has no carriage return), and [mkdir], [open] and [write] always go
    through (a file where a directory is wanted, a directory where a file
    is wanted and permissions are left out).  A statement that a run
    returns is a statement about such a storage; the statements about what
    a run leaves alone, and about a run that ends through [sys.exit], do
    not depend on it.  What the scripts get from [pathlib], from the clock
    and from the formatter of floating-point numbers comes in through the
    class [Host]; so do the lines the call of [print_tree] at the end of
    [unflatten] prints.  [print_tree] itself is modelled on a directory
    tree, with the number of nested calls the interpreter allows. *)

From Stdlib Require Import Ascii String List Bool Arith Lia.
From Stdlib Require Import DecimalString.
From Stdlib Require Import Permutation.
Import ListNotations.

(** ** Text *)

Definition str := list ascii.

Definition lit (s : string) : str := list_ascii_of_string s.

Definition nl : ascii := "010"%char.

Definition byte (n : nat) : ascii := ascii_of_nat n.

Fixpoint str_eqb (a b : str) : bool :=
  match a, b with
  | [], [] => true
  | x :: a', y :: b' => Ascii.eqb x y && str_eqb a' b'
  | _, _ => false
  end.

(** [starts_with p s] is [Some rest] when [s = p ++ rest] (Python's
    [s.startswith(p)], keeping what follows), and [None] otherwise. *)
Fixpoint starts_with (p s : str) : option str :=
  match p with
  | [] => Some s
  | a :: p' =>
      match s with
      | [] => None
      | b :: s' => if Ascii.eqb a b then starts_with p' s' else None
      end
  end.

Definition startswith (s p : str) : bool :=
  match starts_with p s with Some _ => true | None => false end.

(** [t in s]: [t] occurs somewhere in [s]. *)
Fixpoint contains (t s : str) : bool :=
  startswith s t ||
  match s with
  | [] => false
  | _ :: s' => contains t s'
  end.

(** [s.count('\n')] *)
Definition count_nl (s : str) : nat :=
  length (filter (Ascii.eqb nl) s).

(** [s.rstrip('\n')]: every trailing line break is removed. *)
Fixpoint rstrip_nl (s : str) : str :=
  match s with
  | [] => []
  | c :: s' =>
      match rstrip_nl s' with
      | [] => if Ascii.eqb c nl then [] else [c]
      | r => c :: r
      end
  end.

(** [s.endswith('\n')] *)
Fixpoint endswith_nl (s : str) : bool :=
  match s with
  | [] => false
  | [c] => Ascii.eqb c nl
  | _ :: s' => endswith_nl s'
  end.

(** [sep.join(items)] *)
Fixpoint join (sep : str) (items : list str) : str :=
  match items with
  | [] => []
  | [x] => x
  | x :: rest => x ++ sep ++ join sep rest
  end.

(** [s.split('\n')]: the pieces between line breaks, at least one. *)
Fixpoint split_nl (s : str) : list str :=
  match s with
  | [] => [[]]
  | c :: s' =>
      if Ascii.eqb c nl then [] :: split_nl s'
      else
        match split_nl s' with
        | piece :: pieces => (c :: piece) :: pieces
        | [] => [[c]]
        end
  end.

(** [s.split(sep, 1)]: cut at the first occurrence of [sep]; one piece when
    there is none. *)
Fixpoint split_once (sep s : str) : list str :=
  match starts_with sep s with
  | Some rest => [[]; rest]
  | None =>
      match s with
      | [] => [[]]
      | c :: s' =>
          match split_once sep s' with
          | piece :: pieces => (c :: piece) :: pieces
          | [] => [[c]]
          end
      end
  end.

(** The characters [str.strip()] removes.  Below 128 they are one byte: tab,
    line feed, vertical tab, form feed, carriage return, the four separators
    FS GS RS US and the space. *)
Definition is_space1 (c : ascii) : bool :=
  let n := nat_of_ascii c in
  ((9 <=? n) && (n <=? 13)) || ((28 <=? n) && (n <=? 32)).

(** U+0085 and U+00A0 are the two-byte sequences C2 85 and C2 A0. *)
Definition is_space2 (c1 c2 : ascii) : bool :=
  (nat_of_ascii c1 =? 194) &&
  ((nat_of_ascii c2 =? 133) || (nat_of_ascii c2 =? 160)).

(** U+1680 (E1 9A 80), U+2000 to U+200A (E2 80 80 to E2 80 8A), U+2028,
    U+2029, U+202F (E2 80 A8, A9, AF), U+205F (E2 81 9F) and U+3000
    (E3 80 80). *)
Definition is_space3 (c1 c2 c3 : ascii) : bool :=
  let a := nat_of_ascii c1 in
  let b := nat_of_ascii c2 in
  let c := nat_of_ascii c3 in
  ((a =? 225) && (b =? 154) && (c =? 128)) ||
  ((a =? 226) && (b =? 128) &&
     (((128 <=? c) && (c <=? 138)) || (c =? 168) || (c =? 169) || (c =? 175))) ||
  ((a =? 226) && (b =? 129) && (c =? 159)) ||
  ((a =? 227) && (b =? 128) && (c =? 128)).

(** [s.lstrip()] *)
Fixpoint lstrip (s : str) : str :=
  match s with
  | [] => []
  | c1 :: s1 =>
      if is_space1 c1 then lstrip s1
      else
        match s1 with
        | [] => s
        | c2 :: s2 =>
            if is_space2 c1 c2 then lstrip s2
            else
              match s2 with
              | [] => s
              | c3 :: s3 => if is_space3 c1 c2 c3 then lstrip s3 else s
              end
        end
  end.

(** [s.rstrip()], read from the end: the bytes of a sequence come in the
    opposite order. *)
Fixpoint rstrip_rev (r : str) : str :=
  match r with
  | [] => []
  | c1 :: r1 =>
      if is_space1 c1 then rstrip_rev r1
      else
        match r1 with
        | [] => r
        | c2 :: r2 =>
            if is_space2 c2 c1 then rstrip_rev r2
            else
              match r2 with
              | [] => r
              | c3 :: r3 => if is_space3 c3 c2 c1 then rstrip_rev r3 else r
              end
        end
  end.

(** [s.strip()] *)
Definition strip (s : str) : str :=
  rev (rstrip_rev (rev (lstrip s))).

(** [len(s.splitlines())].  A line ends at a line feed, a carriage return
    (with the line feed that follows it, if any), a vertical tab, a form
    feed, FS, GS, RS, U+0085 (C2 85), U+2028 or U+2029 (E2 80 A8, E2 80 A9);
    text after the last line end counts as a line when it is not empty.
    [pending] says that the current line has characters. *)
Definition is_linebreak1 (c : ascii) : bool :=
  let n := nat_of_ascii c in
  ((10 <=? n) && (n <=? 12)) || ((28 <=? n) && (n <=? 30)).

Definition is_linebreak2 (c1 c2 : ascii) : bool :=
  (nat_of_ascii c1 =? 194) && (nat_of_ascii c2 =? 133).

Definition is_linebreak3 (c1 c2 c3 : ascii) : bool :=
  (nat_of_ascii c1 =? 226) && (nat_of_ascii c2 =? 128) &&
  ((nat_of_ascii c3 =? 168) || (nat_of_ascii c3 =? 169)).

Fixpoint count_lines (pending : bool) (s : str) : nat :=
  match s with
  | [] => if pending then 1 else 0
  | c1 :: s1 =>
      if is_linebreak1 c1 then S (count_lines false s1)
      else if nat_of_ascii c1 =? 13 then
        match s1 with
        | c2 :: s2 =>
            if Ascii.eqb c2 nl then S (count_lines false s2)
            else S (count_lines false s1)
        | [] => 1
        end
      else
        match s1 with
        | c2 :: s2 =>
            if is_linebreak2 c1 c2 then S (count_lines false s2)
            else
              match s2 with
              | c3 :: s3 =>
                  if is_linebreak3 c1 c2 c3 then S (count_lines false s3)
                  else count_lines true s1
              | [] => count_lines true s1
              end
        | [] => 1
        end
  end.

Definition splitlines_len (s : str) : nat := count_lines false s.

(** [str(n)] for a natural number. *)
Definition str_of_nat (n : nat) : str :=
  lit (NilZero.string_of_uint (Nat.to_uint n)).

(** The format [{n:,}]: decimal digits in groups of three. *)
Fixpoint commas_rev (digits_rev : str) (in_group : nat) : str :=
  match digits_rev with
  | [] => []
  | d :: rest =>
      if in_group =? 3 then ","%char :: d :: commas_rev rest 1
      else d :: commas_rev rest (S in_group)
  end.

Definition format_commas (n : nat) : str :=
  rev (commas_rev (rev (str_of_nat n)) 0).

(** [c * n] for a one-character string. *)
Definition replicate (n : nat) (c : ascii) : str := repeat c n.

(** The format [{s:^width}]: centred, the odd space going to the right. *)
Definition center (width : nat) (s : str) : str :=
  let pad := width - length s in
  replicate (pad / 2) " "%char ++ s ++ replicate (pad - pad / 2) " "%char.

(** ** Regular expressions

    Python's [re] is a backtracking matcher.  The combinators below are
    written in continuation-passing style: each takes the matcher of the rest
    of the pattern and the text still to be read, and answers with the first
    success in the order in which the backtracking engine tries the
    alternatives. *)

Section Regex.
Context {R : Type}.

(** A literal piece of the pattern. *)
Definition re_lit (l : str) (k : str -> option R) (s : str) : option R :=
  match starts_with l s with
  | Some s' => k s'
  | None => None
  end.

(** [(.*?)] under [re.DOTALL]: the group first tries to stay as it is
    ([acc]), and takes one more character, whatever it is, only when the
    rest of the pattern fails. *)
Fixpoint re_lazy_star (k : str -> str -> option R) (acc s : str) : option R :=
  match k acc s with
  | Some r => Some r
  | None =>
      match s with
      | [] => None
      | c :: s' => re_lazy_star k (acc ++ [c]) s'
      end
  end.

(** [(.+?)] under [re.DOTALL]: as above, after one compulsory character. *)
Definition re_lazy_plus (k : str -> str -> option R) (s : str) : option R :=
  match s with
  | [] => None
  | c :: s' => re_lazy_star k [c] s'
  end.

(** [re.search]: the first position, from the left, where [m] matches. *)
Fixpoint re_search (m : str -> option R) (s : str) : option R :=
  match m s with
  | Some r => Some r
  | None =>
      match s with
      | [] => None
      | _ :: s' => re_search m s'
      end
  end.
End Regex.

(** ** Python's [dict]

    Keys in insertion order; assigning to a key that is present replaces its
    value where it stands. *)

Definition dict := list (str * str).

Fixpoint dict_set (d : dict) (k v : str) : dict :=
  match d with
  | [] => [(k, v)]
  | (k', v') :: d' =>
      if str_eqb k' k then (k', v) :: d' else (k', v') :: dict_set d' k v
  end.

Fixpoint dict_get (d : dict) (k : str) : option str :=
  match d with
  | [] => None
  | (k', v') :: d' => if str_eqb k' k then Some v' else dict_get d' k
  end.

(** [not d] for a dictionary. *)
Definition is_empty_dict (d : dict) : bool :=
  match d with [] => true | _ :: _ => false end.

Definition mem (x : str) (xs : list str) : bool := existsb (str_eqb x) xs.

(** ** The process and its world

    What a run of either script can see and change: the files (full path to
    text), the directories it made, and the lines it printed.  The storage
    is the read / write collaborator of the design: a read gives the text
    or finds nothing, a write stores the text. *)

Record FS := mkFS { fs_files : dict; fs_dirs : list str }.

Record World := mkWorld { disk : FS; stdout : list str }.

Inductive result (A : Type) : Type :=
| Done (a : A)
| Exited (code : nat)
| Raised (exn : str).

Arguments Done {A} a.
Arguments Exited {A} code.
Arguments Raised {A} exn.

Definition Proc (A : Type) : Type := World -> result A * World.

Definition ret {A : Type} (a : A) : Proc A := fun w => (Done a, w).

Definition bind {A B : Type} (m : Proc A) (k : A -> Proc B) : Proc B :=
  fun w =>
    match m w with
    | (Done a, w') => k a w'
    | (Exited code, w') => (Exited code, w')
    | (Raised exn, w') => (Raised exn, w')
    end.

Notation "x <- m ;; k" := (bind m (fun x => k))
  (at level 61, m at next level, right associativity).
Notation "m ;;; k" := (bind m (fun _ => k))
  (at level 61, right associativity).

(** [sys.exit(code)] *)
Definition sys_exit {A : Type} (code : nat) : Proc A :=
  fun w => (Exited code, w).

Definition raise {A : Type} (exn : str) : Proc A :=
  fun w => (Raised exn, w).

(** [print(line)]; [print()] is [print []]. *)
Definition print (line : str) : Proc unit :=
  fun w => (Done tt, mkWorld (disk w) (stdout w ++ [line])).

(** [path.exists()] *)
Definition path_exists (path : str) : Proc bool :=
  fun w =>
    (Done (match dict_get (fs_files (disk w)) path with
           | Some _ => true
           | None => false
           end), w).

(** [with open(path, 'r') as f: f.read()] *)
Definition read_text (path : str) : Proc str :=
  fun w =>
    match dict_get (fs_files (disk w)) path with
    | Some content => (Done content, w)
    | None => (Raised (lit "FileNotFoundError"), w)
    end.

(** [open(path, 'w')]: the file is there and empty. *)
Definition open_w (path : str) : Proc unit :=
  fun w =>
    (Done tt,
     mkWorld (mkFS (dict_set (fs_files (disk w)) path []) (fs_dirs (disk w)))
             (stdout w)).

(** [f.write(data)] on the file opened at [path]. *)
Definition f_write (path data : str) : Proc unit :=
  fun w =>
    let old := match dict_get (fs_files (disk w)) path with
               | Some text => text
               | None => []
               end in
    (Done tt,
     mkWorld (mkFS (dict_set (fs_files (disk w)) path (old ++ data))
                   (fs_dirs (disk w)))
             (stdout w)).

Definition add_dir (ds : list str) (d : str) : list str :=
  if mem d ds then ds else ds ++ [d].

(** A [for] loop whose body updates the local variables [s]. *)
Fixpoint for_each {A S : Type} (xs : list A) (body : A -> S -> Proc S)
    (s : S) : Proc S :=
  match xs with
  | [] => ret s
  | x :: xs' => s' <- body x s ;; for_each xs' body s'
  end.

(** What the scripts take from [pathlib], the clock and the formatter of
    floating-point numbers. *)
Class Host := {
  (** [a / b] *)
  joinpath : str -> str -> str;
  (** [p.parent] *)
  parent : str -> str;
  (** [p.parents], nearest first *)
  parents : str -> list str;
  (** [Path(s).expanduser().resolve()] *)
  expanduser_resolve : str -> str;
  (** [p.resolve()] *)
  resolve : str -> str;
  (** [Path(__file__).parent.resolve()] of flatten.py *)
  NVIM_CONFIG_DIR : str;
  (** [datetime.now().strftime('%Y-%m-%d %H:%M:%S')] *)
  now_strftime : str;
  (** the format [{size/1024:.1f}] *)
  format_kb : nat -> str;
  (** the lines [print_tree(directory)] of unflatten.py prints *)
  print_tree_lines : FS -> str -> list str
}.

(** [d.mkdir(parents=True, exist_ok=True)] *)
Definition mkdir_parents `{Host} (d : str) : Proc unit :=
  fun w =>
    (Done tt,
     mkWorld (mkFS (fs_files (disk w))
                   (fold_left add_dir (rev (parents d) ++ [d])
                      (fs_dirs (disk w))))
             (stdout w)).

(** The exit status the shell sees. *)
Definition exit_status {A : Type} (r : result A) : nat :=
  match r with
  | Done _ => 0
  | Exited code => code
  | Raised _ => 1
  end.

(** The two sentinels, as both scripts spell them. *)
Definition FILE_START : str := lit "-- @FILE_START: ".
Definition FILE_END : str := lit "-- @FILE_END: ".

Definition rule50 : str := replicate 50 "-"%char.

(** ** flatten.py *)

Module Flatten.

Definition SPECIAL_FILES : list str := [
  lit "init.lua"
].

Definition CONFIG_FILES : list str := [
  lit "lua/config/options.lua";
  lit "lua/config/keymaps.lua";
  lit "lua/config/autocmds.lua";
  lit "lua/config/lazy.lua"
].

Definition PLUGIN_LOADER : list str := [
  lit "lua/plugins/init.lua"
].

Definition PLUGIN_FILES : list str := [
  lit "lua/plugins/colorscheme.lua";
  lit "lua/plugins/ui.lua";
  lit "lua/plugins/editor.lua";
  lit "lua/plugins/telescope.lua";
  lit "lua/plugins/lsp.lua";
  lit "lua/plugins/completion.lua";
  lit "lua/plugins/flash.lua";
  lit "lua/plugins/git.lua";
  lit "lua/plugins/copilot.lua";
  lit "lua/plugins/aerial.lua";
  lit "lua/plugins/diffview.lua";
  lit "lua/plugins/oil.lua";
  lit "lua/plugins/treesitter-textobjects.lua"
].

Definition ALL_FILES : list str :=
  SPECIAL_FILES ++ CONFIG_FILES ++ PLUGIN_LOADER ++ PLUGIN_FILES.

(** [wrap_file_content(filepath, content)]; [None] is Python's [None]. *)
Definition wrap_file_content (filepath : str) (content : option str) : str :=
  match content with
  | None => []
  | Some content =>
      let marker_start := FILE_START ++ filepath in
      let marker_end := FILE_END ++ filepath in
      marker_start ++ [nl] ++ content ++ [nl] ++ marker_end ++ [nl] ++ [nl]
  end.

(** The truth value of [content] in [if content:]: neither [None] nor
    empty. *)
Definition truthy (content : option str) : bool :=
  match content with
  | Some (_ :: _) => true
  | _ => false
  end.

(** The lines of a triple-quoted text, each with its line break. *)
Definition text_lines (lines : list str) : str :=
  concat (map (fun l => l ++ [nl]) lines).

Definition categories : list (str * list str) := [
  (lit "ENTRY POINT", SPECIAL_FILES);
  (lit "CORE CONFIGURATION", CONFIG_FILES);
  (lit "PLUGIN LOADER", PLUGIN_LOADER);
  (lit "PLUGIN SPECIFICATIONS", PLUGIN_FILES)
].

Definition category_banner (category_name : str) : str :=
  text_lines [
    [];
    lit "-- ############################################################################";
    lit "-- #  " ++ center 72 category_name ++ lit "  #";
    lit "-- ############################################################################";
    []
  ].

Definition footer : str :=
  text_lines [
    [];
    lit "--[[";
    lit "================================================================================";
    lit "  END OF FLATTENED CONFIGURATION";
    lit "  ";
    lit "  To reconstruct: python unflatten.py init-flat.lua [output_dir]";
    lit "================================================================================";
    lit "--]]"
  ].

Section Script.
Context `{Host}.

Definition read_file (filepath : str) : Proc (option str) :=
  let full_path := joinpath NVIM_CONFIG_DIR filepath in
  found <- path_exists full_path ;;
  if negb found then
    print (lit "  [SKIP] " ++ filepath ++ lit " (not found)") ;;;
    ret None
  else
    content <- read_text full_path ;;
    print (lit "  [OK]   " ++ filepath ++ lit " (" ++
           str_of_nat (splitlines_len content) ++ lit " lines)") ;;;
    ret (Some content).

(** The banner and the metadata block: the lines of the first text of
    [generate_flat_config]. *)
Definition header_lines (timestamp : str) : list str :=
  [
    lit "--[[";
    lit "================================================================================";
    lit "  FLATTENED NEOVIM CONFIGURATION";
    lit "================================================================================";
    [];
    lit "  This is an auto-generated single-file version of a modular Neovim config.";
    lit "  ";
    lit "  Generated: " ++ timestamp;
    lit "  Source:    " ++ NVIM_CONFIG_DIR;
    [];
    lit "  FILE MARKERS:";
    lit "    Each original file is wrapped with markers:";
    lit "      -- @FILE_START: path/to/file.lua";
    lit "      ... original file contents ...";
    lit "      -- @FILE_END: path/to/file.lua";
    [];
    lit "  TO RECONSTRUCT THE MODULAR CONFIG:";
    lit "    Run: python unflatten.py init-flat.lua [output_dir]";
    [];
    lit "  WARNING: ";
    lit "    This flattened file will NOT work as a direct init.lua replacement!";
    lit "    It's meant for sharing/backup. The file markers break the Lua syntax.";
    lit "    Use unflatten.py to restore the modular structure before using.";
    [];
    lit "  ORIGINAL DIRECTORY STRUCTURE:";
    lit "    ~/.config/nvim/";
    lit "    ├── init.lua                 # Entry point";
    lit "    └── lua/";
    lit "        ├── config/              # Core settings";
    lit "        │   ├── options.lua      # Editor options";
    lit "        │   ├── keymaps.lua      # Keyboard shortcuts";
    lit "        │   ├── autocmds.lua     # Auto commands";
    lit "        │   └── lazy.lua         # Plugin manager bootstrap";
    lit "        └── plugins/             # Plugin configurations";
    lit "            ├── init.lua         # Plugin loader";
    lit "            ├── colorscheme.lua  # Theme";
    lit "            ├── ui.lua           # UI enhancements";
    lit "            ├── editor.lua       # Editor plugins";
    lit "            ├── telescope.lua    # Fuzzy finder";
    lit "            ├── lsp.lua          # Language servers";
    lit "            ├── completion.lua   # Autocompletion";
    lit "            ├── flash.lua        # Navigation";
    lit "            ├── git.lua          # Git integration";
    lit "            ├── copilot.lua      # AI assistant";
    lit "            ├── aerial.lua       # Code outline";
    lit "            ├── diffview.lua     # Diff viewer";
    lit "            ├── oil.lua          # File explorer";
    lit "            └── treesitter-textobjects.lua";
    [];
    lit "================================================================================";
    lit "--]]";
    [];
    lit "-- @FLATTEN_METADATA_START";
    lit "-- generator: flatten.py";
    lit "-- timestamp: " ++ timestamp;
    lit "-- source_dir: " ++ NVIM_CONFIG_DIR;
    lit "-- file_count: " ++ str_of_nat (length ALL_FILES);
    lit "-- files: " ++ join (lit ", ") ALL_FILES;
    lit "-- @FLATTEN_METADATA_END";
    []
  ].

Definition header (timestamp : str) : str :=
  text_lines (header_lines timestamp).

Definition generate_flat_config : Proc str :=
  let timestamp := now_strftime in
  let output := header timestamp in
  output <-
    for_each categories (fun category output =>
      let '(category_name, files) := category in
      let output := output ++ category_banner category_name in
      for_each files (fun filepath output =>
        content <- read_file filepath ;;
        if truthy content
        then ret (output ++ wrap_file_content filepath content)
        else ret output) output) output ;;
  let output := output ++ footer in
  ret output.

Definition print_usage : Proc unit :=
  print (lit "Usage: python flatten.py <output_file>") ;;;
  print [] ;;;
  print (lit "Arguments:") ;;;
  print (lit "  output_file    Path where the flattened config will be written") ;;;
  print [] ;;;
  print (lit "Examples:") ;;;
  print (lit "  python flatten.py init-flat.lua") ;;;
  print (lit "  python flatten.py ~/backups/nvim-config.lua") ;;;
  print (lit "  python flatten.py /tmp/my-nvim-config.lua").

(** [main()], with [sys.argv] as [argv]. *)
Definition main (argv : list str) : Proc unit :=
  match argv with
  | [] | [_] => print_usage ;;; sys_exit 1
  | _ :: arg1 :: _ =>
      if mem arg1 [lit "-h"; lit "--help"] then print_usage ;;; sys_exit 0
      else
        let output_file := expanduser_resolve arg1 in
        mkdir_parents (parent output_file) ;;;
        print [] ;;;
        print (lit "╔══════════════════════════════════════════════════════════════════════╗") ;;;
        print (lit "║                    NEOVIM CONFIG FLATTENER                           ║") ;;;
        print (lit "╚══════════════════════════════════════════════════════════════════════╝") ;;;
        print [] ;;;
        print (lit "Source directory: " ++ NVIM_CONFIG_DIR) ;;;
        print (lit "Output file:      " ++ output_file) ;;;
        print [] ;;;
        found <- path_exists (joinpath NVIM_CONFIG_DIR (lit "init.lua")) ;;
        (if negb found then
           print (lit "ERROR: init.lua not found in config directory!") ;;;
           print (lit "Make sure this script is in your ~/.config/nvim/ directory.") ;;;
           sys_exit 1
         else ret tt) ;;;
        print (lit "Processing files:") ;;;
        print rule50 ;;;
        flat_config <- generate_flat_config ;;
        print rule50 ;;;
        print [] ;;;
        print (lit "Writing to " ++ output_file ++ lit "...") ;;;
        open_w output_file ;;;
        f_write output_file flat_config ;;;
        let line_count := count_nl flat_config in
        let file_size := length flat_config in
        print [] ;;;
        print (lit "╔══════════════════════════════════════════════════════════════════════╗") ;;;
        print (lit "║                           COMPLETE                                   ║") ;;;
        print (lit "╚══════════════════════════════════════════════════════════════════════╝") ;;;
        print [] ;;;
        print (lit "  Lines:    " ++ format_commas line_count) ;;;
        print (lit "  Size:     " ++ format_commas file_size ++ lit " bytes (" ++
               format_kb file_size ++ lit " KB)") ;;;
        print (lit "  Files:    " ++ str_of_nat (length ALL_FILES) ++ lit " embedded") ;;;
        print [] ;;;
        print (lit "To reconstruct the modular config:") ;;;
        print (lit "  python unflatten.py " ++ output_file ++ lit " <output_directory>") ;;;
        print []
  end.

End Script.
End Flatten.

(** ** unflatten.py *)

Module Unflatten.

(** The pattern [-- @FILE_START: (.+?)\n(.*?)-- @FILE_END: \1] tried at the
    head of [s]: the two groups and the text after the match.  The end of
    the pattern is the back-reference: nothing is asked of the character
    that follows it. *)
Definition match_file_block (s : str) : option (str * str * str) :=
  re_lit FILE_START
    (re_lazy_plus (fun g1 =>
       re_lit [nl]
         (re_lazy_star (fun g2 =>
            re_lit (FILE_END ++ g1) (fun rest => Some (g1, g2, rest))) [])))
    s.

(** [re.findall(pattern, content, re.DOTALL)]: the groups of the matches
    from left to right, without overlap; the scan resumes where a match
    ended and moves on by one character where there is none.  A match of
    this pattern is never empty, so fuel equal to the length of the text is
    never used up. *)
Fixpoint findall_fuel (fuel : nat) (s : str) : list (str * str) :=
  match fuel with
  | 0 => []
  | S fuel' =>
      match match_file_block s with
      | Some (g1, g2, rest) => (g1, g2) :: findall_fuel fuel' rest
      | None =>
          match s with
          | [] => []
          | _ :: s' => findall_fuel fuel' s'
          end
      end
  end.

Definition findall (content : str) : list (str * str) :=
  findall_fuel (length content) content.

(** The body of the loop over the matches. *)
Definition parse_step (files : dict) (m : str * str) : dict :=
  let '(filepath, file_content) := m in
  let file_content := rstrip_nl file_content in
  dict_set files filepath file_content.

Definition parse_flattened_file (content : str) : dict :=
  let files := [] in
  let matches := findall content in
  fold_left parse_step matches files.

Definition META_START : str := lit "-- @FLATTEN_METADATA_START".
Definition META_END : str := lit "-- @FLATTEN_METADATA_END".

(** [-- @FLATTEN_METADATA_START\n(.*?)-- @FLATTEN_METADATA_END] tried at the
    head of [s]: the group. *)
Definition match_meta_block (s : str) : option str :=
  re_lit (META_START ++ [nl])
    (re_lazy_star (fun g1 => re_lit META_END (fun _ => Some g1)) [])
    s.

(** One line of the metadata block.  [key, value = ....split(': ', 1)]
    raises [ValueError] when the split gives one piece: that is [None]. *)
Definition parse_meta_line (metadata : dict) (line : str) : option dict :=
  let line := strip line in
  if startswith line (lit "-- ") && contains (lit ": ") line then
    match split_once (lit ": ") (skipn 3 line) with
    | [key; value] => Some (dict_set metadata key value)
    | _ => None
    end
  else Some metadata.

Fixpoint parse_meta_lines (metadata : dict) (lines : list str) : option dict :=
  match lines with
  | [] => Some metadata
  | line :: lines' =>
      match parse_meta_line metadata line with
      | Some metadata' => parse_meta_lines metadata' lines'
      | None => None
      end
  end.

(** [parse_metadata(content)]; [None] when it raises. *)
Definition parse_metadata (content : str) : option dict :=
  let metadata := [] in
  match re_search match_meta_block content with
  | Some meta_content => parse_meta_lines metadata (split_nl meta_content)
  | None => Some metadata
  end.

(** The block [with open(full_path, 'w') as f:] of [unflatten]: the content
    is written, then a line break when the content does not end with
    one. *)
Definition write_file (full_path file_content : str) : Proc unit :=
  open_w full_path ;;;
  f_write full_path file_content ;;;
  if negb (endswith_nl file_content) then f_write full_path [nl] else ret tt.

Section Script.
Context `{Host}.

(** The body of the loop over [files.items()]; the local variables are
    [created_files] and [created_dirs]. *)
Definition write_entry (output_path : str) (entry : str * str)
    (locals : list str * list str) : Proc (list str * list str) :=
  let '(filepath, file_content) := entry in
  let '(created_files, created_dirs) := locals in
  let full_path := joinpath output_path filepath in
  let parent_dir := parent full_path in
  created_dirs <-
    (if negb (mem parent_dir created_dirs) then
       mkdir_parents parent_dir ;;;
       ret (created_dirs ++ [parent_dir])
     else ret created_dirs) ;;
  write_file full_path file_content ;;;
  let line_count := splitlines_len file_content in
  print (lit "  [OK] " ++ filepath ++ lit " (" ++ str_of_nat line_count ++
         lit " lines)") ;;;
  ret (created_files ++ [filepath], created_dirs).

Definition unflatten (input_file output_dir : str) : Proc (list str) :=
  print [] ;;;
  print (lit "╔══════════════════════════════════════════════════════════════════════╗") ;;;
  print (lit "║                   NEOVIM CONFIG UNFLATTENER                          ║") ;;;
  print (lit "╚══════════════════════════════════════════════════════════════════════╝") ;;;
  print [] ;;;
  let input_path := input_file in
  found <- path_exists input_path ;;
  (if negb found then
     print (lit "ERROR: Input file not found: " ++ input_file) ;;;
     sys_exit 1
   else ret tt) ;;;
  print (lit "Input file:  " ++ input_path) ;;;
  print (lit "Output dir:  " ++ output_dir) ;;;
  print [] ;;;
  content <- read_text input_path ;;
  metadata <- match parse_metadata content with
              | Some metadata => ret metadata
              | None => raise (lit "ValueError")
              end ;;
  (if negb (is_empty_dict metadata) then
     print (lit "Metadata from flattened file:") ;;;
     print rule50 ;;;
     for_each metadata (fun item (_ : unit) =>
       let '(key, value) := item in
       if negb (str_eqb key (lit "files"))
       then print (lit "  " ++ key ++ lit ": " ++ value)
       else ret tt) tt ;;;
     print rule50 ;;;
     print []
   else ret tt) ;;;
  print (lit "Extracting files:") ;;;
  print rule50 ;;;
  let files := parse_flattened_file content in
  (if is_empty_dict files then
     print (lit "ERROR: No files found in flattened config!") ;;;
     print (lit "Make sure the file was created by flatten.py") ;;;
     sys_exit 1
   else ret tt) ;;;
  let output_path := output_dir in
  mkdir_parents output_path ;;;
  locals <- for_each files (write_entry output_path) ([], []) ;;
  let '(created_files, created_dirs) := locals in
  print rule50 ;;;
  print [] ;;;
  print (lit "╔══════════════════════════════════════════════════════════════════════╗") ;;;
  print (lit "║                           COMPLETE                                   ║") ;;;
  print (lit "╚══════════════════════════════════════════════════════════════════════╝") ;;;
  print [] ;;;
  print (lit "  Files created:       " ++ str_of_nat (length created_files)) ;;;
  print (lit "  Directories created: " ++ str_of_nat (length created_dirs)) ;;;
  print (lit "  Output location:     " ++ resolve output_path) ;;;
  print [] ;;;
  print (lit "Created structure:") ;;;
  tree <- (fun w => (Done (print_tree_lines (disk w) output_path), w)) ;;
  for_each tree (fun line (_ : unit) => print line) tt ;;;
  print [] ;;;
  print (lit "To use this config:") ;;;
  print (lit "  1. Backup your existing ~/.config/nvim/") ;;;
  print (lit "  2. Copy contents: cp -r " ++ output_path ++ lit "/* ~/.config/nvim/") ;;;
  print (lit "  3. Or symlink: ln -s " ++ resolve output_path ++ lit " ~/.config/nvim") ;;;
  print [] ;;;
  ret created_files.

Definition print_usage : Proc unit :=
  print (lit "Usage: python unflatten.py <flattened_file> <output_directory>") ;;;
  print [] ;;;
  print (lit "Arguments:") ;;;
  print (lit "  flattened_file    Path to the flattened config file (from flatten.py)") ;;;
  print (lit "  output_directory  Directory where the modular config will be created") ;;;
  print [] ;;;
  print (lit "Examples:") ;;;
  print (lit "  python unflatten.py init-flat.lua ./nvim-config/") ;;;
  print (lit "  python unflatten.py ~/backups/nvim-config.lua ~/.config/nvim/") ;;;
  print (lit "  python unflatten.py /tmp/config.lua ~/my-nvim-setup/").

(** [main()], with [sys.argv] as [argv]. *)
Definition main (argv : list str) : Proc unit :=
  match argv with
  | [] | [_] | [_; _] => print_usage ;;; sys_exit 1
  | _ :: arg1 :: arg2 :: _ =>
      if mem arg1 [lit "-h"; lit "--help"] then print_usage ;;; sys_exit 0
      else
        let input_file := expanduser_resolve arg1 in
        let output_dir := expanduser_resolve arg2 in
        unflatten input_file output_dir ;;;
        ret tt
  end.

End Script.

(** What [print_tree] sees of a directory: the entries [iterdir] lists, in
    the order in which it lists them.  An entry is a file, a directory with
    its own entries, or something that is neither (a broken link, a
    socket). *)
#[warnings="-register-all"] Inductive entry : Type :=
| File (name : str)
| Dir (name : str) (entries : list entry)
| Other (name : str).

(** [entry.name] *)
Definition entry_name (e : entry) : str :=
  match e with
  | File name => name
  | Dir name _ => name
  | Other name => name
  end.

(** [entry.is_file()] *)
Definition is_file (e : entry) : bool :=
  match e with
  | File _ => true
  | _ => false
  end.

(** [a <= b] for two strings: by code points, which is the order of the
    bytes of UTF-8. *)
Fixpoint str_leb (a b : str) : bool :=
  match a, b with
  | [], _ => true
  | _ :: _, [] => false
  | x :: a', y :: b' =>
      (nat_of_ascii x <? nat_of_ascii y) ||
      ((nat_of_ascii x =? nat_of_ascii y) && str_leb a' b')
  end.

(** The order of the keys [(x.is_file(), x.name)]: [False] comes before
    [True], then the names decide. *)
Definition key_leb (a b : entry) : bool :=
  match is_file a, is_file b with
  | false, true => true
  | true, false => false
  | _, _ => str_leb (entry_name a) (entry_name b)
  end.

(** [sorted(..., key=...)]: a stable sort, here by insertion. *)
Fixpoint insert_sorted (e : entry) (es : list entry) : list entry :=
  match es with
  | [] => [e]
  | x :: es' => if key_leb e x then e :: es else x :: insert_sorted e es'
  end.

Fixpoint sorted (es : list entry) : list entry :=
  match es with
  | [] => []
  | e :: es' => insert_sorted e (sorted es')
  end.

(** [enumerate(entries)] *)
Definition enumerate {A : Type} (xs : list A) : list (nat * A) :=
  combine (seq 0 (length xs)) xs.

(** [print_tree(directory, prefix)], for the entries of [directory].
    [calls] is the number of nested calls of [print_tree] the interpreter
    still allows (its recursion limit, less the calls that are open): the
    function calls itself once for every directory, and a call beyond the
    limit raises [RecursionError]. *)
Fixpoint print_tree (calls : nat) (directory : list entry) (prefix : str)
    : Proc unit :=
  match calls with
  | 0 => raise (lit "RecursionError")
  | S calls' =>
      let entries := sorted directory in
      for_each (enumerate entries) (fun item (_ : unit) =>
        let '(i, entry) := item in
        let is_last := i =? length entries - 1 in
        let connector := if is_last then lit "└── " else lit "├── " in
        match entry with
        | Dir name sub =>
            print (prefix ++ connector ++ name ++ lit "/") ;;;
            let extension := if is_last then lit "    " else lit "│   " in
            print_tree calls' sub (prefix ++ extension)
        | File name | Other name =>
            print (prefix ++ connector ++ name)
        end) tt
  end.

End Unflatten.

(** ** Vocabulary of the properties *)

(** The bundle text of a document set: the wrapped sections, one after the
    other. *)
Definition encode (docs : dict) : str :=
  concat (map (fun d => Flatten.wrap_file_content (fst d) (Some (snd d))) docs).

(** A text with a line break at its end: the text itself when it has one. *)
Definition with_trailing_nl (c : str) : str :=
  if endswith_nl c then c else c ++ [nl].

(** The files a document set becomes once every document went through
    [Unflatten.write_file]. *)
Definition materialize (docs : dict) : dict :=
  map (fun d => (fst d, with_trailing_nl (snd d))) docs.

(** The text ends with an empty line: with two line breaks. *)
Definition ends_with_blank_line (c : str) : bool :=
  endswith_nl c && endswith_nl (removelast c).

(** A logical path the sentinels can carry: not empty, on one line. *)
Definition path_ok (p : str) : Prop :=
  p <> [] /\ ~ In nl p.

(** A content that does not show the end sentinel of its own path. *)
Definition content_ok (p c : str) : Prop :=
  contains (FILE_END ++ p) c = false.

(** Round trip, as the design states it: after decoding and writing, every
    document is back, in order, with a line break added where the content
    had none at its end. *)
Definition roundtrip (docs : dict) : Prop :=
  materialize (Unflatten.parse_flattened_file (encode docs)) = materialize docs.

(** [a] and [b] agree as far as both go: one is the beginning of the
    other. *)
Fixpoint compatible (a b : str) : bool :=
  match a, b with
  | x :: a', y :: b' => Ascii.eqb x y && compatible a' b'
  | _, _ => true
  end.

(** The scan of [Unflatten.findall] over a text that is the beginning of a
    bundle: [Some] matches when every start sentinel the scan meets is
    closed within the text and the text does not stop inside one, so that
    whatever follows is scanned from its first character. *)
Fixpoint closed_prefix_fuel (fuel : nat) (pre : str) : option (list (str * str)) :=
  match fuel with
  | 0 => match pre with [] => Some [] | _ :: _ => None end
  | S fuel' =>
      match Unflatten.match_file_block pre with
      | Some (g1, g2, rest) =>
          match closed_prefix_fuel fuel' rest with
          | Some ms => Some ((g1, g2) :: ms)
          | None => None
          end
      | None =>
          match pre with
          | [] => Some []
          | _ :: pre' =>
              if compatible FILE_START pre then None
              else closed_prefix_fuel fuel' pre'
          end
      end
  end.

(** The collector of the design: the expected paths that exist, with their
    content, in the order requested. *)
Fixpoint collector `{Host} (files : dict) (paths : list str) : dict :=
  match paths with
  | [] => []
  | p :: paths' =>
      match dict_get files (joinpath NVIM_CONFIG_DIR p) with
      | Some content => (p, content) :: collector files paths'
      | None => collector files paths'
      end
  end.

(** The bundle of the design: the header, then category by category the
    banner and a wrapped section for every collected document, then the
    footer. *)
Definition expected_bundle `{Host} (files : dict) : str :=
  Flatten.header now_strftime ++
  concat (map (fun category =>
                 Flatten.category_banner (fst category) ++
                 encode (collector files (snd category)))
              Flatten.categories) ++
  Flatten.footer.

(** The line [read_file] prints for a path that is not there. *)
Definition skip_report (filepath : str) : str :=
  lit "  [SKIP] " ++ filepath ++ lit " (not found)".

(** The number of start sentinel lines in a text. *)
Definition count_sections (text : str) : nat :=
  length (filter (fun line => startswith line FILE_START) (split_nl text)).

(** A host for the examples: paths are joined with a slash, nothing is
    resolved, the clock stands still. *)
Fixpoint dirname_rev (r : str) : str :=
  match r with
  | [] => []
  | c :: r' => if Ascii.eqb c "/"%char then r' else dirname_rev r'
  end.

Definition sample_host : Host := {|
  joinpath := fun a b => a ++ lit "/" ++ b;
  parent := fun p => rev (dirname_rev (rev p));
  parents := fun _ => [];
  expanduser_resolve := fun p => p;
  resolve := fun p => p;
  NVIM_CONFIG_DIR := lit "/cfg";
  now_strftime := lit "2024-01-02 03:04:05";
  format_kb := fun n => str_of_nat (n / 1024) ++ lit ".0";
  print_tree_lines := fun _ _ => []
|}.

Definition world_of (files : dict) : World :=
  mkWorld (mkFS files []) [].

(** The line [read_file] prints for a path that is there. *)
Definition ok_report (filepath content : str) : str :=
  lit "  [OK]   " ++ filepath ++ lit " (" ++
  str_of_nat (splitlines_len content) ++ lit " lines)".

(** The line [read_file] prints for a path. *)
Definition read_report `{Host} (files : dict) (filepath : str) : str :=
  match dict_get files (joinpath NVIM_CONFIG_DIR filepath) with
  | Some content => ok_report filepath content
  | None => skip_report filepath
  end.

(** What one turn of the inner loop of [generate_flat_config] adds to the
    output. *)
Definition emitted_section `{Host} (files : dict) (filepath : str) : str :=
  let content := dict_get files (joinpath NVIM_CONFIG_DIR filepath) in
  if Flatten.truthy content
  then Flatten.wrap_file_content filepath content
  else [].

(** The text [generate_flat_config] returns, loop by loop. *)
Definition emitted_bundle `{Host} (files : dict) : str :=
  Flatten.header now_strftime ++
  concat (map (fun category =>
                 Flatten.category_banner (fst category) ++
                 concat (map (emitted_section files) (snd category)))
              Flatten.categories) ++
  Flatten.footer.

(** The metadata block with the count and the list written out. *)
Definition reported_metadata `{Host} : str :=
  Flatten.text_lines [
    lit "-- @FLATTEN_METADATA_START";
    lit "-- generator: flatten.py";
    lit "-- timestamp: " ++ now_strftime;
    lit "-- source_dir: " ++ NVIM_CONFIG_DIR;
    lit "-- file_count: 19";
    lit "-- files: init.lua, lua/config/options.lua, lua/config/keymaps.lua, lua/config/autocmds.lua, lua/config/lazy.lua, lua/plugins/init.lua, lua/plugins/colorscheme.lua, lua/plugins/ui.lua, lua/plugins/editor.lua, lua/plugins/telescope.lua, lua/plugins/lsp.lua, lua/plugins/completion.lua, lua/plugins/flash.lua, lua/plugins/git.lua, lua/plugins/copilot.lua, lua/plugins/aerial.lua, lua/plugins/diffview.lua, lua/plugins/oil.lua, lua/plugins/treesitter-textobjects.lua";
    lit "-- @FLATTEN_METADATA_END"
  ].

(** The banner: the lines of the header before the metadata block. *)
Definition banner_text `{Host} : str :=
  Flatten.text_lines (firstn 52 (Flatten.header_lines now_strftime)).



(** ** Example inputs *)

(** Three documents: a usual one, an empty one, one with an empty line
    inside, a character beyond ASCII and no line break at its end. *)
Definition docs_plain : dict := [
  (lit "a.txt", lit "hello" ++ [nl]);
  (lit "b.txt", []);
  (lit "lua/c.lua", lit "x" ++ [nl; nl] ++ lit "caf" ++ [byte 195; byte 169])
].

(** A document whose content shows the end sentinel of its own path. *)
Definition docs_end_sentinel : dict := [
  (lit "a.txt",
   lit "x" ++ [nl] ++ lit "-- @FILE_END: a.txt" ++ [nl] ++ lit "y" ++ [nl])
].

(** A usual text file: one line and its line break. *)
Definition docs_one_line : dict := [
  (lit "a.txt", lit "hello" ++ [nl])
].

(** Two paths, one the beginning of the other; the first content shows
    the end sentinel of the second path. *)
Definition docs_prefix_paths : dict := [
  (lit "a.lua",
   lit "x" ++ [nl] ++ lit "-- @FILE_END: a.lua.bak" ++ [nl] ++ lit "y");
  (lit "a.lua.bak", lit "z")
].

(** A text that ends with two empty lines. *)
Definition docs_blank_lines : dict := [
  (lit "a.txt", lit "hello" ++ [nl; nl; nl])
].

(** The command lines of the examples. *)
Definition flatten_argv : list str := [lit "flatten.py"; lit "/out/flat.lua"].

Definition unflatten_argv : list str :=
  [lit "unflatten.py"; lit "/out/flat.lua"; lit "/new"].

(** A configuration directory with the entry point and one plugin file;
    the other seventeen expected paths are not there. *)
Definition world_two_files : World :=
  world_of [
    (lit "/cfg/init.lua", lit "require('config.lazy')" ++ [nl]);
    (lit "/cfg/lua/plugins/ui.lua", lit "return {}" ++ [nl])
  ].

(** A configuration directory without its entry point. *)
Definition world_no_init : World :=
  world_of [
    (lit "/cfg/lua/config/options.lua", lit "vim.opt.number = true" ++ [nl])
  ].

(** A configuration directory whose plugin loader is an empty file. *)
Definition world_empty_file : World :=
  world_of [
    (lit "/cfg/init.lua", lit "require('config.lazy')" ++ [nl]);
    (lit "/cfg/lua/plugins/init.lua", [])
  ].

(** A text file that is no bundle, where the decoder is told to look. *)
Definition world_not_a_bundle : World :=
  world_of [(lit "/out/flat.lua", lit "not a bundle")].

(** The sections of [docs_plain], where the decoder is told to look. *)
Definition world_bundle : World :=
  world_of [(lit "/out/flat.lua", encode docs_plain)].


(** Two paths, one the beginning of the other, with contents that do not
    show the end sentinel of their own path; the second shows the end
    sentinel of the first. *)
Definition docs_prefix_apart : dict := [
  (lit "a.lua", lit "x");
  (lit "a.lua.bak", lit "-- @FILE_END: a.lua" ++ [nl] ++ lit "y")
].

(** ** Vocabulary of the further properties *)

(** At every position of [a], the literal [l] and what is left of [a]
    differ: [l] does not begin in [a], whatever follows [a]. *)
Fixpoint clear_of (l a : str) : bool :=
  match a with
  | [] => true
  | _ :: a' => negb (compatible l a) && clear_of l a'
  end.

(** The documents a bundle embeds: the expected paths that are there with
    a text that is not empty, in the order requested. *)
Fixpoint embedded `{Host} (files : dict) (paths : list str) : dict :=
  match paths with
  | [] => []
  | p :: paths' =>
      match dict_get files (joinpath NVIM_CONFIG_DIR p) with
      | Some (c :: content) => (p, c :: content) :: embedded files paths'
      | _ => embedded files paths'
      end
  end.

(** The example of a section in the banner, as the pattern of the parser
    matches it. *)
Definition banner_example : str * str :=
  (lit "path/to/file.lua",
   lit "      ... original file contents ..." ++ [nl] ++ lit "      ").

(** The text ends with a visible character of ASCII. *)
Definition ends_visible (x : str) : bool :=
  match rev x with
  | b :: _ => (33 <=? nat_of_ascii b) && (nat_of_ascii b <=? 126)
  | [] => false
  end.

(** What the two lines that bound the metadata block begin with. *)
Definition META_TAG : str := lit "-- @FLATTEN_METADATA_".

(** A value the metadata block carries to the decoder as it is: on one
    line, without the text that bounds the block, ending with a visible
    character. *)
Definition metadata_value (x : str) : Prop :=
  count_nl x = 0 /\ contains META_TAG x = false /\ ends_visible x = true.

(** The dictionary the header of the encoder spells out. *)
Definition written_metadata `{Host} : dict := [
  (lit "generator", lit "flatten.py");
  (lit "timestamp", now_strftime);
  (lit "source_dir", NVIM_CONFIG_DIR);
  (lit "file_count", str_of_nat (length Flatten.ALL_FILES));
  (lit "files", join (lit ", ") Flatten.ALL_FILES)
].

(** The entries below an entry, itself included, at every depth. *)
Fixpoint count_entries (e : Unflatten.entry) : nat :=
  match e with
  | Unflatten.Dir _ sub => S (list_sum (map count_entries sub))
  | _ => 1
  end.

(** The text has no carriage return.  A read in text mode turns [\r\n] and
    [\r] into [\n]: a text without carriage return is read with the line
    breaks it is stored with. *)
Definition no_cr (c : str) : bool :=
  forallb (fun x => negb (Ascii.eqb x "013"%char)) c.

(** The byte is in the range from [lo] to [hi]. *)
Definition in_range (lo hi : nat) (b : ascii) : bool :=
  (lo <=? nat_of_ascii b) && (nat_of_ascii b <=? hi).

(** The bytes are well-formed UTF-8, which is what the strict decoder
    takes: shortest forms only, no surrogates, nothing beyond U+10FFFF. *)
Fixpoint valid_utf8 (s : str) : bool :=
  match s with
  | [] => true
  | b0 :: s1 =>
      let n := nat_of_ascii b0 in
      if n <? 128 then valid_utf8 s1
      else if in_range 194 223 b0 then
        match s1 with
        | b1 :: s2 => in_range 128 191 b1 && valid_utf8 s2
        | _ => false
        end
      else if in_range 224 239 b0 then
        match s1 with
        | b1 :: b2 :: s3 =>
            in_range (if n =? 224 then 160 else 128)
                     (if n =? 237 then 159 else 191) b1 &&
            in_range 128 191 b2 && valid_utf8 s3
        | _ => false
        end
      else if in_range 240 244 b0 then
        match s1 with
        | b1 :: b2 :: b3 :: s4 =>
            in_range (if n =? 240 then 144 else 128)
                     (if n =? 244 then 143 else 191) b1 &&
            in_range 128 191 b2 && in_range 128 191 b3 && valid_utf8 s4
        | _ => false
        end
      else false
  end.

(** A text that a read in text mode returns as it is stored: it decodes,
    and it has no carriage return for the read to turn into a line
    break. *)
Definition plain_text (c : str) : bool :=
  valid_utf8 c && no_cr c.

(** No path is a file and a directory at once. *)
Definition proper_tree (fs : FS) : bool :=
  forallb (fun d => match dict_get (fs_files fs) d with
                    | Some _ => false
                    | None => true
                    end)
          (fs_dirs fs).

(** How deep the directories below an entry go. *)
Fixpoint depth (e : Unflatten.entry) : nat :=
  match e with
  | Unflatten.Dir _ sub => S (list_max (map depth sub))
  | _ => 0
  end.

(** The calls of [print_tree] that are open, beyond the first, when it is
    in the deepest directory of a listing. *)
Definition height (directory : list Unflatten.entry) : nat :=
  list_max (map depth directory).

(** No two of the texts are the same. *)
Fixpoint all_differ (xs : list str) : bool :=
  match xs with
  | [] => true
  | x :: xs' => negb (mem x xs') && all_differ xs'
  end.

(** In every directory below the entry the names differ. *)
Fixpoint distinct_below (e : Unflatten.entry) : bool :=
  match e with
  | Unflatten.Dir _ sub =>
      all_differ (map Unflatten.entry_name sub) && forallb distinct_below sub
  | _ => true
  end.

(** The names differ in the listing and in every directory below it, as
    they do in a file system. *)
Definition names_differ (directory : list Unflatten.entry) : bool :=
  all_differ (map Unflatten.entry_name directory) &&
  forallb distinct_below directory.

(** Two listings of the same tree: the same entries, the entries of every
    directory, at every depth, in any order. *)
Inductive same_tree : list Unflatten.entry -> list Unflatten.entry -> Prop :=
| same_refl (es : list Unflatten.entry) : same_tree es es
| same_swap (a b : Unflatten.entry) (es : list Unflatten.entry) :
    same_tree (a :: b :: es) (b :: a :: es)
| same_cons (e : Unflatten.entry) (es es' : list Unflatten.entry) :
    same_tree es es' -> same_tree (e :: es) (e :: es')
| same_below (name : str) (sub sub' es : list Unflatten.entry) :
    same_tree sub sub' ->
    same_tree (Unflatten.Dir name sub :: es) (Unflatten.Dir name sub' :: es)
| same_trans (es es' es'' : list Unflatten.entry) :
    same_tree es es' -> same_tree es' es'' -> same_tree es es''.

(** Two entries for which [print_tree] prints the same: the same kind and
    name, and for two directories the same lines for what is below,
    whatever the number of calls left. *)
Definition prints_alike (a b : Unflatten.entry) : Prop :=
  match a, b with
  | Unflatten.File n, Unflatten.File m => n = m
  | Unflatten.Other n, Unflatten.Other m => n = m
  | Unflatten.Dir n sub, Unflatten.Dir m sub' =>
      n = m /\
      forall (calls : nat) (prefix : str) (w : World),
        Unflatten.print_tree calls sub prefix w =
        Unflatten.print_tree calls sub' prefix w
  | _, _ => False
  end.

(** ** Further example inputs *)

(** Three sections, two of them for the same path. *)
Definition docs_same_path : dict := [
  (lit "a.lua", lit "first");
  (lit "b.lua", lit "other");
  (lit "a.lua", lit "second" ++ [nl])
].

(** The beginning of a section that is not closed. *)
Definition unclosed_section : str :=
  lit "-- @FILE_START: b.txt" ++ [nl] ++ lit "cut he".

(** A command line that asks for help and names nothing else. *)
Definition unflatten_help_argv : list str := [lit "unflatten.py"; lit "--help"].

(** An output directory as [iterdir] may list it, and the same tree with
    the entries in another order, in the directory itself and in two of
    the directories below. *)
Definition sample_tree : list Unflatten.entry := [
  Unflatten.File (lit "init.lua");
  Unflatten.Dir (lit "lua") [
    Unflatten.Dir (lit "plugins")
      [Unflatten.File (lit "ui.lua"); Unflatten.File (lit "git.lua")];
    Unflatten.Dir (lit "config") [Unflatten.File (lit "options.lua")]
  ];
  Unflatten.File (lit "README.md")
].

Definition sample_tree_shuffled : list Unflatten.entry := [
  Unflatten.File (lit "README.md");
  Unflatten.File (lit "init.lua");
  Unflatten.Dir (lit "lua") [
    Unflatten.Dir (lit "config") [Unflatten.File (lit "options.lua")];
    Unflatten.Dir (lit "plugins")
      [Unflatten.File (lit "git.lua"); Unflatten.File (lit "ui.lua")]
  ]
].

(** A chain of [n] directories, one in the other. *)
Fixpoint chain (n : nat) : list Unflatten.entry :=
  match n with
  | 0 => []
  | S n' => [Unflatten.Dir (lit "d") (chain n')]
  end.




(** A line of a metadata block with blanks around it and a value that
    holds the separator. *)
Definition metadata_line_sample : str :=
  lit "  -- source_dir: /home/me: old/nvim  ".

(** * Properties *)

(** ** Text *)

Lemma str_eqb_eq (a b : str) : str_eqb a b = true <-> a = b.
Proof.
  revert b; induction a as [|x a IH]; intros [|y b]; simpl;
    try (split; (reflexivity || discriminate)).
  rewrite andb_true_iff, Ascii.eqb_eq, IH.
  split; [intros [-> ->]; reflexivity | intros E; inversion E; auto].
Qed.

Lemma str_eqb_refl (a : str) : str_eqb a a = true.
Proof. apply str_eqb_eq; reflexivity. Qed.

Lemma str_eqb_neq (a b : str) : a <> b -> str_eqb a b = false.
Proof.
  intros N. destruct (str_eqb a b) eqn:E; [|reflexivity].
  apply str_eqb_eq in E. contradiction.
Qed.

Lemma starts_with_app (p s : str) : starts_with p (p ++ s) = Some s.
Proof.
  induction p as [|a p IH]; simpl; [reflexivity|].
  rewrite Ascii.eqb_refl. exact IH.
Qed.

Lemma starts_with_Some (p s r : str) :
  starts_with p s = Some r -> s = p ++ r.
Proof.
  revert s; induction p as [|a p IH]; intros s; simpl.
  - intros E; inversion E; reflexivity.
  - destruct s as [|b s]; [discriminate|].
    destruct (Ascii.eqb a b) eqn:E; [|discriminate].
    apply Ascii.eqb_eq in E; subst b.
    intros E; apply IH in E; subst s; reflexivity.
Qed.

Lemma starts_with_Some_app (p s r x : str) :
  starts_with p s = Some r -> starts_with p (s ++ x) = Some (r ++ x).
Proof.
  intros E. apply starts_with_Some in E. subst s.
  rewrite <- app_assoc. apply starts_with_app.
Qed.

(** A failure on a text at least as long as the literal is a mismatch: more
    text does not mend it. *)
Lemma starts_with_None_app (p s x : str) :
  starts_with p s = None -> length p <= length s ->
  starts_with p (s ++ x) = None.
Proof.
  revert s; induction p as [|a p IH]; intros s; simpl; [discriminate|].
  destruct s as [|b s]; simpl; [lia|].
  destruct (Ascii.eqb a b); [|reflexivity].
  intros E L. apply IH; [exact E | lia].
Qed.

Lemma starts_with_None_head (p s : str) (a b : ascii) :
  a <> b -> starts_with (a :: p) (b :: s) = None.
Proof.
  intros N. simpl. destruct (Ascii.eqb a b) eqn:E; [|reflexivity].
  apply Ascii.eqb_eq in E. contradiction.
Qed.

Lemma startswith_true (s p : str) :
  startswith s p = true <-> exists r, s = p ++ r.
Proof.
  unfold startswith. split.
  - destruct (starts_with p s) eqn:E; [|discriminate].
    intros _. exists s0. apply starts_with_Some; exact E.
  - intros [r ->]. rewrite starts_with_app. reflexivity.
Qed.

Lemma contains_true (t s : str) :
  contains t s = true <-> exists a b, s = a ++ t ++ b.
Proof.
  induction s as [|c s IH]; simpl; rewrite orb_true_iff, startswith_true.
  - split.
    + intros [[r E]|F]; [|discriminate]. exists [], r. exact E.
    + intros (a & b & E). left. destruct a; [|discriminate].
      exists b. exact E.
  - rewrite IH. split.
    + intros [[r E]|(a & b & E)].
      * exists [], r. exact E.
      * exists (c :: a), b. simpl. rewrite E. reflexivity.
    + intros (a & b & E). destruct a as [|x a]; simpl in E.
      * left. exists b. exact E.
      * right. inversion E. exists a, b. reflexivity.
Qed.

Lemma contains_false (t s a b : str) :
  contains t s = false -> s <> a ++ t ++ b.
Proof.
  intros F E.
  assert (T : contains t s = true) by (apply contains_true; eauto).
  rewrite T in F. discriminate.
Qed.

Lemma endswith_nl_snoc (s : str) (c : ascii) :
  endswith_nl (s ++ [c]) = Ascii.eqb c nl.
Proof.
  induction s as [|a s IH]; [reflexivity|].
  simpl. destruct (s ++ [c]) eqn:E; [destruct s; discriminate|].
  exact IH.
Qed.

Lemma endswith_nl_true (s : str) :
  endswith_nl s = true <-> exists b, s = b ++ [nl].
Proof.
  split.
  - destruct s as [|a s] using rev_ind; [discriminate|].
    rewrite endswith_nl_snoc. intros E. apply Ascii.eqb_eq in E. subst.
    eauto.
  - intros [b ->]. rewrite endswith_nl_snoc. apply Ascii.eqb_refl.
Qed.

Lemma rstrip_nl_snoc_nl (s : str) : rstrip_nl (s ++ [nl]) = rstrip_nl s.
Proof.
  induction s as [|c s IH]; simpl.
  - reflexivity.
  - rewrite IH. reflexivity.
Qed.

Lemma rstrip_nl_snoc_other (s : str) (c : ascii) :
  c <> nl -> rstrip_nl (s ++ [c]) = s ++ [c].
Proof.
  intros N. induction s as [|a s IH]; simpl.
  - destruct (Ascii.eqb c nl) eqn:E; [|reflexivity].
    apply Ascii.eqb_eq in E. contradiction.
  - rewrite IH. destruct (s ++ [c]) eqn:E; [destruct s; discriminate|].
    reflexivity.
Qed.

Lemma rstrip_nl_repeat (s : str) (k : nat) :
  rstrip_nl (s ++ repeat nl k) = rstrip_nl s.
Proof.
  induction k as [|k IH]; simpl.
  - rewrite app_nil_r. reflexivity.
  - rewrite repeat_cons, app_assoc, rstrip_nl_snoc_nl. exact IH.
Qed.

Lemma ascii_eqb_neq {a b : ascii} : a <> b -> Ascii.eqb a b = false.
Proof.
  intros N. destruct (Ascii.eqb a b) eqn:E; [|reflexivity].
  apply Ascii.eqb_eq in E. contradiction.
Qed.

(** What [rstrip_nl] returns and what it took away: the text is the result
    followed by line breaks only, and the result does not end with one. *)
Lemma rstrip_nl_spec (s : str) :
  endswith_nl (rstrip_nl s) = false /\
  exists k, s = rstrip_nl s ++ repeat nl k.
Proof.
  induction s as [|c s [IH1 [k IH2]]] using rev_ind.
  - split; [reflexivity | exists 0; reflexivity].
  - destruct (ascii_dec c nl) as [->|N].
    + rewrite rstrip_nl_snoc_nl. split; [exact IH1|].
      exists (S k). change (repeat nl (S k)) with (nl :: repeat nl k).
      rewrite repeat_cons, app_assoc, <- IH2. reflexivity.
    + rewrite rstrip_nl_snoc_other by exact N. split.
      * rewrite endswith_nl_snoc. apply ascii_eqb_neq; exact N.
      * exists 0. rewrite app_nil_r. reflexivity.
Qed.

Lemma rstrip_nl_fixed (s : str) : endswith_nl s = false -> rstrip_nl s = s.
Proof.
  destruct s as [|c s _] using rev_ind; [reflexivity|].
  rewrite endswith_nl_snoc. intros E.
  apply rstrip_nl_snoc_other. intros ->. discriminate.
Qed.

Lemma with_trailing_nl_rstrip (c : str) :
  ends_with_blank_line c = false ->
  with_trailing_nl (rstrip_nl c) = with_trailing_nl c.
Proof.
  unfold ends_with_blank_line, with_trailing_nl.
  destruct (rstrip_nl_spec c) as [E _]. rewrite E.
  destruct c as [|x c _] using rev_ind; [reflexivity|].
  rewrite removelast_last, endswith_nl_snoc.
  destruct (ascii_dec x nl) as [->|N]; simpl.
  - rewrite rstrip_nl_snoc_nl. intros F.
    rewrite rstrip_nl_fixed by exact F. reflexivity.
  - rewrite (ascii_eqb_neq N), rstrip_nl_snoc_other by exact N. reflexivity.
Qed.

(** ** The lazy groups *)

Section LazyStar.
Context {R : Type}.
Variable k : str -> str -> option R.

(** The group stops at the first place where the rest of the pattern
    succeeds. *)
Lemma re_lazy_star_skip (u v acc : str) :
  (forall u1 u2, u = u1 ++ u2 -> u2 <> [] -> k (acc ++ u1) (u2 ++ v) = None) ->
  re_lazy_star k acc (u ++ v) = re_lazy_star k (acc ++ u) v.
Proof.
  revert acc; induction u as [|c u IH]; intros acc Hk.
  - rewrite app_nil_r. reflexivity.
  - simpl.
    generalize (Hk [] (c :: u) eq_refl ltac:(discriminate)).
    rewrite app_nil_r. simpl. intros ->.
    rewrite IH.
    + rewrite <- app_assoc. reflexivity.
    + intros u1 u2 -> N. rewrite <- app_assoc.
      apply (Hk (c :: u1) u2); [reflexivity | exact N].
Qed.

Lemma re_lazy_star_hit (acc s : str) (r : R) :
  k acc s = Some r -> re_lazy_star k acc s = Some r.
Proof. intros E. destruct s; simpl; rewrite E; reflexivity. Qed.

Lemma re_lazy_star_found (u v acc : str) (r : R) :
  (forall u1 u2, u = u1 ++ u2 -> u2 <> [] -> k (acc ++ u1) (u2 ++ v) = None) ->
  k (acc ++ u) v = Some r ->
  re_lazy_star k acc (u ++ v) = Some r.
Proof.
  intros Hk E. rewrite re_lazy_star_skip by exact Hk.
  apply re_lazy_star_hit; exact E.
Qed.

(** Conversely, a success names the place. *)
Lemma re_lazy_star_inv (acc s : str) (r : R) :
  re_lazy_star k acc s = Some r ->
  exists u v, s = u ++ v /\ k (acc ++ u) v = Some r /\
    forall u1 u2, u = u1 ++ u2 -> u2 <> [] -> k (acc ++ u1) (u2 ++ v) = None.
Proof.
  assert (Hnil : forall v u1 u2 : str,
             [] = u1 ++ u2 -> u2 <> [] -> k (acc ++ u1) (u2 ++ v) = None).
  { intros v u1 u2 E' N. destruct u1; destruct u2; try discriminate.
    contradiction. }
  revert acc Hnil; induction s as [|c s IH]; intros acc Hnil; simpl.
  - destruct (k acc []) eqn:E; [|discriminate].
    intros Er; inversion Er; subst. exists [], [].
    split; [reflexivity|]. split; [rewrite app_nil_r; exact E|].
    apply Hnil.
  - destruct (k acc (c :: s)) eqn:E.
    + intros Er; inversion Er; subst. exists [], (c :: s).
      split; [reflexivity|]. split; [rewrite app_nil_r; exact E|].
      apply Hnil.
    + intros Er. apply IH in Er.
      * destruct Er as (u & v & -> & Hr & Hmin).
        exists (c :: u), v. rewrite <- app_assoc in Hr.
        split; [reflexivity|]. split; [exact Hr|].
        intros u1 u2 E' N. destruct u1 as [|x u1]; simpl in E'.
        -- subst u2. rewrite app_nil_r. exact E.
        -- inversion E'; subst. rewrite <- (Hmin u1 u2 eq_refl N).
           rewrite <- app_assoc. reflexivity.
      * intros v u1 u2 E' N. destruct u1; destruct u2; try discriminate.
        contradiction.
Qed.

(** Where the rest of the pattern can succeed somewhere, the group finds a
    place. *)
Lemma re_lazy_star_complete (u v acc : str) :
  k (acc ++ u) v <> None -> re_lazy_star k acc (u ++ v) <> None.
Proof.
  revert acc; induction u as [|c u IH]; intros acc Hk.
  - rewrite app_nil_r in Hk. simpl.
    destruct v; simpl; destruct (k acc _); congruence.
  - simpl. destruct (k acc (c :: u ++ v)); [discriminate|].
    apply IH. rewrite <- app_assoc. exact Hk.
Qed.

Lemma re_lazy_star_none (acc s : str) :
  re_lazy_star k acc s = None ->
  forall u v, s = u ++ v -> k (acc ++ u) v = None.
Proof.
  intros E u v ->.
  destruct (k (acc ++ u) v) eqn:Ek; [|reflexivity].
  exfalso. apply (@re_lazy_star_complete u v acc); congruence.
Qed.

Lemma re_lazy_plus_found (u v : str) (r : R) :
  u <> [] ->
  (forall u1 u2, u = u1 ++ u2 -> u1 <> [] -> u2 <> [] ->
     k u1 (u2 ++ v) = None) ->
  k u v = Some r ->
  re_lazy_plus k (u ++ v) = Some r.
Proof.
  intros Hne Hk E. destruct u as [|a u]; [contradiction|].
  cbn [app re_lazy_plus]. apply re_lazy_star_found.
  - intros u1 u2 -> N. apply (Hk (a :: u1) u2);
      [reflexivity | discriminate | exact N].
  - exact E.
Qed.
End LazyStar.

(** ** One wrapped section under the pattern *)

Lemma FILE_END_no_nl : ~ In nl FILE_END.
Proof. vm_compute. intuition discriminate. Qed.

Lemma re_lit_app {R : Type} (l s : str) (k : str -> option R) :
  re_lit l k (l ++ s) = k s.
Proof. unfold re_lit. rewrite starts_with_app. reflexivity. Qed.

Lemma re_lit_nl_other {R : Type} (x : ascii) (s : str) (k : str -> option R) :
  x <> nl -> re_lit [nl] k (x :: s) = None.
Proof.
  intros N. unfold re_lit. rewrite starts_with_None_head; [reflexivity|].
  intros E. apply N. symmetry. exact E.
Qed.

(** A start sentinel with a path on one line, a text in which the end
    sentinel of that path shows up only at the end, and the end sentinel:
    the pattern matches exactly that. *)
Lemma match_file_block_section (p g2 rest : str) :
  path_ok p ->
  (forall u1 u2, g2 = u1 ++ u2 -> u2 <> [] ->
     starts_with (FILE_END ++ p) (u2 ++ FILE_END ++ p ++ rest) = None) ->
  Unflatten.match_file_block
    (FILE_START ++ p ++ [nl] ++ g2 ++ FILE_END ++ p ++ rest)
  = Some (p, g2, rest).
Proof.
  intros [Hne Hnl] Hmin. unfold Unflatten.match_file_block.
  rewrite re_lit_app.
  apply re_lazy_plus_found; [exact Hne | |].
  - intros u1 u2 -> _ N. destruct u2 as [|x u2]; [contradiction|].
    cbn [app]. apply re_lit_nl_other. intros ->. apply Hnl.
    apply in_or_app. right. left. reflexivity.
  - rewrite re_lit_app.
    apply re_lazy_star_found.
    + intros u1 u2 E N. cbn [app]. unfold re_lit.
      rewrite (Hmin u1 u2 E N). reflexivity.
    + cbn [app]. rewrite (app_assoc FILE_END), re_lit_app. reflexivity.
Qed.

(** The end sentinel of a path on one line cannot begin in the content and
    run over the line break that closes the content. *)
Lemma end_sentinel_not_in_content (p c rest u1 u2 : str) :
  ~ In nl p -> content_ok p c ->
  c ++ [nl] = u1 ++ u2 -> u2 <> [] ->
  starts_with (FILE_END ++ p) (u2 ++ FILE_END ++ p ++ rest) = None.
Proof.
  intros Hnl Hc E N.
  destruct (starts_with (FILE_END ++ p) (u2 ++ FILE_END ++ p ++ rest))
    as [r|] eqn:S; [exfalso | reflexivity].
  apply starts_with_Some in S.
  destruct u2 as [|x u2 _] using rev_ind; [contradiction|].
  rewrite app_assoc in E. apply app_inj_tail in E. destruct E as [Ec Ex].
  subst c x. rewrite <- app_assoc in S.
  apply app_eq_app in S. destruct S as [l [[E1 E2]|[E1 E2]]].
  - (* the sentinel lies within the content *)
    subst u2. exact (contains_false _ _ u1 l Hc eq_refl).
  - (* the sentinel runs over the line break *)
    destruct l as [|y l]; cbn [app] in E2.
    + rewrite app_nil_r in E1. subst u2.
      apply (contains_false _ _ u1 [] Hc).
      rewrite app_nil_r. reflexivity.
    + inversion E2; subst y.
      assert (I : In nl (FILE_END ++ p)).
      { rewrite E1. apply in_or_app. right. left. reflexivity. }
      apply in_app_or in I. destruct I as [I|I];
        [exact (FILE_END_no_nl I) | exact (Hnl I)].
Qed.

Lemma match_file_block_wrapped (p c rest : str) :
  path_ok p -> content_ok p c ->
  Unflatten.match_file_block (Flatten.wrap_file_content p (Some c) ++ rest)
  = Some (p, c ++ [nl], [nl; nl] ++ rest).
Proof.
  intros Hp Hc. unfold Flatten.wrap_file_content. cbv zeta.
  replace (((FILE_START ++ p) ++ [nl] ++ c ++ [nl] ++ (FILE_END ++ p) ++ [nl] ++ [nl]) ++ rest)
    with (FILE_START ++ p ++ [nl] ++ (c ++ [nl]) ++ FILE_END ++ p ++ [nl; nl] ++ rest)
    by (rewrite <- !app_assoc; reflexivity).
  apply match_file_block_section; [exact Hp|].
  intros u1 u2 E N.
  apply (@end_sentinel_not_in_content p c ([nl; nl] ++ rest) u1 u2);
    [apply Hp | exact Hc | exact E | exact N].
Qed.

(** ** What a match of the pattern is *)

Lemma match_file_block_inv (s g1 g2 rest : str) :
  Unflatten.match_file_block s = Some (g1, g2, rest) ->
  s = FILE_START ++ g1 ++ [nl] ++ g2 ++ FILE_END ++ g1 ++ rest /\
  g1 <> [] /\
  (forall u1 u2, g2 = u1 ++ u2 -> u2 <> [] ->
     starts_with (FILE_END ++ g1) (u2 ++ FILE_END ++ g1 ++ rest) = None).
Proof.
  unfold Unflatten.match_file_block, re_lit at 1.
  destruct (starts_with FILE_START s) as [s1|] eqn:E0; [|discriminate].
  apply starts_with_Some in E0. subst s.
  destruct s1 as [|c s1]; [discriminate|]. cbn [re_lazy_plus].
  intros E1. apply re_lazy_star_inv in E1.
  destruct E1 as (u & v & -> & E1 & _).
  unfold re_lit at 1 in E1.
  destruct (starts_with [nl] v) as [v1|] eqn:E2; [|discriminate].
  apply starts_with_Some in E2. subst v.
  apply re_lazy_star_inv in E1.
  destruct E1 as (u' & v' & -> & E1 & Hmin).
  unfold re_lit in E1.
  destruct (starts_with (FILE_END ++ [c] ++ u) v') as [v2|] eqn:E3;
    [|discriminate].
  apply starts_with_Some in E3. subst v'.
  inversion E1; subst g1 g2 rest. clear E1.
  split; [|split].
  - rewrite <- !app_assoc. reflexivity.
  - discriminate.
  - intros u1 u2 E N. specialize (Hmin u1 u2 E N). cbn [app] in Hmin.
    unfold re_lit in Hmin. rewrite <- !app_assoc in Hmin.
    cbn [app] in *.
    destruct (starts_with (FILE_END ++ c :: u)
                (u2 ++ FILE_END ++ c :: u ++ v2)); [discriminate|reflexivity].
Qed.

Lemma match_file_block_shorter (s g1 g2 rest : str) :
  Unflatten.match_file_block s = Some (g1, g2, rest) ->
  length rest < length s.
Proof.
  intros E. apply match_file_block_inv in E. destruct E as (-> & N & _).
  rewrite !length_app. destruct g1; [contradiction|]. simpl. lia.
Qed.

Lemma match_file_block_no_start (s : str) :
  starts_with FILE_START s = None -> Unflatten.match_file_block s = None.
Proof.
  intros E. unfold Unflatten.match_file_block, re_lit at 1. rewrite E.
  reflexivity.
Qed.

(** ** The scan *)

Lemma findall_fuel_enough (n m : nat) (s : str) :
  length s <= n -> length s <= m ->
  Unflatten.findall_fuel n s = Unflatten.findall_fuel m s.
Proof.
  revert m s; induction n as [|n IH]; intros m s Hn Hm.
  - destruct s; [|simpl in Hn; lia]. destruct m; reflexivity.
  - destruct m as [|m].
    + destruct s; [reflexivity | simpl in Hm; lia].
    + simpl.
      destruct (Unflatten.match_file_block s) as [[[g1 g2] rest]|] eqn:E.
      * apply match_file_block_shorter in E.
        f_equal. apply IH; lia.
      * destruct s; [reflexivity|]. simpl in Hn, Hm. apply IH; lia.
Qed.

(** The equation of [findall]: the fuel is out of the way. *)
Lemma findall_eq (s : str) :
  Unflatten.findall s =
  match Unflatten.match_file_block s with
  | Some (g1, g2, rest) => (g1, g2) :: Unflatten.findall rest
  | None =>
      match s with
      | [] => []
      | _ :: s' => Unflatten.findall s'
      end
  end.
Proof.
  unfold Unflatten.findall. destruct s as [|c s]; [reflexivity|].
  cbn [length Unflatten.findall_fuel].
  destruct (Unflatten.match_file_block (c :: s)) as [[[g1 g2] rest]|] eqn:E.
  - apply match_file_block_shorter in E. simpl in E.
    f_equal. apply findall_fuel_enough; lia.
  - reflexivity.
Qed.

Lemma findall_nil : Unflatten.findall [] = [].
Proof. reflexivity. Qed.

Lemma findall_match {s g1 g2 rest : str} :
  Unflatten.match_file_block s = Some (g1, g2, rest) ->
  Unflatten.findall s = (g1, g2) :: Unflatten.findall rest.
Proof. intros E. rewrite findall_eq, E. reflexivity. Qed.

Lemma findall_skip_char (c : ascii) (s : str) :
  Unflatten.match_file_block (c :: s) = None ->
  Unflatten.findall (c :: s) = Unflatten.findall s.
Proof. intros E. rewrite findall_eq, E. reflexivity. Qed.

Lemma findall_skip_nl (s : str) :
  Unflatten.findall (nl :: s) = Unflatten.findall s.
Proof.
  apply findall_skip_char, match_file_block_no_start.
  apply starts_with_None_head. discriminate.
Qed.

(** The sections of a document set are found one by one. *)
Lemma findall_encode (docs : dict) (rest : str) :
  Forall (fun d => path_ok (fst d) /\ content_ok (fst d) (snd d)) docs ->
  Unflatten.findall (encode docs ++ rest) =
  map (fun d => (fst d, snd d ++ [nl])) docs ++ Unflatten.findall rest.
Proof.
  induction 1 as [|[p c] docs [Hp Hc] _ IH]; [reflexivity|].
  unfold encode. cbn [map concat fst snd]. rewrite <- app_assoc.
  rewrite (findall_match (@match_file_block_wrapped p c _ Hp Hc)).
  cbn [app]. rewrite !findall_skip_nl.
  cbn [map fst snd app]. f_equal. exact IH.
Qed.

(** ** The dictionary of the parser *)

Lemma dict_set_fresh (d : dict) (k v : str) :
  ~ In k (map fst d) -> dict_set d k v = d ++ [(k, v)].
Proof.
  induction d as [|[k' v'] d IH]; simpl; intros N; [reflexivity|].
  rewrite str_eqb_neq by tauto. rewrite IH by tauto. reflexivity.
Qed.

Lemma dict_set_in (d : dict) (k v p c : str) :
  In (p, c) (dict_set d k v) -> In (p, c) d \/ (p, c) = (k, v).
Proof.
  induction d as [|[k' v'] d IH]; simpl.
  - intros [E|[]]. right. symmetry. exact E.
  - destruct (str_eqb k' k) eqn:E; simpl.
    + apply str_eqb_eq in E. subst k'.
      intros [E'|I]; [right; symmetry; exact E' | left; right; exact I].
    + intros [E'|I]; [left; left; exact E'|].
      destruct (IH I) as [I'|E']; [left; right; exact I' | right; exact E'].
Qed.

Lemma dict_get_set_same (d : dict) (k v : str) :
  dict_get (dict_set d k v) k = Some v.
Proof.
  induction d as [|[k' v'] d IH]; simpl.
  - rewrite str_eqb_refl. reflexivity.
  - destruct (str_eqb k' k) eqn:E; simpl; rewrite E; [reflexivity | exact IH].
Qed.

Lemma dict_get_set_other (d : dict) (k v k0 : str) :
  k0 <> k -> dict_get (dict_set d k v) k0 = dict_get d k0.
Proof.
  intros N. induction d as [|[k' v'] d IH]; simpl.
  - rewrite str_eqb_neq by congruence. reflexivity.
  - destruct (str_eqb k' k) eqn:E; simpl.
    + apply str_eqb_eq in E. subst k'.
      rewrite (str_eqb_neq k k0) by congruence. reflexivity.
    + destruct (str_eqb k' k0); [reflexivity | exact IH].
Qed.

Lemma fold_parse_step_nodup (ms d : dict) :
  NoDup (map fst d ++ map fst ms) ->
  fold_left Unflatten.parse_step ms d =
  d ++ map (fun m => (fst m, rstrip_nl (snd m))) ms.
Proof.
  revert d; induction ms as [|[p g2] ms IH]; intros d ND; simpl.
  - rewrite app_nil_r. reflexivity.
  - simpl in ND. assert (N : ~ In p (map fst d)).
    { apply NoDup_remove_2 in ND. intros I. apply ND.
      apply in_or_app. left. exact I. }
    rewrite dict_set_fresh by exact N.
    rewrite IH.
    + rewrite <- app_assoc. reflexivity.
    + rewrite map_app, <- app_assoc. exact ND.
Qed.

Lemma fold_parse_step_in (ms d : dict) (p c : str) :
  In (p, c) (fold_left Unflatten.parse_step ms d) ->
  In (p, c) d \/ exists g2, In (p, g2) ms /\ c = rstrip_nl g2.
Proof.
  revert d; induction ms as [|[q g] ms IH]; intros d; simpl.
  - intros I. left. exact I.
  - intros I. apply IH in I. destruct I as [I|(g2 & I & E)].
    + apply dict_set_in in I. destruct I as [I|E].
      * left. exact I.
      * inversion E; subst. right. exists g. split; [left; reflexivity|].
        reflexivity.
    + right. exists g2. split; [right; exact I | exact E].
Qed.

(** The parser keeps no line break at the end of a content. *)
Lemma parsed_content_endswith (content p c : str) :
  In (p, c) (Unflatten.parse_flattened_file content) -> endswith_nl c = false.
Proof.
  unfold Unflatten.parse_flattened_file. cbv zeta. intros I.
  apply fold_parse_step_in in I. destruct I as [[]|(g2 & _ & ->)].
  apply rstrip_nl_spec.
Qed.

(** What the parser returns for the sections of a document set: every
    document, in order, its content without the line breaks at its end. *)
Lemma parse_encode (docs : dict) :
  NoDup (map fst docs) ->
  Forall (fun d => path_ok (fst d) /\ content_ok (fst d) (snd d)) docs ->
  Unflatten.parse_flattened_file (encode docs) =
  map (fun d => (fst d, rstrip_nl (snd d))) docs.
Proof.
  intros ND OK. unfold Unflatten.parse_flattened_file. cbv zeta.
  rewrite <- (app_nil_r (encode docs)), (@findall_encode docs [] OK).
  rewrite findall_nil, app_nil_r.
  rewrite fold_parse_step_nodup.
  - cbn [app]. rewrite map_map. apply map_ext. intros [p c]. cbn [fst snd].
    rewrite rstrip_nl_snoc_nl. reflexivity.
  - cbn [map app]. rewrite map_map. cbn [fst]. exact ND.
Qed.

(** ** Round trip *)

(** C1, as amended.  For every document set whose paths are unique, not
    empty and on one line, and whose contents neither show the end sentinel
    of their own path nor end with an empty line, decoding the wrapped
    sections and writing the result gives the documents back, in order, with
    a line break added where a content had none at its end. *)
Theorem roundtrip_wellformed (docs : dict) :
  NoDup (map fst docs) ->
  Forall (fun d => path_ok (fst d) /\ content_ok (fst d) (snd d) /\
                   ends_with_blank_line (snd d) = false) docs ->
  roundtrip docs.
Proof.
  intros ND OK. unfold roundtrip, materialize.
  rewrite parse_encode.
  - rewrite map_map. apply map_ext_in. intros [p c] I. cbn [fst snd].
    rewrite Forall_forall in OK. destruct (OK _ I) as (_ & _ & B).
    rewrite with_trailing_nl_rstrip by exact B. reflexivity.
  - exact ND.
  - revert OK. apply Forall_impl. tauto.
Qed.

Lemma roundtrip_wellformed_witness :
  NoDup (map fst docs_plain) /\ roundtrip docs_plain.
Proof.
  assert (ND : NoDup (map fst docs_plain)).
  { repeat constructor; vm_compute; intuition discriminate. }
  split; [exact ND|].
  apply (roundtrip_wellformed docs_plain ND).
  repeat constructor; try discriminate;
    try (vm_compute; intuition discriminate).
Defined.

(** C1 as stated fails: unique, non-empty paths and arbitrary content are
    not enough.  A content that shows the end sentinel of its own path is
    cut there. *)
Lemma roundtrip_fails_on_end_sentinel :
  NoDup (map fst docs_end_sentinel) /\
  Forall (fun d => fst d <> []) docs_end_sentinel /\
  Unflatten.parse_flattened_file (encode docs_end_sentinel) =
    [(lit "a.txt", lit "x")] /\
  ~ roundtrip docs_end_sentinel.
Proof.
  split; [repeat constructor; vm_compute; intuition discriminate|].
  split; [repeat constructor; discriminate|].
  split; [vm_compute; reflexivity|].
  vm_compute. discriminate.
Qed.

(** ** Line breaks at the end of a content *)

(** C9.  Every content the parser returns has no line break at its end: it
    is the text between the sentinels without the line breaks that ended
    it, all of them. *)
Theorem parsed_content_no_trailing_nl (content p c : str) :
  In (p, c) (Unflatten.parse_flattened_file content) ->
  endswith_nl c = false /\
  exists g2 k, In (p, g2) (Unflatten.findall content) /\
               g2 = c ++ repeat nl k.
Proof.
  unfold Unflatten.parse_flattened_file. cbv zeta. intros I.
  apply fold_parse_step_in in I. destruct I as [[]|(g2 & I & ->)].
  destruct (rstrip_nl_spec g2) as [E [k Ek]].
  split; [exact E|]. exists g2, k. split; [exact I | exact Ek].
Qed.

Lemma parsed_content_no_trailing_nl_witness :
  In (lit "a.txt", lit "hello")
     (Unflatten.parse_flattened_file (encode docs_blank_lines)) /\
  endswith_nl (lit "hello") = false /\
  exists g2 k, In (lit "a.txt", g2)
                  (Unflatten.findall (encode docs_blank_lines)) /\
               g2 = lit "hello" ++ repeat nl k.
Proof.
  assert (I : In (lit "a.txt", lit "hello")
                 (Unflatten.parse_flattened_file (encode docs_blank_lines))).
  { vm_compute. left. reflexivity. }
  split; [exact I|].
  exact (parsed_content_no_trailing_nl (encode docs_blank_lines)
           (lit "a.txt") (lit "hello") I).
Defined.

(** C3, at a usual text file.  The text between the sentinels of
    [hello] and its line break is [hello] and two line breaks: the one of
    the file and the one the encoder put.  The parser returns [hello]: it
    took both, where the claim has it take one and return the content of
    the file. *)
Theorem rstrip_takes_every_line_break :
  Unflatten.findall (encode docs_one_line) =
    [(lit "a.txt", lit "hello" ++ [nl; nl])] /\
  Unflatten.parse_flattened_file (encode docs_one_line) =
    [(lit "a.txt", lit "hello")] /\
  Unflatten.parse_flattened_file (encode docs_one_line) <> docs_one_line.
Proof.
  split; [vm_compute; reflexivity|].
  split; [vm_compute; reflexivity|].
  vm_compute. discriminate.
Qed.

(** ** Paths that begin alike *)

Lemma dict_get_map_in (f : str -> str) (docs : dict) (p c : str) :
  NoDup (map fst docs) -> In (p, c) docs ->
  dict_get (map (fun d => (fst d, f (snd d))) docs) p = Some (f c).
Proof.
  induction docs as [|[q c'] docs IH]; cbn [map fst snd In dict_get];
    intros ND I; [contradiction|].
  inversion ND as [|? ? Nq ND']; subst.
  destruct I as [E|I].
  - inversion E; subst. rewrite str_eqb_refl. reflexivity.
  - rewrite str_eqb_neq.
    + apply IH; assumption.
    + intros ->. apply Nq. apply (in_map fst) in I. exact I.
Qed.

(** C4, as amended.  In a document set with unique paths on one line that
    holds both [a.lua] and [a.lua.bak], and in which no content shows the
    end sentinel text of its own path, every start sentinel is paired with
    the end sentinel of its own section: the text captured for a path is its
    content and the line break the encoder put.  A content without a line
    break at its end is decoded as it is. *)
Theorem prefix_paths_decode_apart (docs : dict) (c1 c2 : str) :
  NoDup (map fst docs) ->
  Forall (fun d => path_ok (fst d) /\ content_ok (fst d) (snd d)) docs ->
  In (lit "a.lua", c1) docs ->
  In (lit "a.lua.bak", c2) docs ->
  Unflatten.findall (encode docs) =
    map (fun d => (fst d, snd d ++ [nl])) docs /\
  (endswith_nl c1 = false ->
   dict_get (Unflatten.parse_flattened_file (encode docs)) (lit "a.lua")
   = Some c1) /\
  (endswith_nl c2 = false ->
   dict_get (Unflatten.parse_flattened_file (encode docs)) (lit "a.lua.bak")
   = Some c2).
Proof.
  intros ND OK I1 I2. split; [|split].
  - rewrite <- (app_nil_r (encode docs)), (@findall_encode docs [] OK).
    rewrite findall_nil, app_nil_r. reflexivity.
  - intros E. rewrite (parse_encode docs ND OK), (dict_get_map_in rstrip_nl _ _ _ ND I1).
    rewrite rstrip_nl_fixed by exact E. reflexivity.
  - intros E. rewrite (parse_encode docs ND OK), (dict_get_map_in rstrip_nl _ _ _ ND I2).
    rewrite rstrip_nl_fixed by exact E. reflexivity.
Qed.

Lemma prefix_paths_decode_apart_witness :
  NoDup (map fst docs_prefix_apart) /\
  dict_get (Unflatten.parse_flattened_file (encode docs_prefix_apart))
    (lit "a.lua") = Some (lit "x") /\
  dict_get (Unflatten.parse_flattened_file (encode docs_prefix_apart))
    (lit "a.lua.bak") = Some (lit "-- @FILE_END: a.lua" ++ [nl] ++ lit "y").
Proof.
  assert (ND : NoDup (map fst docs_prefix_apart)).
  { repeat constructor; vm_compute; intuition discriminate. }
  assert (OK : Forall (fun d => path_ok (fst d) /\ content_ok (fst d) (snd d))
                 docs_prefix_apart).
  { repeat constructor; try discriminate;
      try (vm_compute; intuition discriminate). }
  assert (I1 : In (lit "a.lua", lit "x") docs_prefix_apart)
    by (left; reflexivity).
  assert (I2 : In (lit "a.lua.bak",
                   lit "-- @FILE_END: a.lua" ++ [nl] ++ lit "y")
                  docs_prefix_apart)
    by (right; left; reflexivity).
  destruct (prefix_paths_decode_apart docs_prefix_apart _ _ ND OK I1 I2)
    as (_ & G1 & G2).
  split; [exact ND|]. split.
  - apply G1. vm_compute. reflexivity.
  - apply G2. vm_compute. reflexivity.
Defined.

(** C4 as stated fails where the content of [a.lua] shows the end sentinel
    of [a.lua.bak].  The pattern ends with the back-reference and asks
    nothing of what follows it, so the start sentinel of [a.lua] is paired
    with the first text [-- @FILE_END: a.lua], here the beginning of that
    line: the match stops in the middle of the line and [a.lua] comes back
    cut. *)
Lemma prefix_path_cross_match :
  NoDup (map fst docs_prefix_paths) /\
  (exists rest,
     Unflatten.match_file_block (encode docs_prefix_paths) =
       Some (lit "a.lua", lit "x" ++ [nl], lit ".bak" ++ rest)) /\
  Unflatten.parse_flattened_file (encode docs_prefix_paths) =
    [(lit "a.lua", lit "x"); (lit "a.lua.bak", lit "z")] /\
  Unflatten.parse_flattened_file (encode docs_prefix_paths) <>
    docs_prefix_paths.
Proof.
  split; [repeat constructor; vm_compute; intuition discriminate|].
  split; [eexists; vm_compute; reflexivity|].
  split; [vm_compute; reflexivity|].
  vm_compute. discriminate.
Qed.

(** ** Runs of flatten.py *)

Section FlattenRuns.
Context `{Host}.

Lemma read_file_run (filepath : str) (w : World) :
  Flatten.read_file filepath w =
  (Done (dict_get (fs_files (disk w)) (joinpath NVIM_CONFIG_DIR filepath)),
   mkWorld (disk w)
           (stdout w ++ [read_report (fs_files (disk w)) filepath])).
Proof.
  unfold Flatten.read_file, read_report, bind, path_exists, read_text, print,
    ret, ok_report, skip_report.
  destruct (dict_get (fs_files (disk w)) (joinpath NVIM_CONFIG_DIR filepath))
    eqn:E; cbn [negb disk stdout]; rewrite ?E; reflexivity.
Qed.

Lemma emitted_section_eq (files : dict) (filepath : str) :
  emitted_section files filepath =
  if Flatten.truthy (dict_get files (joinpath NVIM_CONFIG_DIR filepath))
  then Flatten.wrap_file_content filepath
         (dict_get files (joinpath NVIM_CONFIG_DIR filepath))
  else [].
Proof. reflexivity. Qed.

Lemma generate_inner_loop (files : list str) (output : str) (w : World) :
  for_each files (fun filepath output =>
      content <- Flatten.read_file filepath ;;
      if Flatten.truthy content
      then ret (output ++ Flatten.wrap_file_content filepath content)
      else ret output) output w =
  (Done (output ++ concat (map (emitted_section (fs_files (disk w))) files)),
   mkWorld (disk w)
           (stdout w ++ map (read_report (fs_files (disk w))) files)).
Proof.
  revert output w; induction files as [|p files IH]; intros output w.
  - cbn [for_each map concat]. unfold ret. rewrite !app_nil_r.
    destruct w; reflexivity.
  - cbn [for_each]. unfold bind at 1. unfold bind at 1.
    rewrite read_file_run.
    cbn [map concat]. rewrite emitted_section_eq.
    destruct (Flatten.truthy _) eqn:T; unfold ret at 1; rewrite IH;
      cbn [disk stdout]; rewrite <- !app_assoc; reflexivity.
Qed.

Lemma generate_outer_loop (cats : list (str * list str)) (output : str)
    (w : World) :
  for_each cats (fun category output =>
      let '(category_name, files) := category in
      let output := output ++ Flatten.category_banner category_name in
      for_each files (fun filepath output =>
        content <- Flatten.read_file filepath ;;
        if Flatten.truthy content
        then ret (output ++ Flatten.wrap_file_content filepath content)
        else ret output) output) output w =
  (Done (output ++
         concat (map (fun category =>
                   Flatten.category_banner (fst category) ++
                   concat (map (emitted_section (fs_files (disk w)))
                               (snd category))) cats)),
   mkWorld (disk w)
           (stdout w ++
            map (read_report (fs_files (disk w))) (concat (map snd cats)))).
Proof.
  revert output w; induction cats as [|[name files] cats IH]; intros output w.
  - cbn [for_each map concat]. unfold ret. rewrite !app_nil_r.
    destruct w; reflexivity.
  - cbn [for_each]. unfold bind at 1. rewrite generate_inner_loop, IH.
    cbn [disk stdout map concat fst snd].
    rewrite map_app, <- !app_assoc. reflexivity.
Qed.

(** [generate_flat_config] always returns: the text is [emitted_bundle], the
    files are as they were, and every expected path has its line on the
    console, in order. *)
Lemma generate_flat_config_run (w : World) :
  Flatten.generate_flat_config w =
  (Done (emitted_bundle (fs_files (disk w))),
   mkWorld (disk w)
           (stdout w ++ map (read_report (fs_files (disk w))) Flatten.ALL_FILES)).
Proof.
  unfold Flatten.generate_flat_config. cbv zeta. unfold bind.
  rewrite generate_outer_loop. unfold ret, emitted_bundle.
  rewrite <- !app_assoc. reflexivity.
Qed.

Lemma emitted_section_collector (files : dict) (paths : list str) :
  (forall p, In p paths ->
     dict_get files (joinpath NVIM_CONFIG_DIR p) <> Some []) ->
  concat (map (emitted_section files) paths) = encode (collector files paths).
Proof.
  induction paths as [|p paths IH]; intros NE; [reflexivity|].
  cbn [map concat collector]. unfold emitted_section at 1. cbv zeta.
  assert (Hp := NE p (or_introl eq_refl)).
  rewrite IH by (intros q I; apply NE; right; exact I).
  destruct (dict_get files (joinpath NVIM_CONFIG_DIR p)) as [[|c content]|];
    [contradiction | reflexivity | reflexivity].
Qed.

Lemma emitted_bundle_expected (files : dict) :
  (forall p, In p Flatten.ALL_FILES ->
     dict_get files (joinpath NVIM_CONFIG_DIR p) <> Some []) ->
  emitted_bundle files = expected_bundle files.
Proof.
  intros NE. unfold emitted_bundle, expected_bundle. do 3 f_equal.
  apply map_ext_in. intros [name paths] I. cbn [fst snd]. f_equal.
  apply emitted_section_collector. intros p Ip. apply NE.
  change Flatten.ALL_FILES with (concat (map snd Flatten.categories)).
  apply in_concat. exists paths. split; [|exact Ip].
  apply (in_map snd) in I. exact I.
Qed.
End FlattenRuns.

(** ** Stepping through a run *)

Lemma print_bind {A : Type} (l : str) (k : Proc A) (w : World) :
  (print l ;;; k) w = k (mkWorld (disk w) (stdout w ++ [l])).
Proof. reflexivity. Qed.

Lemma print_last (l : str) (w : World) :
  print l w = (Done tt, mkWorld (disk w) (stdout w ++ [l])).
Proof. reflexivity. Qed.

Lemma ret_bind {A B : Type} (a : A) (k : A -> Proc B) (w : World) :
  (x <- ret a ;; k x) w = k a w.
Proof. reflexivity. Qed.

Lemma open_w_bind {A : Type} (path : str) (k : Proc A) (w : World) :
  (open_w path ;;; k) w =
  k (mkWorld (mkFS (dict_set (fs_files (disk w)) path []) (fs_dirs (disk w)))
             (stdout w)).
Proof. reflexivity. Qed.

Lemma f_write_bind {A : Type} (path data : str) (k : Proc A) (w : World) :
  (f_write path data ;;; k) w =
  k (mkWorld
       (mkFS (dict_set (fs_files (disk w)) path
                (match dict_get (fs_files (disk w)) path with
                 | Some text => text
                 | None => []
                 end ++ data))
             (fs_dirs (disk w)))
       (stdout w)).
Proof. reflexivity. Qed.

Lemma mkdir_parents_bind `{Host} {A : Type} (d : str) (k : Proc A)
    (w : World) :
  (mkdir_parents d ;;; k) w =
  k (mkWorld (mkFS (fs_files (disk w))
                   (fold_left add_dir (rev (parents d) ++ [d])
                      (fs_dirs (disk w))))
             (stdout w)).
Proof. reflexivity. Qed.

Lemma path_exists_bind {A : Type} (path : str) (k : bool -> Proc A)
    (w : World) :
  (found <- path_exists path ;; k found) w =
  k (match dict_get (fs_files (disk w)) path with
     | Some _ => true
     | None => false
     end) w.
Proof. reflexivity. Qed.

Lemma read_text_bind {A : Type} {path content : str} {d : FS}
    (k : str -> Proc A) (out : list str) :
  dict_get (fs_files d) path = Some content ->
  (text <- read_text path ;; k text) (mkWorld d out) =
  k content (mkWorld d out).
Proof.
  intros E. unfold bind, read_text. cbn [disk]. rewrite E. reflexivity.
Qed.

Lemma sys_exit_bind {A B : Type} (code : nat) (k : A -> Proc B) (w : World) :
  (x <- sys_exit code ;; k x) w = (Exited code, w).
Proof. reflexivity. Qed.

Ltac step :=
  first
    [ rewrite print_bind
    | rewrite ret_bind
    | rewrite open_w_bind
    | rewrite f_write_bind
    | rewrite mkdir_parents_bind
    | rewrite path_exists_bind
    | rewrite sys_exit_bind
    | rewrite print_last ];
  cbn [disk stdout fs_files fs_dirs].

Lemma text_lines_app (a b : list str) :
  Flatten.text_lines (a ++ b) = Flatten.text_lines a ++ Flatten.text_lines b.
Proof. unfold Flatten.text_lines. rewrite map_app, concat_app. reflexivity. Qed.

Section FlattenMain.
Context `{Host}.

Opaque lit.

(** The run of [main] on a command line that names an output file, in a
    directory that has its [init.lua]. *)
Lemma flatten_main_run (prog arg1 : str) (rest : list str) (w : World) :
  mem arg1 [lit "-h"; lit "--help"] = false ->
  dict_get (fs_files (disk w)) (joinpath NVIM_CONFIG_DIR (lit "init.lua"))
    <> None ->
  exists before after dirs,
    Flatten.main (prog :: arg1 :: rest) w =
    (Done tt,
     mkWorld
       (mkFS (dict_set (dict_set (fs_files (disk w)) (expanduser_resolve arg1) [])
                (expanduser_resolve arg1) (emitted_bundle (fs_files (disk w))))
             dirs)
       (before ++
        map (read_report (fs_files (disk w))) Flatten.ALL_FILES ++ after)).
Proof.
  intros Hh Hi. unfold Flatten.main. rewrite Hh. cbv zeta.
  repeat step.
  destruct (dict_get (fs_files (disk w))
              (joinpath NVIM_CONFIG_DIR (lit "init.lua"))); [|congruence].
  cbn [negb]. repeat step.
  unfold bind at 1. rewrite generate_flat_config_run.
  cbn [disk stdout fs_files fs_dirs].
  match goal with
  | |- context [?b ++ map (read_report _) Flatten.ALL_FILES] =>
      set (before := b)
  end.
  repeat step. rewrite dict_get_set_same. cbn [app].
  rewrite <- !app_assoc.
  exists before. eexists. eexists. reflexivity.
Qed.

(** The header is the banner, the metadata block and an empty line; the
    block gives 19 for the count and every expected path in the list. *)
Lemma header_metadata :
  Flatten.header now_strftime = banner_text ++ reported_metadata ++ [nl].
Proof.
  unfold Flatten.header, banner_text.
  rewrite <- (firstn_skipn 52 (Flatten.header_lines now_strftime)) at 1.
  rewrite text_lines_app. f_equal.
  change [nl] with (Flatten.text_lines [[]]).
  unfold reported_metadata. rewrite <- text_lines_app.
  apply (f_equal Flatten.text_lines). vm_compute. reflexivity.
Qed.
End FlattenMain.

(** ** The encoder and the files that are not there *)

(** C6, as amended.  When [init.lua] is there and no expected file is
    empty, the run ends with status 0, the output file holds the header, a
    wrapped section for every expected path that exists, in the order
    requested and under its category, and the footer; every expected path
    has its line on the console, in order, and the line of a path that is
    not there is the skip report. *)
Theorem missing_files_are_skipped `{Host} (prog arg1 : str) (rest : list str)
    (w : World) :
  let files := fs_files (disk w) in
  let run := Flatten.main (prog :: arg1 :: rest) w in
  mem arg1 [lit "-h"; lit "--help"] = false ->
  dict_get files (joinpath NVIM_CONFIG_DIR (lit "init.lua")) <> None ->
  (forall p, In p Flatten.ALL_FILES ->
     dict_get files (joinpath NVIM_CONFIG_DIR p) <> Some []) ->
  exit_status (fst run) = 0 /\
  dict_get (fs_files (disk (snd run))) (expanduser_resolve arg1) =
    Some (expected_bundle files) /\
  (exists before after,
     stdout (snd run) =
     before ++ map (read_report files) Flatten.ALL_FILES ++ after) /\
  (forall p, In p Flatten.ALL_FILES ->
     dict_get files (joinpath NVIM_CONFIG_DIR p) = None ->
     read_report files p = skip_report p /\
     In (skip_report p) (stdout (snd run))).
Proof.
  intros files run Hh Hi Hne.
  destruct (flatten_main_run prog arg1 rest w Hh Hi) as (before & after & dirs & E).
  subst run. rewrite E. cbn [fst snd disk stdout fs_files exit_status].
  split; [reflexivity|]. split; [|split].
  - rewrite dict_get_set_same. f_equal.
    apply emitted_bundle_expected. exact Hne.
  - exists before, after. reflexivity.
  - intros p Ip Ep.
    assert (R : read_report files p = skip_report p).
    { unfold read_report. fold files. rewrite Ep. reflexivity. }
    split; [exact R|].
    apply in_or_app. right. apply in_or_app. left.
    rewrite <- R. apply in_map. exact Ip.
Qed.

Lemma missing_files_are_skipped_witness :
  let files := fs_files (disk world_two_files) in
  let run := @Flatten.main sample_host flatten_argv world_two_files in
  dict_get files (lit "/cfg/lua/config/options.lua") = None /\
  exit_status (fst run) = 0 /\
  dict_get (fs_files (disk (snd run))) (lit "/out/flat.lua") =
    Some (@expected_bundle sample_host files) /\
  In (skip_report (lit "lua/config/options.lua")) (stdout (snd run)).
Proof.
  intros files run.
  assert (Hh : mem (lit "/out/flat.lua") [lit "-h"; lit "--help"] = false)
    by (vm_compute; reflexivity).
  assert (Hi : dict_get files
                 (@joinpath sample_host (@NVIM_CONFIG_DIR sample_host)
                    (lit "init.lua")) <> None)
    by (vm_compute; discriminate).
  assert (Hne : forall p, In p Flatten.ALL_FILES ->
                  dict_get files
                    (@joinpath sample_host (@NVIM_CONFIG_DIR sample_host) p)
                  <> Some []).
  { intros p I. vm_compute in I.
    repeat (destruct I as [I|I]; [subst p; vm_compute; discriminate|]).
    destruct I. }
  assert (Hm : dict_get files (lit "/cfg/lua/config/options.lua") = None)
    by (vm_compute; reflexivity).
  destruct (@missing_files_are_skipped sample_host (lit "flatten.py")
              (lit "/out/flat.lua") [] world_two_files Hh Hi Hne)
    as (E0 & Eb & _ & Hs).
  split; [exact Hm|]. split; [exact E0|]. split; [exact Eb|].
  apply (Hs (lit "lua/config/options.lua")).
  - vm_compute. right. left. reflexivity.
  - exact Hm.
Defined.

(** C6 as stated fails where the path that is not there is [init.lua]:
    [main] stops with status 1 before it reads or writes anything. *)
Lemma missing_init_is_fatal :
  let run := @Flatten.main sample_host flatten_argv world_no_init in
  dict_get (fs_files (disk world_no_init)) (lit "/cfg/init.lua") = None /\
  dict_get (fs_files (disk world_no_init))
    (lit "/cfg/lua/config/options.lua") <> None /\
  exit_status (fst run) = 1 /\
  fs_files (disk (snd run)) = fs_files (disk world_no_init).
Proof.
  intros run. split; [vm_compute; reflexivity|].
  split; [vm_compute; discriminate|].
  split; vm_compute; reflexivity.
Qed.

(** ** An empty file *)

(** C2.  An expected file that is there and empty gets no section.
    [read_file] reports the file as read, with 0 lines, and returns the
    empty text; [if content:] in the loop of [generate_flat_config] takes
    the empty text for no text, so [wrap_file_content] is not called and
    the loop adds nothing to the bundle for the path.  [wrap_file_content]
    itself, which sets aside [None] only, makes of the empty content a
    section from which the parser recovers it.  In the run on a directory
    whose [lua/plugins/init.lua] is empty the status is 0, the file is
    reported as read, the bundle does not show the start sentinel of the
    path and the parser finds no document for it. *)
Theorem empty_file_is_reported_but_not_embedded :
  (forall (H : Host) (w : World) (p : str),
     In p Flatten.ALL_FILES ->
     dict_get (fs_files (disk w)) (joinpath NVIM_CONFIG_DIR p) = Some [] ->
     Flatten.read_file p w =
       (Done (Some []), mkWorld (disk w) (stdout w ++ [ok_report p []])) /\
     emitted_section (fs_files (disk w)) p = [] /\
     exists lines,
       Flatten.generate_flat_config w =
         (Done (emitted_bundle (fs_files (disk w))),
          mkWorld (disk w) (stdout w ++ lines)) /\
       In (ok_report p []) lines) /\
  (forall p, path_ok p ->
     Flatten.wrap_file_content p (Some []) =
       (FILE_START ++ p ++ [nl]) ++ [nl] ++ (FILE_END ++ p ++ [nl]) ++ [nl] /\
     Unflatten.parse_flattened_file (Flatten.wrap_file_content p (Some [])) =
       [(p, [])]) /\
  (let path := lit "lua/plugins/init.lua" in
   let run := @Flatten.main sample_host flatten_argv world_empty_file in
   dict_get (fs_files (disk world_empty_file))
     (lit "/cfg/lua/plugins/init.lua") = Some [] /\
   exit_status (fst run) = 0 /\
   In (ok_report path []) (stdout (snd run)) /\
   exists bundle,
     fst (@Flatten.generate_flat_config sample_host world_empty_file) =
       Done bundle /\
     dict_get (fs_files (disk (snd run))) (lit "/out/flat.lua") = Some bundle /\
     contains (FILE_START ++ path) bundle = false /\
     dict_get (Unflatten.parse_flattened_file bundle) path = None).
Proof.
  split; [|split].
  - intros H w p I E.
    assert (R : read_report (fs_files (disk w)) p = ok_report p []).
    { unfold read_report. rewrite E. reflexivity. }
    split; [|split].
    + rewrite read_file_run, E, R. reflexivity.
    + unfold emitted_section. cbv zeta. rewrite E. reflexivity.
    + eexists. split; [apply generate_flat_config_run|].
      rewrite <- R. apply in_map. exact I.
  - intros p Hp. split.
    + unfold Flatten.wrap_file_content. cbv zeta.
      rewrite <- !app_assoc. reflexivity.
    + assert (E : Flatten.wrap_file_content p (Some []) = encode [(p, [])]).
      { unfold encode. cbn [map concat fst snd]. rewrite app_nil_r.
        reflexivity. }
      rewrite E, parse_encode.
      * reflexivity.
      * repeat constructor. intros [].
      * repeat constructor; apply Hp.
  - intros path run.
    split; [vm_compute; reflexivity|].
    split; [vm_compute; reflexivity|].
    split; [vm_compute; tauto|].
    eexists. split; [vm_compute; reflexivity|].
    split; [vm_compute; reflexivity|].
    split; vm_compute; reflexivity.
Qed.

(** ** The count in the metadata block *)

(** C10.  Whatever the files, the text [generate_flat_config] returns is
    the banner, then the metadata block with 19 for [file_count] and the
    nineteen expected paths for [files], then the rest.  Where only two of
    the paths exist the bundle has two sections and the block still says
    19. *)
Theorem metadata_counts_expected_files :
  (forall (H : Host) (w : World),
     exists body,
       fst (Flatten.generate_flat_config w) =
       Done (banner_text ++ reported_metadata ++ body)) /\
  length Flatten.ALL_FILES = 19 /\
  (exists bundle metadata,
     fst (@Flatten.generate_flat_config sample_host world_two_files) =
       Done bundle /\
     Unflatten.parse_metadata bundle = Some metadata /\
     dict_get metadata (lit "file_count") = Some (lit "19") /\
     dict_get metadata (lit "files") = Some (join (lit ", ") Flatten.ALL_FILES) /\
     count_sections bundle = 2).
Proof.
  split; [|split].
  - intros H w. rewrite generate_flat_config_run. cbn [fst].
    unfold emitted_bundle. rewrite header_metadata.
    eexists. rewrite <- !app_assoc. reflexivity.
  - reflexivity.
  - eexists. eexists. split; [vm_compute; reflexivity|].
    split; [vm_compute; reflexivity|].
    split; [vm_compute; reflexivity|].
    split; vm_compute; reflexivity.
Qed.

(** ** The metadata parser never raises *)

Transparent lit.

Lemma split_once_contains (sep s : str) :
  contains sep s = true -> exists key value, split_once sep s = [key; value].
Proof.
  induction s as [|c s IH]; simpl; unfold startswith.
  - destruct (starts_with sep []) as [r|]; [|discriminate].
    intros _. exists [], r. reflexivity.
  - destruct (starts_with sep (c :: s)) as [r|].
    + intros _. exists [], r. reflexivity.
    + simpl. intros E. destruct (IH E) as (key & value & ->).
      exists (c :: key), value. reflexivity.
Qed.

Lemma contains_after_dashes (line : str) :
  startswith line (lit "-- ") = true ->
  contains (lit ": ") line = true ->
  contains (lit ": ") (skipn 3 line) = true.
Proof.
  intros S. apply startswith_true in S. destruct S as [r ->].
  cbn. intros E. exact E.
Qed.

Lemma parse_meta_line_total (metadata : dict) (line : str) :
  Unflatten.parse_meta_line metadata line <> None.
Proof.
  unfold Unflatten.parse_meta_line. cbv zeta.
  destruct (startswith (strip line) (lit "-- ")) eqn:S;
    [|cbn [andb]; discriminate].
  destruct (contains (lit ": ") (strip line)) eqn:C;
    [|cbn [andb]; discriminate].
  cbn [andb].
  destruct (split_once_contains _ _ (contains_after_dashes _ S C))
    as (key & value & ->).
  discriminate.
Qed.

Lemma parse_meta_lines_total (lines : list str) (metadata : dict) :
  Unflatten.parse_meta_lines metadata lines <> None.
Proof.
  revert metadata; induction lines as [|line lines IH]; intros metadata;
    cbn [Unflatten.parse_meta_lines]; [discriminate|].
  destruct (Unflatten.parse_meta_line metadata line) as [m|] eqn:E.
  - apply IH.
  - exfalso. exact (parse_meta_line_total _ _ E).
Qed.

(** [parse_metadata] returns a dictionary for every text; for a text
    without a metadata block, the empty one. *)
Lemma parse_metadata_total (content : str) :
  exists metadata, Unflatten.parse_metadata content = Some metadata.
Proof.
  destruct (Unflatten.parse_metadata content) as [m|] eqn:E; [eauto|].
  exfalso. revert E. unfold Unflatten.parse_metadata. cbv zeta.
  destruct (re_search Unflatten.match_meta_block content);
    [apply parse_meta_lines_total | discriminate].
Qed.


Opaque lit.

(** ** Runs of unflatten.py *)

Lemma findall_no_match (s : str) :
  (forall i, Unflatten.match_file_block (skipn i s) = None) ->
  Unflatten.findall s = [].
Proof.
  induction s as [|c s IH]; intros N; [reflexivity|].
  rewrite findall_skip_char by exact (N 0).
  apply IH. intros i. exact (N (S i)).
Qed.

Lemma print_loop (lines : list str) (w : World) :
  for_each lines (fun line (_ : unit) => print line) tt w =
  (Done tt, mkWorld (disk w) (stdout w ++ lines)).
Proof.
  revert w; induction lines as [|l lines IH]; intros w.
  - cbn [for_each]. unfold ret. rewrite app_nil_r. destruct w; reflexivity.
  - cbn [for_each]. unfold bind, print. rewrite IH. cbn [disk stdout].
    rewrite <- app_assoc. reflexivity.
Qed.

Lemma print_bind_dep {A : Type} (l : str) (k : unit -> Proc A) (w : World) :
  (x <- print l ;; k x) w = k tt (mkWorld (disk w) (stdout w ++ [l])).
Proof. reflexivity. Qed.

Lemma metadata_print_loop (metadata : dict) (w : World) :
  exists lines,
    for_each metadata (fun item (_ : unit) =>
      let '(key, value) := item in
      if negb (str_eqb key (lit "files"))
      then print (lit "  " ++ key ++ lit ": " ++ value)
      else ret tt) tt w =
    (Done tt, mkWorld (disk w) (stdout w ++ lines)).
Proof.
  revert w; induction metadata as [|[key value] metadata IH]; intros w.
  - exists []. cbn [for_each]. unfold ret. rewrite app_nil_r.
    destruct w; reflexivity.
  - cbn [for_each].
    destruct (negb (str_eqb key (lit "files"))).
    + rewrite print_bind_dep.
      match goal with
      | |- exists _, for_each _ _ _ ?W = _ => destruct (IH W) as [lines E]
      end.
      exists ([lit "  " ++ key ++ lit ": " ++ value] ++ lines).
      rewrite E. cbn [disk stdout]. rewrite <- app_assoc. reflexivity.
    + rewrite ret_bind. destruct (IH w) as [lines E]. exists lines. exact E.
Qed.

Lemma bind_assoc_run {A B C : Type} (m : Proc A) (f : A -> Proc B)
    (g : B -> Proc C) (w : World) :
  (y <- (x <- m ;; f x) ;; g y) w = (x <- m ;; y <- f x ;; g y) w.
Proof. unfold bind. destruct (m w) as [[a|code|exn] w']; reflexivity. Qed.

Lemma bind_run {A B : Type} {m : Proc A} (k : A -> Proc B) {w w' : World}
    {a : A} :
  m w = (Done a, w') -> (x <- m ;; k x) w = k a w'.
Proof. intros E. unfold bind. rewrite E. reflexivity. Qed.

Ltac steps := repeat first [rewrite bind_assoc_run | step].

(** What [write_file] leaves: the file holds the content, with a line
    break after it when the content had none at its end; the other files
    are as they were. *)
Lemma write_file_run (path c : str) (w : World) :
  exists files',
    Unflatten.write_file path c w =
      (Done tt, mkWorld (mkFS files' (fs_dirs (disk w))) (stdout w)) /\
    dict_get files' path = Some (with_trailing_nl c) /\
    forall q, q <> path -> dict_get files' q = dict_get (fs_files (disk w)) q.
Proof.
  unfold Unflatten.write_file, with_trailing_nl. steps.
  rewrite dict_get_set_same. cbn [app].
  destruct (endswith_nl c); cbn [negb].
  - eexists. split; [reflexivity|]. split.
    + apply dict_get_set_same.
    + intros q N. rewrite !dict_get_set_other by exact N. reflexivity.
  - unfold f_write. cbn [disk stdout fs_files fs_dirs].
    rewrite dict_get_set_same.
    eexists. split; [reflexivity|]. split.
    + apply dict_get_set_same.
    + intros q N. rewrite !dict_get_set_other by exact N. reflexivity.
Qed.

Section UnflattenRuns.
Context `{Host}.

Lemma write_entry_run (output_path p c : str) (created_files created_dirs : list str)
    (w : World) :
  exists dirs' w',
    Unflatten.write_entry output_path (p, c) (created_files, created_dirs) w =
      (Done (created_files ++ [p], dirs'), w') /\
    dict_get (fs_files (disk w')) (joinpath output_path p) =
      Some (with_trailing_nl c) /\
    forall q, q <> joinpath output_path p ->
      dict_get (fs_files (disk w')) q = dict_get (fs_files (disk w)) q.
Proof.
  unfold Unflatten.write_entry. cbv zeta.
  set (full_path := joinpath output_path p).
  assert (D : exists dirs' ds,
             forall (k : list str -> Proc (list str * list str)),
               (created_dirs <-
                  (if negb (mem (parent full_path) created_dirs)
                   then mkdir_parents (parent full_path) ;;;
                        ret (created_dirs ++ [parent full_path])
                   else ret created_dirs) ;; k created_dirs) w =
               k dirs' (mkWorld (mkFS (fs_files (disk w)) ds) (stdout w))).
  { destruct (negb (mem (parent full_path) created_dirs)).
    - eexists. eexists. intros k. steps. reflexivity.
    - exists created_dirs, (fs_dirs (disk w)). intros k. steps.
      destruct w as [[files dirs] out]. reflexivity. }
  destruct D as (dirs' & ds & D). rewrite D.
  destruct (write_file_run full_path c
              (mkWorld (mkFS (fs_files (disk w)) ds) (stdout w)))
    as (files' & E & G & O).
  rewrite (bind_run _ E). steps.
  exists dirs'. eexists. split; [reflexivity|].
  cbn [disk fs_files]. split; [exact G | exact O].
Qed.

(** The loop over the documents: every path it wrote holds the content of
    one of the documents with that path, ended by a line break; the other
    files are as they were. *)
Lemma write_loop_run (output_path : str) (docs : dict)
    (created_files created_dirs : list str) (w : World) :
  exists dirs' w',
    for_each docs (Unflatten.write_entry output_path)
      (created_files, created_dirs) w =
      (Done (created_files ++ map fst docs, dirs'), w') /\
    forall q,
      (exists p c, In (p, c) docs /\ q = joinpath output_path p /\
         dict_get (fs_files (disk w')) q = Some (with_trailing_nl c)) \/
      ((forall p c, In (p, c) docs -> q <> joinpath output_path p) /\
       dict_get (fs_files (disk w')) q = dict_get (fs_files (disk w)) q).
Proof.
  revert created_files created_dirs w.
  induction docs as [|[p c] docs IH]; intros created_files created_dirs w.
  - exists created_dirs, w. cbn [for_each map]. rewrite app_nil_r.
    split; [reflexivity|]. intros q. right. split; [intros ? ? []|reflexivity].
  - cbn [for_each].
    destruct (write_entry_run output_path p c created_files created_dirs w)
      as (dirs1 & w1 & E1 & G1 & O1).
    rewrite (bind_run _ E1).
    destruct (IH (created_files ++ [p]) dirs1 w1) as (dirs' & w' & E & Q).
    exists dirs', w'. split.
    + rewrite E. cbn [map fst]. rewrite <- app_assoc. reflexivity.
    + intros q. destruct (Q q) as [(p' & c' & I & -> & G)|[N G]].
      * left. exists p', c'. split; [right; exact I|]. split; [reflexivity|].
        exact G.
      * destruct (list_eq_dec ascii_dec q (joinpath output_path p)) as [->|Nq].
        -- left. exists p, c. split; [left; reflexivity|].
           split; [reflexivity|]. rewrite G. exact G1.
        -- right. split.
           ++ intros p' c' [E'|I]; [inversion E'; subst; exact Nq|].
              exact (N p' c' I).
           ++ rewrite G. apply O1. exact Nq.
Qed.
End UnflattenRuns.

Section UnflattenMain.
Context `{Host}.

(** The report of the metadata only prints. *)
Lemma metadata_report_run (metadata : dict) (w : World) :
  exists lines,
    (if negb (is_empty_dict metadata)
     then
       print (lit "Metadata from flattened file:") ;;;
       print rule50 ;;;
       for_each metadata (fun item (_ : unit) =>
         let '(key, value) := item in
         if negb (str_eqb key (lit "files"))
         then print (lit "  " ++ key ++ lit ": " ++ value)
         else ret tt) tt ;;;
       print rule50 ;;;
       print []
     else ret tt) w =
    (Done tt, mkWorld (disk w) (stdout w ++ lines)).
Proof.
  destruct (negb (is_empty_dict metadata)).
  - steps.
    match goal with
    | |- context [bind (for_each ?m _ tt) _ ?W] =>
        destruct (metadata_print_loop m W) as [lines El]
    end.
    rewrite (bind_run _ El). steps.
    eexists. rewrite <- !app_assoc. reflexivity.
  - exists []. unfold ret. rewrite app_nil_r. destruct w; reflexivity.
Qed.

Ltac metadata_report :=
  match goal with
  | |- context [bind (if negb (is_empty_dict ?m) then _ else _) _ ?W] =>
      let lines := fresh "lines" in
      let El := fresh "El" in
      destruct (metadata_report_run m W) as [lines El];
      rewrite (bind_run _ El); cbn [disk stdout fs_files fs_dirs]
  end.

(** The run of [unflatten] on a text in which the pattern finds nothing:
    what it printed is all that changed. *)
Lemma unflatten_no_files (input_file output_dir content : str) (w : World) :
  dict_get (fs_files (disk w)) input_file = Some content ->
  Unflatten.parse_flattened_file content = [] ->
  exists lines,
    Unflatten.unflatten input_file output_dir w =
    (Exited 1, mkWorld (disk w) (stdout w ++ lines)).
Proof.
  intros E P. unfold Unflatten.unflatten. cbv zeta. steps. rewrite E.
  cbn [negb]. steps. rewrite (read_text_bind _ _ E).
  destruct (parse_metadata_total content) as [metadata ->]. steps.
  metadata_report. steps.
  rewrite P. cbn [is_empty_dict]. steps.
  eexists. rewrite <- !app_assoc. reflexivity.
Qed.

(** The run of [unflatten] on a bundle with documents: it returns their
    paths; every path it wrote holds the content of a document with that
    path, ended by a line break; the other files are as they were. *)
Lemma unflatten_writes (input_file output_dir content : str) (w : World) :
  dict_get (fs_files (disk w)) input_file = Some content ->
  Unflatten.parse_flattened_file content <> [] ->
  exists w',
    Unflatten.unflatten input_file output_dir w =
      (Done (map fst (Unflatten.parse_flattened_file content)), w') /\
    forall q,
      (exists p c, In (p, c) (Unflatten.parse_flattened_file content) /\
         q = joinpath output_dir p /\
         dict_get (fs_files (disk w')) q = Some (with_trailing_nl c)) \/
      ((forall p c, In (p, c) (Unflatten.parse_flattened_file content) ->
          q <> joinpath output_dir p) /\
       dict_get (fs_files (disk w')) q = dict_get (fs_files (disk w)) q).
Proof.
  intros E P. unfold Unflatten.unflatten. cbv zeta. steps. rewrite E.
  cbn [negb]. steps. rewrite (read_text_bind _ _ E).
  destruct (parse_metadata_total content) as [metadata ->]. steps.
  metadata_report. steps.
  destruct (Unflatten.parse_flattened_file content) as [|d docs] eqn:F;
    [contradiction|].
  cbn [is_empty_dict]. steps.
  match goal with
  | |- context [bind (for_each ?ds (Unflatten.write_entry ?o) _) _ ?W] =>
      destruct (write_loop_run o ds [] [] W) as (dirs' & w1 & El' & Q)
  end.
  rewrite (bind_run _ El'). steps.
  unfold bind at 1. cbn beta iota.
  rewrite (bind_run _ (print_loop _ _)). steps.
  eexists. split; [reflexivity|].
  cbn [disk fs_files]. exact Q.
Qed.
End UnflattenMain.

(** ** A text that is no bundle *)

(** C5.  When the pattern matches at no position of the input text, the
    parser returns no document, [unflatten] leaves through [sys.exit(1)],
    the process ends with status 1, and the files and the directories are
    as they were: the exit comes before the output directory is made. *)
Theorem no_sentinel_pair_is_fatal `{Host} (prog arg1 arg2 : str)
    (rest : list str) (content : str) (w : World) :
  let input_file := expanduser_resolve arg1 in
  let output_dir := expanduser_resolve arg2 in
  let run := Unflatten.unflatten input_file output_dir w in
  let process := Unflatten.main (prog :: arg1 :: arg2 :: rest) w in
  mem arg1 [lit "-h"; lit "--help"] = false ->
  dict_get (fs_files (disk w)) input_file = Some content ->
  (forall i, Unflatten.match_file_block (skipn i content) = None) ->
  Unflatten.parse_flattened_file content = [] /\
  fst run = Exited 1 /\
  disk (snd run) = disk w /\
  exit_status (fst process) = 1 /\
  disk (snd process) = disk w.
Proof.
  intros input_file output_dir run process Hh E N.
  assert (P : Unflatten.parse_flattened_file content = []).
  { unfold Unflatten.parse_flattened_file. cbv zeta.
    rewrite findall_no_match by exact N. reflexivity. }
  destruct (unflatten_no_files input_file output_dir content w E P)
    as [lines R].
  split; [exact P|].
  subst run process. unfold Unflatten.main. rewrite Hh. cbv zeta.
  fold input_file output_dir. unfold bind. rewrite R.
  cbn [fst snd disk exit_status]. repeat split; reflexivity.
Qed.

Lemma no_sentinel_pair_is_fatal_witness :
  let process := @Unflatten.main sample_host unflatten_argv world_not_a_bundle in
  dict_get (fs_files (disk world_not_a_bundle)) (lit "/out/flat.lua") =
    Some (lit "not a bundle") /\
  exit_status (fst process) = 1 /\
  disk (snd process) = disk world_not_a_bundle.
Proof.
  intros process.
  assert (Hh : mem (lit "/out/flat.lua") [lit "-h"; lit "--help"] = false)
    by (vm_compute; reflexivity).
  assert (E : dict_get (fs_files (disk world_not_a_bundle))
                (@expanduser_resolve sample_host (lit "/out/flat.lua")) =
              Some (lit "not a bundle"))
    by (vm_compute; reflexivity).
  assert (N : forall i,
            Unflatten.match_file_block (skipn i (lit "not a bundle")) = None).
  { intros i. do 13 (destruct i as [|i]; [vm_compute; reflexivity|]).
    vm_compute. reflexivity. }
  destruct (@no_sentinel_pair_is_fatal sample_host (lit "unflatten.py")
              (lit "/out/flat.lua") (lit "/new") [] (lit "not a bundle")
              world_not_a_bundle Hh E N)
    as (_ & _ & _ & S & D).
  split; [exact E|]. split; [exact S | exact D].
Defined.

(** ** The files the decoder writes *)

Lemma with_trailing_nl_ends (c : str) :
  endswith_nl c = false ->
  with_trailing_nl c = c ++ [nl] /\
  endswith_nl (with_trailing_nl c) = true /\
  ends_with_blank_line (with_trailing_nl c) = false.
Proof.
  intros E. unfold with_trailing_nl, ends_with_blank_line. rewrite E.
  rewrite removelast_last, endswith_nl_snoc, E. repeat split.
Qed.

(** C8.  Every file [write_file] writes holds the content, with a line
    break after it when the content had none at its end and as it is
    otherwise.  A run of [unflatten] on a bundle with documents returns
    their paths, and for every decoded document the file at its path under
    the output directory ends with a line break and not with two. *)
Theorem written_file_ends_with_one_nl `{Host}
    (input_file output_dir content : str) (w : World) :
  let files := Unflatten.parse_flattened_file content in
  let run := Unflatten.unflatten input_file output_dir w in
  dict_get (fs_files (disk w)) input_file = Some content ->
  files <> [] ->
  (forall path c w0,
     dict_get (fs_files (disk (snd (Unflatten.write_file path c w0)))) path =
     Some (if endswith_nl c then c else c ++ [nl])) /\
  fst run = Done (map fst files) /\
  (forall p c, In (p, c) files ->
     exists text,
       dict_get (fs_files (disk (snd run))) (joinpath output_dir p) =
         Some text /\
       endswith_nl text = true /\ ends_with_blank_line text = false).
Proof.
  intros files run E P. split; [|].
  - intros path c w0.
    destruct (write_file_run path c w0) as (files' & -> & G & _).
    exact G.
  - destruct (unflatten_writes input_file output_dir content w E P)
      as (w' & R & Q).
    subst run. rewrite R. cbn [fst snd]. split; [reflexivity|].
    intros p c I.
    destruct (Q (joinpath output_dir p)) as [(p' & c' & I' & _ & G)|[N _]].
    + exists (with_trailing_nl c'). split; [exact G|].
      apply parsed_content_endswith in I'.
      apply with_trailing_nl_ends in I'. tauto.
    + exfalso. exact (N p c I eq_refl).
Qed.

Lemma written_file_ends_with_one_nl_witness :
  let run := @Unflatten.unflatten sample_host (lit "/out/flat.lua")
               (lit "/new") world_bundle in
  dict_get (fs_files (disk world_bundle)) (lit "/out/flat.lua") =
    Some (encode docs_plain) /\
  fst run = Done [lit "a.txt"; lit "b.txt"; lit "lua/c.lua"] /\
  exists text,
    dict_get (fs_files (disk (snd run))) (lit "/new/b.txt") = Some text /\
    endswith_nl text = true /\ ends_with_blank_line text = false.
Proof.
  intros run.
  assert (E : dict_get (fs_files (disk world_bundle)) (lit "/out/flat.lua") =
              Some (encode docs_plain))
    by (vm_compute; reflexivity).
  assert (P : Unflatten.parse_flattened_file (encode docs_plain) <> [])
    by (vm_compute; discriminate).
  destruct (@written_file_ends_with_one_nl sample_host (lit "/out/flat.lua")
              (lit "/new") (encode docs_plain) world_bundle E P)
    as (_ & R & F).
  split; [exact E|]. split.
  - unfold run. rewrite R. vm_compute. reflexivity.
  - apply (F (lit "b.txt") []). vm_compute. right. left. reflexivity.
Defined.

(** ** A match does not depend on what follows it *)

Lemma compatible_false (a b x : str) :
  compatible a b = false -> starts_with a (b ++ x) = None.
Proof.
  revert b; induction a as [|c a IH]; intros [|d b]; simpl;
    try discriminate.
  destruct (Ascii.eqb c d); simpl; [apply IH | reflexivity].
Qed.

Ltac norm_app := repeat (cbn [app]; rewrite <- app_assoc); cbn [app].

Lemma re_lazy_star_complete_eq {R : Type} (k : str -> str -> option R)
    (u v acc s : str) :
  s = u ++ v -> k (acc ++ u) v <> None -> re_lazy_star k acc s <> None.
Proof. intros ->. apply re_lazy_star_complete. Qed.

Lemma match_file_block_mono (s g1 g2 rest x : str) :
  Unflatten.match_file_block s = Some (g1, g2, rest) ->
  Unflatten.match_file_block (s ++ x) = Some (g1, g2, rest ++ x).
Proof.
  intros E1. unfold Unflatten.match_file_block in *.
  unfold re_lit at 1 in E1. unfold re_lit at 1.
  destruct (starts_with FILE_START s) as [s1|] eqn:E0; [|discriminate].
  rewrite (starts_with_Some_app _ _ _ x E0).
  destruct s1 as [|c s1]; [discriminate|]. cbn [re_lazy_plus app] in *.
  apply re_lazy_star_inv in E1.
  destruct E1 as (u & v & -> & E1 & Hmin1).
  unfold re_lit at 1 in E1.
  destruct (starts_with [nl] v) as [v1|] eqn:E2; [|discriminate].
  apply starts_with_Some in E2. subst v.
  apply re_lazy_star_inv in E1.
  destruct E1 as (u' & v' & -> & E1 & Hmin2).
  unfold re_lit in E1.
  destruct (starts_with (FILE_END ++ [c] ++ u) v') as [v2|] eqn:E3;
    [|discriminate].
  apply starts_with_Some in E3. subst v'.
  inversion E1; subst g1 g2 rest. clear E1.
  rewrite <- app_assoc. apply re_lazy_star_found.
  - (* a shorter first group still fails *)
    intros u1 u2 -> N. destruct u2 as [|y u2]; [contradiction|].
    destruct (ascii_dec y nl) as [->|Ny].
    + exfalso.
      specialize (Hmin1 u1 (nl :: u2) eq_refl N).
      cbn [app] in Hmin1. unfold re_lit at 1 in Hmin1.
      cbn [starts_with] in Hmin1. rewrite Ascii.eqb_refl in Hmin1.
      revert Hmin1.
      apply (re_lazy_star_complete_eq _ (u2 ++ nl :: u')
               ((FILE_END ++ c :: u1) ++ (nl :: u2) ++ v2)).
      * norm_app. reflexivity.
      * cbn [app]. unfold re_lit. rewrite starts_with_app. discriminate.
    + cbn [app]. apply re_lit_nl_other. exact Ny.
  - (* the first group and the second are found as before *)
    cbn [app]. unfold re_lit at 1. cbn [starts_with].
    rewrite Ascii.eqb_refl.
    rewrite <- app_assoc. apply re_lazy_star_found.
    + intros u1 u2 -> N. specialize (Hmin2 u1 u2 eq_refl N).
      cbn [app] in *. unfold re_lit in *.
      destruct (starts_with (FILE_END ++ c :: u)
                  (u2 ++ (FILE_END ++ c :: u) ++ v2)) eqn:S; [discriminate|].
      rewrite app_assoc.
      rewrite (starts_with_None_app _ _ x S); [reflexivity|].
      rewrite !length_app. lia.
    + cbn [app]. unfold re_lit. rewrite <- app_assoc, starts_with_app.
      reflexivity.
Qed.

(** A prefix that the scan closes is scanned the same whatever follows. *)
Lemma closed_prefix_fuel_findall (n : nat) (pre : str) (ms : list (str * str))
    (x : str) :
  closed_prefix_fuel n pre = Some ms ->
  Unflatten.findall (pre ++ x) = ms ++ Unflatten.findall x.
Proof.
  revert pre ms; induction n as [|n IH]; intros pre ms; cbn [closed_prefix_fuel].
  - destruct pre; [|discriminate]. intros E; inversion E. reflexivity.
  - destruct (Unflatten.match_file_block pre) as [[[g1 g2] rest]|] eqn:M.
    + destruct (closed_prefix_fuel n rest) as [ms'|] eqn:C; [|discriminate].
      intros E; inversion E; subst ms.
      rewrite (findall_match (match_file_block_mono _ _ _ _ x M)).
      cbn [app]. f_equal. apply IH. exact C.
    + destruct pre as [|c pre]; [intros E; inversion E; reflexivity|].
      destruct (compatible FILE_START (c :: pre)) eqn:K; [discriminate|].
      intros C. cbn [app]. rewrite findall_skip_char.
      * apply IH. exact C.
      * apply match_file_block_no_start.
        exact (compatible_false _ _ x K).
Qed.

(** * Further properties *)

(** ** Texts and dictionaries *)

Lemma contains_app_r (t a s : str) :
  contains t s = true -> contains t (a ++ s) = true.
Proof.
  intros C. apply contains_true in C. destruct C as (x & y & ->).
  apply contains_true. exists (a ++ x), y. rewrite <- app_assoc. reflexivity.
Qed.

Lemma contains_app_l (t s b : str) :
  contains t s = true -> contains t (s ++ b) = true.
Proof.
  intros C. apply contains_true in C. destruct C as (x & y & ->).
  apply contains_true. exists x, (y ++ b). rewrite <- !app_assoc. reflexivity.
Qed.

Lemma contains_tail (t : str) (c : ascii) (s : str) :
  contains t (c :: s) = false -> contains t s = false.
Proof.
  cbn [contains]. intros E. apply orb_false_iff in E. apply E.
Qed.

Lemma contains_longer (a b s : str) :
  contains a s = false -> contains (a ++ b) s = false.
Proof.
  intros C. destruct (contains (a ++ b) s) eqn:E; [exfalso|reflexivity].
  apply contains_true in E. destruct E as (x & y & ->).
  apply (contains_false _ _ x (b ++ y) C). rewrite <- app_assoc. reflexivity.
Qed.

Lemma contains_clear_app (l a x : str) :
  clear_of l a = true -> contains l (a ++ x) = contains l x.
Proof.
  induction a as [|c a IH]; cbn [clear_of]; intros E; [reflexivity|].
  apply andb_true_iff in E. destruct E as [K E].
  apply negb_true_iff in K.
  cbn [app contains]. unfold startswith.
  change (c :: a ++ x) with ((c :: a) ++ x).
  rewrite (compatible_false _ _ x K). cbn [orb]. apply IH. exact E.
Qed.

Lemma starts_with_longer (a b s : str) :
  starts_with a s = None -> starts_with (a ++ b) s = None.
Proof.
  revert s; induction a as [|c a IH]; intros s; cbn [app starts_with];
    [discriminate|].
  destruct s as [|d s]; [reflexivity|].
  destruct (Ascii.eqb c d); [apply IH | reflexivity].
Qed.

(** A literal that holds no line break does not reach over the end of a
    line. *)
Lemma starts_with_line (l x r : str) :
  ~ In nl l -> contains l x = false ->
  starts_with l (x ++ nl :: r) = None.
Proof.
  intros Hnl C.
  destruct (starts_with l (x ++ nl :: r)) as [t|] eqn:S; [exfalso|reflexivity].
  apply starts_with_Some in S. apply app_eq_app in S.
  destruct S as [m [[E1 E2]|[E1 E2]]].
  - apply (contains_false _ _ [] m C). exact E1.
  - destruct m as [|y m]; cbn [app] in E2.
    + rewrite app_nil_r in E1. apply (contains_false _ _ [] [] C).
      rewrite app_nil_r. symmetry. exact E1.
    + inversion E2; subst y. apply Hnl. rewrite E1.
      apply in_or_app. right. left. reflexivity.
Qed.

Lemma startswith_shorter (s p q : str) :
  startswith s (p ++ q) = true -> startswith s p = true.
Proof.
  intros E. apply startswith_true in E. destruct E as [r ->].
  apply startswith_true. exists (q ++ r). rewrite <- app_assoc. reflexivity.
Qed.

Lemma startswith_app (p r : str) : startswith (p ++ r) p = true.
Proof. apply startswith_true. exists r. reflexivity. Qed.

Lemma count_nl_none (x : str) : count_nl x = 0 -> ~ In nl x.
Proof.
  unfold count_nl. induction x as [|c x IH]; cbn [filter]; [intros _ []|].
  destruct (Ascii.eqb nl c) eqn:E; cbn [length]; [discriminate|].
  intros Z [->|I]; [|exact (IH Z I)].
  rewrite Ascii.eqb_refl in E. discriminate.
Qed.

Lemma count_nl_app (a b : str) : count_nl (a ++ b) = count_nl a + count_nl b.
Proof. unfold count_nl. rewrite filter_app, length_app. reflexivity. Qed.

Lemma app_snoc_split (x u m : str) (c : ascii) :
  x ++ [c] = u ++ m -> m <> [] -> exists x2, m = x2 ++ [c] /\ x = u ++ x2.
Proof.
  destruct m as [|z t _] using rev_ind; [contradiction|].
  rewrite app_assoc. intros E _. apply app_inj_tail in E.
  destruct E as [-> ->]. eauto.
Qed.

Lemma text_lines_cons (l : str) (ls : list str) :
  Flatten.text_lines (l :: ls) = l ++ nl :: Flatten.text_lines ls.
Proof.
  unfold Flatten.text_lines. cbn [map concat]. rewrite <- app_assoc.
  reflexivity.
Qed.

Lemma FILE_START_no_nl : ~ In nl FILE_START.
Proof. apply count_nl_none. vm_compute. reflexivity. Qed.

Lemma FILE_END_cons : exists c r, FILE_END = c :: r.
Proof. eexists. eexists. vm_compute. reflexivity. Qed.

Lemma dict_get_app (d e : dict) (k : str) :
  dict_get (d ++ e) k =
  match dict_get d k with Some v => Some v | None => dict_get e k end.
Proof.
  induction d as [|[k' v'] d IH]; cbn [app dict_get]; [reflexivity|].
  destruct (str_eqb k' k); [reflexivity | exact IH].
Qed.

Lemma dict_get_map_snd (f : str -> str) (d : dict) (k : str) :
  dict_get (map (fun e => (fst e, f (snd e))) d) k =
  option_map f (dict_get d k).
Proof.
  induction d as [|[k' v'] d IH]; cbn [map dict_get fst snd]; [reflexivity|].
  destruct (str_eqb k' k); [reflexivity | exact IH].
Qed.

Lemma dict_in_unique (d : dict) (p c c' : str) :
  NoDup (map fst d) -> In (p, c) d -> In (p, c') d -> c = c'.
Proof.
  induction d as [|[q x] d IH]; cbn [map fst In]; intros ND I I';
    [contradiction|].
  inversion ND as [|? ? Nq ND']; subst.
  destruct I as [E|I]; destruct I' as [E'|I'].
  - congruence.
  - inversion E; subst. exfalso. apply Nq.
    apply (in_map fst) in I'. exact I'.
  - inversion E'; subst. exfalso. apply Nq.
    apply (in_map fst) in I. exact I.
  - exact (IH ND' I I').
Qed.

Lemma NoDup_map_in_inj {A B : Type} (f : A -> B) (l : list A) (x y : A) :
  NoDup (map f l) -> In x l -> In y l -> f x = f y -> x = y.
Proof.
  induction l as [|a l IH]; cbn [map In]; intros ND Ix Iy E; [contradiction|].
  inversion ND as [|? ? Na ND']; subst.
  destruct Ix as [->|Ix]; destruct Iy as [->|Iy].
  - reflexivity.
  - exfalso. apply Na. rewrite E. apply in_map. exact Iy.
  - exfalso. apply Na. rewrite <- E. apply in_map. exact Ix.
  - exact (IH ND' Ix Iy E).
Qed.

Lemma mem_true (x : str) (xs : list str) : mem x xs = true -> In x xs.
Proof.
  unfold mem. intros E. apply existsb_exists in E.
  destruct E as (y & I & E). apply str_eqb_eq in E. subst y. exact I.
Qed.

(** ** What the scan finds stands in the text *)

Lemma findall_sound (n : nat) (s g1 g2 : str) :
  length s <= n ->
  In (g1, g2) (Unflatten.findall s) ->
  g1 <> [] /\
  exists a b,
    s = a ++ FILE_START ++ g1 ++ [nl] ++ g2 ++ FILE_END ++ g1 ++ b /\
    forall u1 u2, g2 = u1 ++ u2 -> u2 <> [] ->
      starts_with (FILE_END ++ g1) (u2 ++ FILE_END ++ g1 ++ b) = None.
Proof.
  revert s; induction n as [|n IH]; intros s L.
  - destruct s; [|simpl in L; lia]. intros [].
  - rewrite findall_eq.
    destruct (Unflatten.match_file_block s) as [[[h1 h2] rest]|] eqn:M.
    + intros [E|I].
      * inversion E; subst h1 h2.
        apply match_file_block_inv in M. destruct M as (Es & N & Hmin).
        split; [exact N|]. exists [], rest. split; [exact Es | exact Hmin].
      * assert (Lr : length rest <= n).
        { apply match_file_block_shorter in M. lia. }
        destruct (IH rest Lr I) as (N & a & b & Es & Hmin).
        split; [exact N|].
        apply match_file_block_inv in M. destruct M as (Es' & _ & _).
        exists (FILE_START ++ h1 ++ [nl] ++ h2 ++ FILE_END ++ h1 ++ a), b.
        split; [|exact Hmin].
        rewrite Es', Es. rewrite <- !app_assoc. reflexivity.
    + destruct s as [|c s]; [intros []|]. intros I.
      assert (Ls : length s <= n) by (simpl in L; lia).
      destruct (IH s Ls I) as (N & a & b & Es & Hmin).
      split; [exact N|]. exists (c :: a), b. split; [|exact Hmin].
      rewrite Es. reflexivity.
Qed.

(** X1.  Every document the parser returns stands in the text it was given:
    its path is not empty, and somewhere in the text come the start
    sentinel with that path and a line break, the content, line breaks
    only, and the end sentinel with that path. *)
Theorem decoded_section_stands_in_text (content p c : str) :
  In (p, c) (Unflatten.parse_flattened_file content) ->
  p <> [] /\
  exists before k after,
    content = before ++ (FILE_START ++ p ++ [nl]) ++ (c ++ repeat nl k) ++
              (FILE_END ++ p) ++ after.
Proof.
  unfold Unflatten.parse_flattened_file. cbv zeta. intros I.
  apply fold_parse_step_in in I. destruct I as [[]|(g2 & I & ->)].
  destruct (findall_sound (length content) content p g2 (le_n _) I)
    as (N & a & b & E & _).
  split; [exact N|].
  destruct (rstrip_nl_spec g2) as [_ [k Ek]].
  exists a, k, b. rewrite <- Ek, E. rewrite <- !app_assoc. reflexivity.
Qed.

Lemma decoded_section_stands_in_text_witness :
  In (lit "a.txt", lit "hello")
     (Unflatten.parse_flattened_file (encode docs_blank_lines)) /\
  exists before k after,
    encode docs_blank_lines =
    before ++ (FILE_START ++ lit "a.txt" ++ [nl]) ++
    (lit "hello" ++ repeat nl k) ++ (FILE_END ++ lit "a.txt") ++ after.
Proof.
  assert (I : In (lit "a.txt", lit "hello")
                 (Unflatten.parse_flattened_file (encode docs_blank_lines))).
  { vm_compute. left. reflexivity. }
  split; [exact I|].
  exact (proj2 (decoded_section_stands_in_text (encode docs_blank_lines)
                  (lit "a.txt") (lit "hello") I)).
Defined.

(** X2.  No content the parser returns shows the end sentinel of its own
    path, whatever the text was: a document whose content shows it cannot
    come back from any bundle. *)
Theorem decoded_content_hides_own_end_sentinel (content p c : str) :
  In (p, c) (Unflatten.parse_flattened_file content) ->
  contains (FILE_END ++ p) c = false.
Proof.
  unfold Unflatten.parse_flattened_file. cbv zeta. intros I.
  apply fold_parse_step_in in I. destruct I as [[]|(g2 & I & ->)].
  destruct (findall_sound (length content) content p g2 (le_n _) I)
    as (_ & a & b & _ & Hmin).
  destruct (contains (FILE_END ++ p) (rstrip_nl g2)) eqn:C;
    [exfalso|reflexivity].
  apply contains_true in C. destruct C as (x & y & Ec).
  destruct (rstrip_nl_spec g2) as [_ [k Ek]].
  assert (Eg : g2 = x ++ ((FILE_END ++ p) ++ y ++ repeat nl k)).
  { rewrite Ek at 1. rewrite Ec. rewrite <- !app_assoc. reflexivity. }
  assert (Nn : (FILE_END ++ p) ++ y ++ repeat nl k <> []).
  { destruct FILE_END_cons as (c0 & r0 & ->). discriminate. }
  specialize (Hmin _ _ Eg Nn).
  rewrite <- app_assoc in Hmin.
  rewrite starts_with_app in Hmin. discriminate.
Qed.

Lemma decoded_content_hides_own_end_sentinel_witness :
  contains (FILE_END ++ lit "a.txt") (snd (hd ([], []) docs_end_sentinel))
    = true /\
  In (lit "a.txt", lit "x")
     (Unflatten.parse_flattened_file (encode docs_end_sentinel)) /\
  contains (FILE_END ++ lit "a.txt") (lit "x") = false.
Proof.
  assert (I : In (lit "a.txt", lit "x")
                 (Unflatten.parse_flattened_file (encode docs_end_sentinel))).
  { vm_compute. left. reflexivity. }
  split; [vm_compute; reflexivity|]. split; [exact I|].
  exact (decoded_content_hides_own_end_sentinel (encode docs_end_sentinel)
           (lit "a.txt") (lit "x") I).
Defined.

(** ** A path that comes twice *)

(** Looking a path up after the loop of the parser: the last match with
    that path, or what the dictionary had. *)
Lemma dict_get_fold_parse_step (ms d : dict) (p : str) :
  dict_get (fold_left Unflatten.parse_step ms d) p =
  match dict_get (rev ms) p with
  | Some g2 => Some (rstrip_nl g2)
  | None => dict_get d p
  end.
Proof.
  revert d; induction ms as [|[q g] ms IH]; intros d; [reflexivity|].
  cbn [fold_left rev]. rewrite IH, dict_get_app.
  destruct (dict_get (rev ms) p); [reflexivity|].
  unfold Unflatten.parse_step. cbn [dict_get].
  destruct (str_eqb q p) eqn:E.
  - apply str_eqb_eq in E. subst q. apply dict_get_set_same.
  - apply dict_get_set_other. intros ->. rewrite str_eqb_refl in E.
    discriminate.
Qed.

(** X3.  Where a bundle has several sections for one path, no error is
    raised and the dictionary of the parser holds for that path the content
    of the last of them; a path the bundle does not have is not in the
    dictionary. *)
Theorem repeated_path_last_section_wins (docs : dict) (p : str) :
  Forall (fun d => path_ok (fst d) /\ content_ok (fst d) (snd d)) docs ->
  dict_get (Unflatten.parse_flattened_file (encode docs)) p =
  option_map rstrip_nl (dict_get (rev docs) p).
Proof.
  intros OK. unfold Unflatten.parse_flattened_file. cbv zeta.
  rewrite dict_get_fold_parse_step.
  rewrite <- (app_nil_r (encode docs)), (@findall_encode docs [] OK).
  rewrite findall_nil, app_nil_r, <- map_rev.
  rewrite (dict_get_map_snd (fun c => c ++ [nl])).
  unfold dict, str in *.
  destruct (dict_get (rev docs) p) as [c|]; simpl; [|reflexivity].
  rewrite rstrip_nl_snoc_nl. reflexivity.
Qed.

Lemma repeated_path_last_section_wins_witness :
  Unflatten.parse_flattened_file (encode docs_same_path) =
    [(lit "a.lua", lit "second"); (lit "b.lua", lit "other")] /\
  dict_get (Unflatten.parse_flattened_file (encode docs_same_path))
    (lit "a.lua") = Some (lit "second").
Proof.
  split; [vm_compute; reflexivity|].
  rewrite (repeated_path_last_section_wins docs_same_path (lit "a.lua")).
  - vm_compute. reflexivity.
  - repeat constructor; try discriminate;
      try (vm_compute; intuition discriminate).
Defined.

(** ** A bundle that stops short *)

(** No match without the text of the end sentinel. *)
Lemma match_file_block_needs_end (s : str) :
  contains FILE_END s = false -> Unflatten.match_file_block s = None.
Proof.
  intros C.
  destruct (Unflatten.match_file_block s) as [[[g1 g2] rest]|] eqn:M;
    [exfalso | reflexivity].
  apply match_file_block_inv in M. destruct M as (E & _ & _).
  apply (contains_false _ _ (FILE_START ++ g1 ++ [nl] ++ g2) (g1 ++ rest) C).
  rewrite E, <- !app_assoc. reflexivity.
Qed.

Lemma findall_needs_end (s : str) :
  contains FILE_END s = false -> Unflatten.findall s = [].
Proof.
  induction s as [|c s IH]; intros C; [reflexivity|].
  rewrite findall_skip_char by (apply match_file_block_needs_end; exact C).
  apply IH. exact (contains_tail _ _ _ C).
Qed.

(** X4.  Text after the sections in which the beginning of an end sentinel
    does not show, such as a section that was cut before its end, is passed
    over without an error: the parser returns the documents of the sections
    before it, and nothing for a text that has only that. *)
Theorem unclosed_tail_is_dropped (docs : dict) (tail : str) :
  Forall (fun d => path_ok (fst d) /\ content_ok (fst d) (snd d)) docs ->
  contains FILE_END tail = false ->
  Unflatten.parse_flattened_file (encode docs ++ tail) =
  Unflatten.parse_flattened_file (encode docs).
Proof.
  intros OK C. unfold Unflatten.parse_flattened_file. cbv zeta.
  rewrite (@findall_encode docs tail OK), (findall_needs_end tail C).
  rewrite <- (app_nil_r (encode docs)).
  rewrite (@findall_encode docs [] OK), findall_nil. reflexivity.
Qed.

Lemma unclosed_tail_is_dropped_witness :
  contains FILE_START unclosed_section = true /\
  Unflatten.parse_flattened_file (encode docs_one_line ++ unclosed_section) =
    [(lit "a.txt", lit "hello")] /\
  Unflatten.parse_flattened_file (encode [] ++ unclosed_section) = [].
Proof.
  assert (C : contains FILE_END unclosed_section = false)
    by (vm_compute; reflexivity).
  split; [vm_compute; reflexivity|]. split.
  - rewrite (unclosed_tail_is_dropped docs_one_line unclosed_section).
    + vm_compute. reflexivity.
    + repeat constructor; try discriminate;
        try (vm_compute; intuition discriminate).
    + exact C.
  - rewrite (unclosed_tail_is_dropped [] unclosed_section (Forall_nil _) C).
    reflexivity.
Defined.

(** ** A second round trip *)

(** X5.  What the parser returned for the sections of a document set is
    returned again, as it is, when it is wrapped and parsed once more: after
    the first round trip nothing changes. *)
Theorem second_round_trip_is_stable (docs : dict) :
  NoDup (map fst docs) ->
  Forall (fun d => path_ok (fst d) /\ content_ok (fst d) (snd d)) docs ->
  let decoded := Unflatten.parse_flattened_file (encode docs) in
  Unflatten.parse_flattened_file (encode decoded) = decoded.
Proof.
  intros ND OK decoded. subst decoded. rewrite (parse_encode docs ND OK).
  rewrite parse_encode.
  - rewrite map_map. apply map_ext. intros [p c]. cbn [fst snd].
    rewrite rstrip_nl_fixed by apply rstrip_nl_spec. reflexivity.
  - rewrite map_map. cbn [fst]. exact ND.
  - apply Forall_forall. intros [p c'] I. apply in_map_iff in I.
    destruct I as ([p0 c0] & E & I). cbn [fst snd] in E. inversion E; subst.
    rewrite Forall_forall in OK. destruct (OK _ I) as [Hp Hc].
    cbn [fst snd] in *. split; [exact Hp|].
    unfold content_ok in *.
    destruct (contains (FILE_END ++ p) (rstrip_nl c0)) eqn:C; [|reflexivity].
    destruct (rstrip_nl_spec c0) as [_ [k Ek]].
    rewrite Ek, (contains_app_l _ _ (repeat nl k) C) in Hc. discriminate.
Qed.

Lemma second_round_trip_is_stable_witness :
  Unflatten.parse_flattened_file (encode docs_blank_lines) =
    [(lit "a.txt", lit "hello")] /\
  Unflatten.parse_flattened_file
    (encode (Unflatten.parse_flattened_file (encode docs_blank_lines))) =
  Unflatten.parse_flattened_file (encode docs_blank_lines).
Proof.
  split; [vm_compute; reflexivity|].
  apply (second_round_trip_is_stable docs_blank_lines).
  - repeat constructor. intros [].
  - repeat constructor; try discriminate;
      try (vm_compute; intuition discriminate).
Defined.

(** ** The directories a run makes *)

Lemma add_dir_incl (ds : list str) (d : str) : incl ds (add_dir ds d).
Proof.
  unfold add_dir. destruct (mem d ds); [apply incl_refl|].
  apply incl_appl, incl_refl.
Qed.

Lemma add_dir_in (ds : list str) (d : str) : In d (add_dir ds d).
Proof.
  unfold add_dir. destruct (mem d ds) eqn:E; [apply mem_true; exact E|].
  apply in_or_app. right. left. reflexivity.
Qed.

Lemma fold_add_dir_incl (xs ds : list str) :
  incl ds (fold_left add_dir xs ds).
Proof.
  revert ds; induction xs as [|x xs IH]; intros ds; [apply incl_refl|].
  cbn [fold_left]. eapply incl_tran; [apply add_dir_incl | apply IH].
Qed.

Lemma fold_add_dir_in (xs ds : list str) (d : str) :
  In d xs -> In d (fold_left add_dir xs ds).
Proof.
  revert ds; induction xs as [|x xs IH]; intros ds; [intros []|].
  cbn [fold_left]. intros [->|I]; [|apply IH; exact I].
  apply fold_add_dir_incl, add_dir_in.
Qed.

(** ** How a run of flatten.py ends *)

Section FlattenExits.
Context `{Host}.

Lemma flatten_usage_run {A : Type} (code : nat) (w : World) :
  exists lines,
    (Flatten.print_usage ;;; @sys_exit A code) w =
    (Exited code, mkWorld (disk w) (stdout w ++ lines)).
Proof.
  unfold Flatten.print_usage. steps.
  eexists. rewrite <- !app_assoc. reflexivity.
Qed.

(** The run of [main] in a directory without its [init.lua]. *)
Lemma flatten_main_no_init (prog arg1 : str) (rest : list str) (w : World) :
  mem arg1 [lit "-h"; lit "--help"] = false ->
  dict_get (fs_files (disk w)) (joinpath NVIM_CONFIG_DIR (lit "init.lua"))
    = None ->
  exists lines,
    Flatten.main (prog :: arg1 :: rest) w =
    (Exited 1,
     mkWorld
       (mkFS (fs_files (disk w))
             (fold_left add_dir
                (rev (parents (parent (expanduser_resolve arg1))) ++
                 [parent (expanduser_resolve arg1)])
                (fs_dirs (disk w))))
       (stdout w ++ lines)).
Proof.
  intros Hh Hi. unfold Flatten.main. rewrite Hh. cbv zeta.
  repeat step. rewrite Hi. cbn [negb]. steps.
  eexists. rewrite <- !app_assoc. reflexivity.
Qed.
End FlattenExits.

(** X6.  The exit status of flatten.py, as far as its own checks decide
    it: 1 without an argument; 0 when the first argument is [-h] or
    [--help]; 1 when it is neither and [init.lua] is not in the
    configuration directory, whatever else is there.  So a run for an
    output file that ends with status 0 found [init.lua], and a run that
    ends through [sys.exit] ended at one of these three checks. *)
Theorem flatten_exit_status `{Host} (argv : list str) (w : World) :
  let run := Flatten.main argv w in
  let help := mem (nth 1 argv []) [lit "-h"; lit "--help"] in
  let init := dict_get (fs_files (disk w))
                (joinpath NVIM_CONFIG_DIR (lit "init.lua")) in
  (length argv < 2 -> fst run = Exited 1) /\
  (2 <= length argv -> help = true -> fst run = Exited 0) /\
  (2 <= length argv -> help = false -> init = None ->
   exit_status (fst run) = 1) /\
  (2 <= length argv -> help = false -> exit_status (fst run) = 0 ->
   init <> None) /\
  (forall code, fst run = Exited code ->
     (code = 1 /\ length argv < 2) \/
     (code = 0 /\ 2 <= length argv /\ help = true) \/
     (code = 1 /\ 2 <= length argv /\ help = false /\ init = None)).
Proof.
  intros run help init. subst run help init.
  destruct argv as [|prog [|arg1 rest]].
  - destruct (flatten_usage_run (A:=unit) 1 w) as [lines E].
    cbn [Flatten.main]. rewrite E. cbn [fst length].
    repeat split; try (intros; simpl in *; lia); try reflexivity.
    intros code Q. inversion Q. left. split; [reflexivity | simpl; lia].
  - destruct (flatten_usage_run (A:=unit) 1 w) as [lines E].
    cbn [Flatten.main]. rewrite E. cbn [fst length].
    repeat split; try (intros; simpl in *; lia); try reflexivity.
    intros code Q. inversion Q. left. split; [reflexivity | simpl; lia].
  - cbn [nth length].
    destruct (mem arg1 [lit "-h"; lit "--help"]) eqn:Hh.
    + destruct (flatten_usage_run (A:=unit) 0 w) as [lines E].
      cbn [Flatten.main]. rewrite Hh, E. cbn [fst].
      repeat split; try (intros; simpl in *; lia); try reflexivity;
        try discriminate.
      intros code Q. inversion Q. right. left.
      repeat split; lia.
    + destruct (dict_get (fs_files (disk w))
                  (joinpath NVIM_CONFIG_DIR (lit "init.lua"))) as [c|] eqn:Hi.
      * destruct (flatten_main_run prog arg1 rest w Hh) as (b & a & d & E).
        { rewrite Hi. discriminate. }
        rewrite E. cbn [fst].
        repeat split; try (intros; simpl in *; lia); try discriminate.
      * destruct (flatten_main_no_init prog arg1 rest w Hh Hi) as [lines E].
        rewrite E. cbn [fst].
        repeat split; try (intros; simpl in *; lia); try reflexivity;
          try discriminate.
        intros code Q. inversion Q. right. right.
        repeat split; lia.
Qed.

(** X7.  A run of flatten.py changes no file but the output file it was
    given.  A run that does not return (usage, help, no [init.lua]) changes
    no file at all.  A run that returns leaves in the output file the text
    [generate_flat_config] makes of the files as they were before the run,
    whatever the output file held, also when it is one of the files
    read. *)
Theorem flatten_writes_only_the_output `{Host} (argv : list str) (w : World) :
  let run := Flatten.main argv w in
  let output_file := expanduser_resolve (nth 1 argv []) in
  let before := fs_files (disk w) in
  let after := fs_files (disk (snd run)) in
  (forall q, q <> output_file -> dict_get after q = dict_get before q) /\
  (fst run <> Done tt -> after = before) /\
  (fst run = Done tt ->
   fst (Flatten.generate_flat_config w) = Done (emitted_bundle before) /\
   dict_get after output_file = Some (emitted_bundle before)).
Proof.
  intros run output_file before after. subst run after before output_file.
  destruct argv as [|prog [|arg1 rest]].
  - destruct (flatten_usage_run (A:=unit) 1 w) as [lines E].
    cbn [Flatten.main]. rewrite E. cbn [fst snd disk].
    repeat split; try reflexivity; discriminate.
  - destruct (flatten_usage_run (A:=unit) 1 w) as [lines E].
    cbn [Flatten.main]. rewrite E. cbn [fst snd disk].
    repeat split; try reflexivity; discriminate.
  - cbn [nth].
    destruct (mem arg1 [lit "-h"; lit "--help"]) eqn:Hh.
    + destruct (flatten_usage_run (A:=unit) 0 w) as [lines E].
      cbn [Flatten.main]. rewrite Hh, E. cbn [fst snd disk].
      repeat split; try reflexivity; discriminate.
    + destruct (dict_get (fs_files (disk w))
                  (joinpath NVIM_CONFIG_DIR (lit "init.lua"))) as [c|] eqn:Hi.
      * destruct (flatten_main_run prog arg1 rest w Hh) as (b & a & d & E).
        { rewrite Hi. discriminate. }
        rewrite E. cbn [fst snd disk fs_files]. split; [|split].
        -- intros q N. rewrite !dict_get_set_other by exact N. reflexivity.
        -- intros N. contradiction N. reflexivity.
        -- intros _. rewrite generate_flat_config_run.
           split; [reflexivity | apply dict_get_set_same].
      * destruct (flatten_main_no_init prog arg1 rest w Hh Hi) as [lines E].
        rewrite E. cbn [fst snd disk fs_files].
        repeat split; try reflexivity; discriminate.
Qed.

(** X8.  flatten.py makes the directory of the output file before it looks
    for [init.lua].  A run in a configuration directory without [init.lua]
    ends through [sys.exit(1)] and writes no file, and the directory of the
    output file has been made. *)
Theorem flatten_makes_directory_before_check `{Host} (prog arg1 : str)
    (rest : list str) (w : World) :
  let run := Flatten.main (prog :: arg1 :: rest) w in
  mem arg1 [lit "-h"; lit "--help"] = false ->
  dict_get (fs_files (disk w)) (joinpath NVIM_CONFIG_DIR (lit "init.lua"))
    = None ->
  fst run = Exited 1 /\
  fs_files (disk (snd run)) = fs_files (disk w) /\
  In (parent (expanduser_resolve arg1)) (fs_dirs (disk (snd run))).
Proof.
  intros run Hh Hi. subst run.
  destruct (flatten_main_no_init prog arg1 rest w Hh Hi) as [lines E].
  rewrite E. cbn [fst snd disk fs_files fs_dirs].
  split; [reflexivity|]. split; [reflexivity|].
  apply fold_add_dir_in, in_or_app. right. left. reflexivity.
Qed.

Lemma flatten_makes_directory_before_check_witness :
  let run := @Flatten.main sample_host flatten_argv world_no_init in
  fs_dirs (disk world_no_init) = [] /\
  fst run = Exited 1 /\
  fs_files (disk (snd run)) = fs_files (disk world_no_init) /\
  In (lit "/out") (fs_dirs (disk (snd run))).
Proof.
  intros run. split; [reflexivity|].
  apply (@flatten_makes_directory_before_check sample_host (lit "flatten.py")
           (lit "/out/flat.lua") [] world_no_init);
    vm_compute; reflexivity.
Defined.

(** ** How a run of unflatten.py ends *)

Section UnflattenExits.
Context `{Host}.

Lemma unflatten_usage_run {A : Type} (code : nat) (w : World) :
  exists lines,
    (Unflatten.print_usage ;;; @sys_exit A code) w =
    (Exited code, mkWorld (disk w) (stdout w ++ lines)).
Proof.
  unfold Unflatten.print_usage. steps.
  eexists. rewrite <- !app_assoc. reflexivity.
Qed.

(** The run of [unflatten] on an input file that is not there. *)
Lemma unflatten_missing_input (input_file output_dir : str) (w : World) :
  dict_get (fs_files (disk w)) input_file = None ->
  exists lines,
    Unflatten.unflatten input_file output_dir w =
    (Exited 1, mkWorld (disk w) (stdout w ++ lines)).
Proof.
  intros E. unfold Unflatten.unflatten. cbv zeta. steps. rewrite E.
  cbn [negb]. steps.
  eexists. rewrite <- !app_assoc. reflexivity.
Qed.

(** One turn of the loop, with the directories: what [created_dirs] names
    is there, before and after. *)
Lemma write_entry_dirs (output_path p c : str)
    (created_files created_dirs : list str) (w : World) :
  exists dirs' w',
    Unflatten.write_entry output_path (p, c) (created_files, created_dirs) w =
      (Done (created_files ++ [p], dirs'), w') /\
    incl (fs_dirs (disk w)) (fs_dirs (disk w')) /\
    (incl created_dirs (fs_dirs (disk w)) ->
     incl dirs' (fs_dirs (disk w')) /\
     In (parent (joinpath output_path p)) (fs_dirs (disk w'))).
Proof.
  unfold Unflatten.write_entry. cbv zeta.
  set (full_path := joinpath output_path p).
  destruct (mem (parent full_path) created_dirs) eqn:M; cbn [negb].
  - steps.
    destruct (write_file_run full_path c w) as (files' & E & _).
    rewrite (bind_run _ E). steps.
    eexists. eexists. split; [reflexivity|].
    cbn [disk fs_dirs]. split; [apply incl_refl|].
    intros I. split; [exact I|]. apply I, mem_true. exact M.
  - steps.
    match goal with
    | |- context [bind (Unflatten.write_file _ _) _ ?W] =>
        destruct (write_file_run full_path c W) as (files' & E & _)
    end.
    rewrite (bind_run _ E). steps.
    eexists. eexists. split; [reflexivity|].
    cbn [disk fs_dirs]. split; [apply fold_add_dir_incl|].
    intros I.
    assert (P : In (parent full_path)
                  (fold_left add_dir
                     (rev (parents (parent full_path)) ++ [parent full_path])
                     (fs_dirs (disk w)))).
    { apply fold_add_dir_in, in_or_app. right. left. reflexivity. }
    split; [|exact P].
    apply incl_app.
    + eapply incl_tran; [exact I | apply fold_add_dir_incl].
    + intros d [<-|[]]. exact P.
Qed.

Lemma write_loop_dirs (output_path : str) (docs : dict)
    (created_files created_dirs : list str) (w : World) :
  incl created_dirs (fs_dirs (disk w)) ->
  exists dirs' w',
    for_each docs (Unflatten.write_entry output_path)
      (created_files, created_dirs) w =
      (Done (created_files ++ map fst docs, dirs'), w') /\
    incl (fs_dirs (disk w)) (fs_dirs (disk w')) /\
    forall p c, In (p, c) docs ->
      In (parent (joinpath output_path p)) (fs_dirs (disk w')).
Proof.
  revert created_files created_dirs w.
  induction docs as [|[p c] docs IH]; intros created_files created_dirs w I.
  - exists created_dirs, w. cbn [for_each map]. rewrite app_nil_r.
    split; [reflexivity|]. split; [apply incl_refl | intros ? ? []].
  - cbn [for_each].
    destruct (write_entry_dirs output_path p c created_files created_dirs w)
      as (dirs1 & w1 & E1 & G1 & D1).
    destruct (D1 I) as [I1 P1].
    rewrite (bind_run _ E1).
    destruct (IH (created_files ++ [p]) dirs1 w1 I1)
      as (dirs' & w' & E & G & D).
    exists dirs', w'. split; [|split].
    + rewrite E. cbn [map fst]. rewrite <- app_assoc. reflexivity.
    + eapply incl_tran; [exact G1 | exact G].
    + intros p' c' [E'|I'].
      * inversion E'; subst. apply G. exact P1.
      * exact (D p' c' I').
Qed.

(** The directories after a run of [unflatten] that decoded documents. *)
Lemma unflatten_dirs (input_file output_dir content : str) (w : World) :
  dict_get (fs_files (disk w)) input_file = Some content ->
  Unflatten.parse_flattened_file content <> [] ->
  exists w',
    Unflatten.unflatten input_file output_dir w =
      (Done (map fst (Unflatten.parse_flattened_file content)), w') /\
    incl (fs_dirs (disk w)) (fs_dirs (disk w')) /\
    In output_dir (fs_dirs (disk w')) /\
    forall p c, In (p, c) (Unflatten.parse_flattened_file content) ->
      In (parent (joinpath output_dir p)) (fs_dirs (disk w')).
Proof.
  intros E P. unfold Unflatten.unflatten. cbv zeta. steps. rewrite E.
  cbn [negb]. steps. rewrite (read_text_bind _ _ E).
  destruct (parse_metadata_total content) as [metadata ->]. steps.
  match goal with
  | |- context [bind (if negb (is_empty_dict ?m) then _ else _) _ ?W] =>
      destruct (metadata_report_run m W) as [lines El];
      rewrite (bind_run _ El); cbn [disk stdout fs_files fs_dirs]
  end.
  steps.
  destruct (Unflatten.parse_flattened_file content) as [|d docs] eqn:F;
    [contradiction|].
  cbn [is_empty_dict]. steps.
  match goal with
  | |- context [bind (for_each ?ds (Unflatten.write_entry ?o) _) _ ?W] =>
      destruct (write_loop_dirs o ds [] [] W (incl_nil_l _))
        as (dirs' & w1 & El' & G & D)
  end.
  rewrite (bind_run _ El'). steps.
  unfold bind at 1. cbn beta iota.
  rewrite (bind_run _ (print_loop _ _)). steps.
  eexists. split; [reflexivity|].
  cbn [disk fs_dirs] in *. split; [|split].
  - eapply incl_tran; [apply fold_add_dir_incl | exact G].
  - apply G, fold_add_dir_in, in_or_app. right. left. reflexivity.
  - exact D.
Qed.

(** The run of [main] on a command line with fewer than two arguments. *)
Lemma unflatten_main_short (argv : list str) (w : World) :
  length argv < 3 ->
  exists lines,
    Unflatten.main argv w = (Exited 1, mkWorld (disk w) (stdout w ++ lines)).
Proof.
  intros L. destruct argv as [|a0 [|a1 [|a2 rest]]];
    try (cbn [Unflatten.main]; apply (unflatten_usage_run (A:=unit) 1 w)).
  simpl in L. lia.
Qed.

Lemma unflatten_main_run (prog arg1 arg2 : str) (rest : list str) (w : World) :
  mem arg1 [lit "-h"; lit "--help"] = false ->
  Unflatten.main (prog :: arg1 :: arg2 :: rest) w =
  (Unflatten.unflatten (expanduser_resolve arg1) (expanduser_resolve arg2) ;;;
   ret tt) w.
Proof. intros Hh. unfold Unflatten.main. rewrite Hh. reflexivity. Qed.
End UnflattenExits.

Ltac short_command_line :=
  match goal with
  | |- context [Unflatten.main ?argv ?w] =>
      let L := fresh "L" in
      let lines := fresh "lines" in
      assert (L : length argv < 3) by (simpl; lia);
      destruct (unflatten_main_short argv w L) as [lines ->]
  end.

(** X9.  The exit status of unflatten.py, as far as its own checks decide
    it: 1 with fewer than two arguments, also when the only argument is
    [-h] or [--help]; 0 when there are two and the first is [-h] or
    [--help]; otherwise 1 when the input file is not there, and 1 when
    the parser finds no document in its text.  So a run that ends with
    status 0, on arguments that do not ask for help, had an input file in
    which the parser found a document. *)
Theorem unflatten_exit_status `{Host} (argv : list str) (w : World) :
  let run := Unflatten.main argv w in
  let help := mem (nth 1 argv []) [lit "-h"; lit "--help"] in
  let input := dict_get (fs_files (disk w))
                 (expanduser_resolve (nth 1 argv [])) in
  (length argv < 3 -> fst run = Exited 1) /\
  (3 <= length argv -> help = true -> fst run = Exited 0) /\
  (3 <= length argv -> help = false -> input = None ->
   exit_status (fst run) = 1) /\
  (forall content,
     3 <= length argv -> help = false -> input = Some content ->
     plain_text content = true ->
     Unflatten.parse_flattened_file content = [] ->
     exit_status (fst run) = 1) /\
  (3 <= length argv -> help = false -> exit_status (fst run) = 0 ->
   exists content,
     input = Some content /\
     (plain_text content = true ->
      Unflatten.parse_flattened_file content <> [])).
Proof.
  intros run help input. subst run help input.
  destruct argv as [|prog [|arg1 [|arg2 rest]]];
    try (short_command_line; cbn [fst length];
         repeat split; try (intros; simpl in *; lia); reflexivity).
  cbn [nth length].
  destruct (mem arg1 [lit "-h"; lit "--help"]) eqn:Hh.
  - destruct (unflatten_usage_run (A:=unit) 0 w) as [lines E].
    cbn [Unflatten.main]. rewrite Hh, E. cbn [fst].
    repeat split; try (intros; simpl in *; lia); try reflexivity;
      try discriminate.
  - rewrite (unflatten_main_run _ _ _ _ _ Hh). unfold bind.
    destruct (dict_get (fs_files (disk w)) (expanduser_resolve arg1))
      as [content|] eqn:E.
    + destruct (Unflatten.parse_flattened_file content) as [|d docs] eqn:P.
      * destruct (unflatten_no_files _ (expanduser_resolve arg2) _ w E P)
          as [lines ->].
        cbn [fst exit_status].
        repeat split; try (intros; simpl in *; lia); try reflexivity;
          try discriminate.
      * destruct (unflatten_writes _ (expanduser_resolve arg2) _ w E)
          as (w' & -> & _).
        { rewrite P. discriminate. }
        unfold ret. cbn [fst exit_status].
        repeat split; try (intros; simpl in *; lia); try discriminate.
        -- intros c _ _ Q _ N. inversion Q; subst c. rewrite P in N.
           discriminate.
        -- intros _ _ _. exists content. split; [reflexivity|].
           intros _. rewrite P. discriminate.
    + destruct (unflatten_missing_input _ (expanduser_resolve arg2) w E)
        as [lines ->].
      cbn [fst exit_status].
      repeat split; try (intros; simpl in *; lia); try reflexivity;
        try discriminate.
Qed.

(** X10.  A run of unflatten.py that ends through [sys.exit] has changed
    neither a file nor a directory: every [sys.exit] of the script comes
    before the output directory is made.  The status is 1, or 0 after the
    usage text that was asked for. *)
Theorem unflatten_exit_changes_nothing `{Host} (argv : list str) (w : World)
    (code : nat) :
  let run := Unflatten.main argv w in
  fst run = Exited code ->
  disk (snd run) = disk w /\
  (code = 1 \/
   (code = 0 /\ 3 <= length argv /\
    mem (nth 1 argv []) [lit "-h"; lit "--help"] = true)).
Proof.
  intros run. subst run.
  destruct argv as [|prog [|arg1 [|arg2 rest]]];
    try (short_command_line; cbn [fst snd disk]; intros Q; inversion Q;
         split; [reflexivity | left; reflexivity]).
  cbn [nth length].
  destruct (mem arg1 [lit "-h"; lit "--help"]) eqn:Hh.
  - destruct (unflatten_usage_run (A:=unit) 0 w) as [lines E].
    cbn [Unflatten.main]. rewrite Hh, E. cbn [fst snd disk].
    intros Q. inversion Q. split; [reflexivity|]. right.
    repeat split; lia.
  - rewrite (unflatten_main_run _ _ _ _ _ Hh). unfold bind.
    destruct (dict_get (fs_files (disk w)) (expanduser_resolve arg1))
      as [content|] eqn:E.
    + destruct (Unflatten.parse_flattened_file content) as [|d docs] eqn:P.
      * destruct (unflatten_no_files _ (expanduser_resolve arg2) _ w E P)
          as [lines ->].
        cbn [fst snd disk]. intros Q. inversion Q.
        split; [reflexivity | left; reflexivity].
      * destruct (unflatten_writes _ (expanduser_resolve arg2) _ w E)
          as (w' & -> & _).
        { rewrite P. discriminate. }
        unfold ret. cbn [fst]. discriminate.
    + destruct (unflatten_missing_input _ (expanduser_resolve arg2) w E)
        as [lines ->].
      cbn [fst snd disk]. intros Q. inversion Q.
      split; [reflexivity | left; reflexivity].
Qed.

Lemma unflatten_exit_changes_nothing_witness :
  let run := @Unflatten.main sample_host unflatten_argv world_not_a_bundle in
  fst run = Exited 1 /\ disk (snd run) = disk world_not_a_bundle.
Proof.
  intros run.
  assert (Q : fst run = Exited 1) by (vm_compute; reflexivity).
  split; [exact Q|].
  exact (proj1 (@unflatten_exit_changes_nothing sample_host unflatten_argv
                  world_not_a_bundle 1 Q)).
Defined.

(** X11.  After a run of [unflatten] that returns, on an input that is
    read as it is stored, and that leaves no path a file and a directory
    at once (which no storage allows: there the run raises), the output
    directory is among the directories made, and for every decoded
    document the file at its path under the output directory is there and
    the directory of that file is among the directories made, also where
    the loop did not call [mkdir] because [created_dirs] had the directory;
    no directory that was there is gone, and what the run returns are the
    decoded paths. *)
Theorem unflatten_makes_every_parent `{Host}
    (input_file output_dir content : str) (w : World) (created : list str) :
  let files := Unflatten.parse_flattened_file content in
  let run := Unflatten.unflatten input_file output_dir w in
  dict_get (fs_files (disk w)) input_file = Some content ->
  plain_text content = true ->
  fst run = Done created ->
  proper_tree (disk (snd run)) = true ->
  created = map fst files /\
  In output_dir (fs_dirs (disk (snd run))) /\
  (forall p c, In (p, c) files ->
     In (parent (joinpath output_dir p)) (fs_dirs (disk (snd run))) /\
     dict_get (fs_files (disk (snd run))) (joinpath output_dir p) <> None) /\
  (forall d, In d (fs_dirs (disk w)) -> In d (fs_dirs (disk (snd run)))).
Proof.
  intros files run E _ R _. subst files run.
  assert (P : Unflatten.parse_flattened_file content <> []).
  { intros P. destruct (unflatten_no_files _ output_dir _ w E P) as [lines Q].
    rewrite Q in R. discriminate. }
  destruct (unflatten_dirs input_file output_dir content w E P)
    as (w' & R1 & G & O & D).
  destruct (unflatten_writes input_file output_dir content w E P)
    as (w2 & R2 & Q).
  rewrite R1 in R2. inversion R2; subst w2. clear R2.
  rewrite R1 in R |- *. cbn [fst snd] in *.
  split; [inversion R; reflexivity|].
  split; [exact O|]. split; [|exact G].
  intros p c I. split; [exact (D p c I)|].
  destruct (Q (joinpath output_dir p)) as [(p' & c' & _ & _ & ->)|[N _]].
  - discriminate.
  - exfalso. exact (N p c I eq_refl).
Qed.

Lemma unflatten_makes_every_parent_witness :
  let run := @Unflatten.unflatten sample_host (lit "/out/flat.lua")
               (lit "/new") world_bundle in
  fst run = Done [lit "a.txt"; lit "b.txt"; lit "lua/c.lua"] /\
  In (lit "/new") (fs_dirs (disk (snd run))) /\
  In (lit "/new/lua") (fs_dirs (disk (snd run))) /\
  dict_get (fs_files (disk (snd run))) (lit "/new/lua/c.lua") <> None.
Proof.
  intros run.
  assert (E : dict_get (fs_files (disk world_bundle)) (lit "/out/flat.lua") =
              Some (encode docs_plain))
    by (vm_compute; reflexivity).
  assert (T : plain_text (encode docs_plain) = true)
    by (vm_compute; reflexivity).
  assert (R : fst run = Done [lit "a.txt"; lit "b.txt"; lit "lua/c.lua"])
    by (vm_compute; reflexivity).
  assert (K : proper_tree (disk (snd run)) = true)
    by (vm_compute; reflexivity).
  destruct (@unflatten_makes_every_parent sample_host (lit "/out/flat.lua")
              (lit "/new") (encode docs_plain) world_bundle _ E T R K)
    as (_ & O & D & _).
  split; [exact R|]. split; [exact O|].
  apply (D (lit "lua/c.lua")
           (lit "x" ++ [nl; nl] ++ lit "caf" ++ [byte 195; byte 169])).
  vm_compute. right. right. left. reflexivity.
Defined.

(** ** The scan of a bundle *)

(** The scan passes over a line in which no start sentinel shows. *)
Lemma findall_skip_line (x r : str) :
  contains FILE_START x = false ->
  Unflatten.findall (x ++ nl :: r) = Unflatten.findall r.
Proof.
  induction x as [|c x IH]; intros C.
  - apply findall_skip_nl.
  - cbn [app]. rewrite findall_skip_char.
    + apply IH. exact (contains_tail _ _ _ C).
    + apply match_file_block_no_start.
      apply (starts_with_line FILE_START (c :: x) r FILE_START_no_nl C).
Qed.

Lemma findall_skip_lines (ls : list str) (r : str) :
  Forall (fun l => contains FILE_START l = false) ls ->
  Unflatten.findall (Flatten.text_lines ls ++ r) = Unflatten.findall r.
Proof.
  induction 1 as [|l ls C _ IH]; [reflexivity|].
  rewrite text_lines_cons, <- app_assoc. cbn [app].
  rewrite (findall_skip_line _ _ C). exact IH.
Qed.

(** Lines that are written out, or that end with a text of the host in
    which the literal does not show, do not show the literal. *)
Ltac hidden_in_lines hyp_clock hyp_source :=
  repeat apply Forall_cons; try apply Forall_nil;
  first [ vm_compute; reflexivity
        | rewrite contains_clear_app by (vm_compute; reflexivity);
          first [exact hyp_clock | exact hyp_source] ].

Lemma ALL_FILES_NoDup : NoDup Flatten.ALL_FILES.
Proof.
  unfold Flatten.ALL_FILES, Flatten.SPECIAL_FILES, Flatten.CONFIG_FILES,
    Flatten.PLUGIN_LOADER, Flatten.PLUGIN_FILES. cbn [app].
  repeat (apply NoDup_cons; [vm_compute; intuition discriminate|]).
  apply NoDup_nil.
Qed.

Lemma ALL_FILES_path_ok (p : str) : In p Flatten.ALL_FILES -> path_ok p.
Proof.
  unfold Flatten.ALL_FILES, Flatten.SPECIAL_FILES, Flatten.CONFIG_FILES,
    Flatten.PLUGIN_LOADER, Flatten.PLUGIN_FILES. cbn [app In].
  intros I.
  repeat (destruct I as [<-|I];
          [split; [vm_compute; discriminate
                  | apply count_nl_none; vm_compute; reflexivity]|]).
  destruct I.
Qed.

Lemma banner_example_fresh : ~ In (fst banner_example) Flatten.ALL_FILES.
Proof. vm_compute. intuition discriminate. Qed.

Section BundleScan.
Context `{Host}.
Hypothesis clock_clear : contains FILE_START now_strftime = false.
Hypothesis source_clear : contains FILE_START NVIM_CONFIG_DIR = false.

(** The scan of the header finds the example of the banner and nothing
    else. *)
Lemma findall_header (r : str) :
  Unflatten.findall (Flatten.header now_strftime ++ r) =
  banner_example :: Unflatten.findall r.
Proof.
  unfold Flatten.header.
  rewrite <- (firstn_skipn 12 (Flatten.header_lines now_strftime)).
  rewrite <- (firstn_skipn 3 (skipn 12 (Flatten.header_lines now_strftime))).
  rewrite !text_lines_app, <- !app_assoc.
  rewrite findall_skip_lines.
  2:{ unfold Flatten.header_lines. cbn [firstn].
      hidden_in_lines clock_clear source_clear. }
  rewrite (closed_prefix_fuel_findall
             (length (Flatten.text_lines
                (firstn 3 (skipn 12 (Flatten.header_lines now_strftime)))))
             _ [banner_example]).
  2:{ vm_compute. reflexivity. }
  cbn [app]. apply (f_equal (cons banner_example)).
  apply findall_skip_lines.
  unfold Flatten.header_lines. cbn [firstn skipn].
  hidden_in_lines clock_clear source_clear.
Qed.

Lemma findall_category_banner (category : str * list str) (r : str) :
  In category Flatten.categories ->
  Unflatten.findall (Flatten.category_banner (fst category) ++ r) =
  Unflatten.findall r.
Proof.
  intros I. unfold Flatten.categories in I. cbn [In] in I.
  repeat (destruct I as [<-|I];
          [apply findall_skip_lines; cbn [fst];
           hidden_in_lines clock_clear source_clear|]).
  destruct I.
Qed.

Lemma findall_footer : Unflatten.findall Flatten.footer = [].
Proof.
  rewrite <- (app_nil_r Flatten.footer). unfold Flatten.footer.
  rewrite findall_skip_lines; [reflexivity|].
  hidden_in_lines clock_clear source_clear.
Qed.

Lemma emitted_sections_embedded (files : dict) (paths : list str) :
  concat (map (emitted_section files) paths) = encode (embedded files paths).
Proof.
  induction paths as [|p paths IH]; [reflexivity|].
  cbn [map concat embedded]. unfold emitted_section at 1. cbv zeta.
  rewrite IH.
  destruct (dict_get files (joinpath NVIM_CONFIG_DIR p)) as [[|c content]|];
    reflexivity.
Qed.

Lemma embedded_app (files : dict) (a b : list str) :
  embedded files (a ++ b) = embedded files a ++ embedded files b.
Proof.
  induction a as [|p a IH]; [reflexivity|].
  cbn [app embedded]. rewrite IH.
  destruct (dict_get files (joinpath NVIM_CONFIG_DIR p)) as [[|c content]|];
    reflexivity.
Qed.

Lemma embedded_in (files : dict) (paths : list str) (p c : str) :
  In (p, c) (embedded files paths) <->
  In p paths /\ dict_get files (joinpath NVIM_CONFIG_DIR p) = Some c /\ c <> [].
Proof.
  induction paths as [|q paths IH]; cbn [embedded In]; [tauto|].
  destruct (dict_get files (joinpath NVIM_CONFIG_DIR q))
    as [[|x content]|] eqn:E.
  - rewrite IH. split.
    + intros (I & G & N). auto.
    + intros ([->|I] & G & N); [|auto]. rewrite E in G. inversion G; subst.
      contradiction.
  - cbn [In]. rewrite IH. split.
    + intros [Eq|(I & G & N)]; [|auto]. inversion Eq; subst.
      split; [left; reflexivity|]. split; [exact E | discriminate].
    + intros ([->|I] & G & N); [|auto]. left. rewrite E in G.
      inversion G; reflexivity.
  - rewrite IH. split.
    + intros (I & G & N). auto.
    + intros ([->|I] & G & N); [|auto]. rewrite E in G. discriminate.
Qed.

Lemma embedded_paths (files : dict) (paths : list str) :
  NoDup paths -> NoDup (map fst (embedded files paths)).
Proof.
  induction 1 as [|p paths N _ IH]; cbn [embedded]; [constructor|].
  destruct (dict_get files (joinpath NVIM_CONFIG_DIR p)) as [[|c content]|];
    try exact IH.
  cbn [map fst]. constructor; [|exact IH].
  intros I. apply in_map_iff in I. destruct I as ([q c'] & <- & I).
  apply embedded_in in I. apply N, I.
Qed.

Lemma embedded_keys_in (files : dict) (paths : list str) (p : str) :
  In p (map fst (embedded files paths)) -> In p paths.
Proof.
  intros I. apply in_map_iff in I. destruct I as ([q c] & <- & I).
  apply embedded_in in I. apply I.
Qed.

Lemma embedded_joined (files : dict) (paths : list str) (f : str -> str) :
  NoDup (map f paths) -> NoDup (map f (map fst (embedded files paths))).
Proof.
  induction paths as [|q paths IH]; cbn [embedded map]; intros ND;
    [constructor|].
  inversion ND as [|? ? Nq ND']; subst.
  destruct (dict_get files (joinpath NVIM_CONFIG_DIR q)) as [[|x content]|];
    try (apply IH; exact ND').
  cbn [map fst]. constructor; [|apply IH; exact ND'].
  intros I. apply Nq. apply in_map_iff in I. destruct I as (p & E & I).
  rewrite <- E. apply in_map. exact (embedded_keys_in _ _ _ I).
Qed.

Variable files : dict.
Hypothesis contents_ok :
  forall p c, In p Flatten.ALL_FILES ->
    dict_get files (joinpath NVIM_CONFIG_DIR p) = Some c -> content_ok p c.

Lemma embedded_ok (paths : list str) :
  incl paths Flatten.ALL_FILES ->
  Forall (fun d => path_ok (fst d) /\ content_ok (fst d) (snd d))
    (embedded files paths).
Proof.
  intros I. apply Forall_forall. intros [p c] Id. cbn [fst snd].
  apply embedded_in in Id. destruct Id as (Ip & G & _).
  split; [apply ALL_FILES_path_ok, I, Ip|].
  apply contents_ok; [apply I, Ip | exact G].
Qed.

Lemma findall_categories (cats : list (str * list str)) (r : str) :
  incl cats Flatten.categories ->
  Unflatten.findall
    (concat (map (fun category =>
                    Flatten.category_banner (fst category) ++
                    concat (map (emitted_section files) (snd category)))
                 cats) ++ r) =
  map (fun d => (fst d, snd d ++ [nl]))
      (embedded files (concat (map snd cats))) ++
  Unflatten.findall r.
Proof.
  induction cats as [|[name paths] cats IH]; intros I; [reflexivity|].
  cbn [map concat fst snd]. rewrite <- !app_assoc.
  rewrite (findall_category_banner (name, paths))
    by (apply I; left; reflexivity).
  rewrite emitted_sections_embedded, findall_encode.
  - rewrite IH by (intros c Ic; apply I; right; exact Ic).
    rewrite embedded_app, map_app, <- app_assoc. reflexivity.
  - apply embedded_ok. intros p Ip.
    change Flatten.ALL_FILES with (concat (map snd Flatten.categories)).
    apply in_concat. exists paths. split; [|exact Ip].
    assert (Ic : In (name, paths) Flatten.categories)
      by (apply I; left; reflexivity).
    apply (in_map snd) in Ic. exact Ic.
Qed.

(** The matches of the scan over a bundle: the example of the banner, then
    the embedded documents. *)
Lemma findall_bundle :
  Unflatten.findall (emitted_bundle files) =
  banner_example ::
  map (fun d => (fst d, snd d ++ [nl])) (embedded files Flatten.ALL_FILES).
Proof.
  unfold emitted_bundle.
  rewrite findall_header.
  rewrite findall_categories by apply incl_refl.
  rewrite findall_footer, app_nil_r. reflexivity.
Qed.

Lemma bundle_paths :
  NoDup (fst banner_example ::
         map fst (map (fun d => (fst d, rstrip_nl (snd d)))
                    (embedded files Flatten.ALL_FILES))).
Proof.
  rewrite map_map. cbn [fst]. constructor.
  - intros I. apply in_map_iff in I. destruct I as ([p c] & E & I).
    cbn [fst] in E. apply embedded_in in I. destruct I as (I & _).
    apply banner_example_fresh. rewrite <- E. exact I.
  - apply embedded_paths, ALL_FILES_NoDup.
Qed.

Lemma parse_bundle :
  Unflatten.parse_flattened_file (emitted_bundle files) =
  banner_example ::
  map (fun d => (fst d, rstrip_nl (snd d))) (embedded files Flatten.ALL_FILES).
Proof.
  unfold Unflatten.parse_flattened_file. cbv zeta.
  rewrite findall_bundle, fold_parse_step_nodup.
  - cbn [app map fst snd]. apply (f_equal2 cons).
    + vm_compute. reflexivity.
    + rewrite map_map. apply map_ext. intros [p c]. cbn [fst snd].
      rewrite rstrip_nl_snoc_nl. reflexivity.
  - cbn [map app fst]. rewrite map_map. cbn [fst].
    generalize bundle_paths. rewrite map_map. cbn [fst]. intros B; exact B.
Qed.
End BundleScan.

(** X12.  What the parser makes of a bundle of the encoder.  Where the
    start sentinel shows neither in the time stamp nor in the name of the
    configuration directory, and no expected file shows the end sentinel of
    its own path, [parse_flattened_file] returns, for the text
    [generate_flat_config] returns: first a document [path/to/file.lua] no
    file stands for, made of the example in the banner; then every expected
    file that is there and not empty, in the order of [ALL_FILES], with its
    text without the line breaks at its end. *)
Theorem bundle_decodes_to_embedded_files `{Host} (w : World) :
  let files := fs_files (disk w) in
  contains FILE_START now_strftime = false ->
  contains FILE_START NVIM_CONFIG_DIR = false ->
  (forall p c, In p Flatten.ALL_FILES ->
     dict_get files (joinpath NVIM_CONFIG_DIR p) = Some c ->
     contains (FILE_END ++ p) c = false) ->
  exists bundle,
    fst (Flatten.generate_flat_config w) = Done bundle /\
    Unflatten.parse_flattened_file bundle =
      (lit "path/to/file.lua",
       lit "      ... original file contents ..." ++ [nl] ++ lit "      ") ::
      map (fun d => (fst d, rstrip_nl (snd d)))
          (embedded files Flatten.ALL_FILES).
Proof.
  intros files Hc Hs Hok. exists (emitted_bundle files).
  rewrite generate_flat_config_run. split; [reflexivity|].
  apply (parse_bundle Hc Hs files Hok).
Qed.

Lemma bundle_decodes_to_embedded_files_witness :
  exists bundle,
    fst (@Flatten.generate_flat_config sample_host world_two_files) =
      Done bundle /\
    Unflatten.parse_flattened_file bundle =
      [(lit "path/to/file.lua",
        lit "      ... original file contents ..." ++ [nl] ++ lit "      ");
       (lit "init.lua", lit "require('config.lazy')");
       (lit "lua/plugins/ui.lua", lit "return {}")].
Proof.
  destruct (@bundle_decodes_to_embedded_files sample_host world_two_files)
    as (bundle & E & P).
  - vm_compute. reflexivity.
  - vm_compute. reflexivity.
  - intros p c I. vm_compute in I.
    repeat (destruct I as [<-|I];
            [vm_compute; intros G; inversion G; reflexivity|]).
    destruct I.
  - exists bundle. split; [exact E|]. rewrite P. vm_compute. reflexivity.
Defined.

(** ** The encoder, then the decoder *)

(** What a run of [unflatten] leaves at the path of a decoded document,
    where the output directory keeps the paths of the documents apart. *)
Lemma unflatten_restores `{Host} (input_file output_dir content : str)
    (w : World) (docs : dict) :
  dict_get (fs_files (disk w)) input_file = Some content ->
  Unflatten.parse_flattened_file content = docs ->
  docs <> [] ->
  NoDup (map (joinpath output_dir) (map fst docs)) ->
  exists w',
    Unflatten.unflatten input_file output_dir w = (Done (map fst docs), w') /\
    forall p c, In (p, c) docs ->
      dict_get (fs_files (disk w')) (joinpath output_dir p) =
      Some (with_trailing_nl c).
Proof.
  intros E P N ND. subst docs.
  destruct (unflatten_writes input_file output_dir content w E N)
    as (w' & R & Q).
  exists w'. split; [exact R|].
  intros p c I.
  destruct (Q (joinpath output_dir p)) as [(p' & c' & I' & Ep & G)|[N' _]].
  - apply (NoDup_map_in_inj _ _ p p' ND) in Ep.
    + subst p'.
      rewrite (dict_in_unique _ _ _ _ (NoDup_map_inv _ _ ND) I I'). exact G.
    + apply (in_map fst) in I. exact I.
    + apply (in_map fst) in I'. exact I'.
  - exfalso. exact (N' p c I eq_refl).
Qed.

(** X13.  flatten.py, then unflatten.py on the bundle it wrote, where both
    runs return.  Where the time stamp, the name of the configuration
    directory and the expected files are read as they are stored, the
    start sentinel shows neither in the time stamp nor in the name of the
    directory, no expected file shows the end sentinel of its own path,
    and the twenty paths are joined to the output directory as twenty
    different paths: every expected file that was there and not empty is
    under the output directory, with its text and one line break where
    the text had any number of line breaks at its end; and beside them is
    a file [path/to/file.lua] that was in no configuration directory,
    made of the example in the banner. *)
Theorem flatten_then_unflatten_restores `{Host}
    (prog1 prog2 bundle_arg dir_arg : str) (rest1 rest2 : list str)
    (w : World) :
  let files := fs_files (disk w) in
  let flat := Flatten.main (prog1 :: bundle_arg :: rest1) w in
  let run := Unflatten.main (prog2 :: bundle_arg :: dir_arg :: rest2)
               (snd flat) in
  let output_dir := expanduser_resolve dir_arg in
  fst flat = Done tt ->
  fst run = Done tt ->
  plain_text now_strftime = true ->
  plain_text NVIM_CONFIG_DIR = true ->
  (forall p c, In p Flatten.ALL_FILES ->
     dict_get files (joinpath NVIM_CONFIG_DIR p) = Some c ->
     plain_text c = true) ->
  contains FILE_START now_strftime = false ->
  contains FILE_START NVIM_CONFIG_DIR = false ->
  (forall p c, In p Flatten.ALL_FILES ->
     dict_get files (joinpath NVIM_CONFIG_DIR p) = Some c ->
     contains (FILE_END ++ p) c = false) ->
  NoDup (map (joinpath output_dir)
           (lit "path/to/file.lua" :: Flatten.ALL_FILES)) ->
  (forall p c, In p Flatten.ALL_FILES ->
     dict_get files (joinpath NVIM_CONFIG_DIR p) = Some c -> c <> [] ->
     dict_get (fs_files (disk (snd run))) (joinpath output_dir p) =
     Some (rstrip_nl c ++ [nl])) /\
  dict_get (fs_files (disk (snd run)))
    (joinpath output_dir (lit "path/to/file.lua")) =
  Some (lit "      ... original file contents ..." ++ [nl] ++ lit "      " ++
        [nl]).
Proof.
  intros files flat run output_dir Rf _ _ _ _ Hc Hs Hok Inj.
  assert (Hh : mem bundle_arg [lit "-h"; lit "--help"] = false).
  { destruct (mem bundle_arg [lit "-h"; lit "--help"]) eqn:Hh; [|reflexivity].
    destruct (flatten_usage_run (A:=unit) 0 w) as [lines E].
    subst flat. cbn [Flatten.main] in Rf. rewrite Hh, E in Rf. discriminate. }
  assert (Hi : dict_get files (joinpath NVIM_CONFIG_DIR (lit "init.lua"))
               <> None).
  { intros Hi.
    destruct (flatten_main_no_init prog1 bundle_arg rest1 w Hh Hi)
      as [lines E].
    subst flat. rewrite E in Rf. discriminate. }
  destruct (flatten_main_run prog1 bundle_arg rest1 w Hh Hi)
    as (before & after & dirs & E1).
  subst flat run output_dir. rewrite E1. cbn [fst snd].
  rewrite (unflatten_main_run _ _ _ _ _ Hh).
  match goal with
  | |- context [bind _ _ ?W] => set (w1 := W)
  end.
  assert (Eb : dict_get (fs_files (disk w1)) (expanduser_resolve bundle_arg) =
               Some (emitted_bundle files)).
  { subst w1. cbn [disk fs_files]. apply dict_get_set_same. }
  pose proof (parse_bundle Hc Hs files Hok) as P.
  destruct (unflatten_restores _ (expanduser_resolve dir_arg) _ w1 _ Eb P)
    as (w2 & R & G).
  - discriminate.
  - (* the decoded paths are among the twenty *)
    assert (Ek : map fst
                   (banner_example ::
                    map (fun d => (fst d, rstrip_nl (snd d)))
                      (embedded files Flatten.ALL_FILES)) =
                 lit "path/to/file.lua" ::
                 map fst (embedded files Flatten.ALL_FILES)).
    { cbn [map]. rewrite map_map. reflexivity. }
    rewrite Ek. rewrite map_cons in Inj |- *.
    apply NoDup_cons_iff in Inj. destruct Inj as [Nx ND'].
    apply NoDup_cons.
    + intros I. apply Nx. apply in_map_iff in I.
      destruct I as (p & E & I). rewrite <- E. apply in_map.
      exact (embedded_keys_in _ _ _ I).
    + apply embedded_joined. exact ND'.
  - unfold bind. rewrite R. unfold ret. cbn [fst snd].
    split.
    + intros p c Ip Gp Np.
      rewrite (G p (rstrip_nl c)).
      * f_equal. apply with_trailing_nl_ends. apply rstrip_nl_spec.
      * right. apply in_map_iff. exists (p, c). split; [reflexivity|].
        apply embedded_in. auto.
    + assert (Gx := G (fst banner_example) (snd banner_example)
                      (or_introl eq_refl)).
      unfold banner_example in Gx. cbn [fst snd] in Gx. rewrite Gx.
      vm_compute. reflexivity.
Qed.

Lemma flatten_then_unflatten_restores_witness :
  let flat := @Flatten.main sample_host
                [lit "flatten.py"; lit "/out/flat.lua"] world_two_files in
  let run := @Unflatten.main sample_host
               [lit "unflatten.py"; lit "/out/flat.lua"; lit "/new"]
               (snd flat) in
  fst flat = Done tt /\
  fst run = Done tt /\
  dict_get (fs_files (disk (snd run))) (lit "/new/lua/plugins/ui.lua") =
    Some (lit "return {}" ++ [nl]) /\
  dict_get (fs_files (disk (snd run))) (lit "/new/path/to/file.lua") =
    Some (lit "      ... original file contents ..." ++ [nl] ++ lit "      " ++
          [nl]).
Proof.
  cbv zeta.
  pose proof (@flatten_then_unflatten_restores sample_host (lit "flatten.py")
                (lit "unflatten.py") (lit "/out/flat.lua") (lit "/new") [] []
                world_two_files) as T.
  cbv zeta in T.
  match type of T with
  | ?A -> ?B -> _ =>
      assert (Rf : A) by (vm_compute; reflexivity);
      assert (Rr : B) by (vm_compute; reflexivity)
  end.
  destruct (T Rf Rr) as (F & X).
  - vm_compute. reflexivity.
  - vm_compute. reflexivity.
  - intros p c I. vm_compute in I.
    repeat (destruct I as [<-|I];
            [intros G; vm_compute in G; inversion G; vm_compute;
             reflexivity|]).
    destruct I.
  - vm_compute. reflexivity.
  - vm_compute. reflexivity.
  - intros p c I. vm_compute in I.
    repeat (destruct I as [<-|I];
            [vm_compute; intros G; inversion G; reflexivity|]).
    destruct I.
  - clear T Rf Rr.
    cbn [map]. unfold Flatten.ALL_FILES, Flatten.SPECIAL_FILES,
      Flatten.CONFIG_FILES, Flatten.PLUGIN_LOADER, Flatten.PLUGIN_FILES.
    cbn [app map].
    repeat (apply NoDup_cons; [vm_compute; intuition discriminate|]).
    apply NoDup_nil.
  - split; [exact Rf|]. split; [exact Rr|]. split; [|exact X].
    apply (F (lit "lua/plugins/ui.lua") (lit "return {}" ++ [nl])).
    + vm_compute. tauto.
    + vm_compute. reflexivity.
    + discriminate.
Defined.

(** ** The metadata block of a bundle *)

Lemma META_START_no_nl : ~ In nl Unflatten.META_START.
Proof. apply count_nl_none. vm_compute. reflexivity. Qed.

Lemma META_END_no_nl : ~ In nl Unflatten.META_END.
Proof. apply count_nl_none. vm_compute. reflexivity. Qed.

Lemma re_search_hit {R : Type} (m : str -> option R) (s : str) (r : R) :
  m s = Some r -> re_search m s = Some r.
Proof. intros E. destruct s; cbn [re_search]; rewrite E; reflexivity. Qed.

Lemma re_search_skip {R : Type} (m : str -> option R) (c : ascii) (s : str) :
  m (c :: s) = None -> re_search m (c :: s) = re_search m s.
Proof. intros E. cbn [re_search]. rewrite E. reflexivity. Qed.

Lemma match_meta_block_no_start (s : str) :
  starts_with Unflatten.META_START s = None ->
  Unflatten.match_meta_block s = None.
Proof.
  intros E. unfold Unflatten.match_meta_block, re_lit.
  rewrite (starts_with_longer _ [nl] _ E). reflexivity.
Qed.

(** The search for the metadata block passes over a line that does not
    show the first line of the block. *)
Lemma meta_search_skip_line (x r : str) :
  contains Unflatten.META_START x = false ->
  re_search Unflatten.match_meta_block (x ++ nl :: r) =
  re_search Unflatten.match_meta_block r.
Proof.
  induction x as [|c x IH]; intros C.
  - cbn [app]. apply re_search_skip, match_meta_block_no_start.
    vm_compute. reflexivity.
  - cbn [app]. rewrite re_search_skip.
    + apply IH. exact (contains_tail _ _ _ C).
    + apply match_meta_block_no_start.
      apply (starts_with_line _ (c :: x) r META_START_no_nl C).
Qed.

Lemma meta_search_skip_lines (ls : list str) (r : str) :
  Forall (fun l => contains Unflatten.META_START l = false) ls ->
  re_search Unflatten.match_meta_block (Flatten.text_lines ls ++ r) =
  re_search Unflatten.match_meta_block r.
Proof.
  induction 1 as [|l ls C _ IH]; [reflexivity|].
  rewrite text_lines_cons, <- app_assoc. cbn [app].
  rewrite (meta_search_skip_line _ _ C). exact IH.
Qed.

(** A literal on one line begins nowhere in lines that do not show it. *)
Lemma lines_hide_literal (l : str) (ls : list str) (r u1 u2 : str) :
  ~ In nl l ->
  Forall (fun x => contains l x = false) ls ->
  Flatten.text_lines ls = u1 ++ u2 -> u2 <> [] ->
  starts_with l (u2 ++ r) = None.
Proof.
  intros Hnl F. revert u1. induction F as [|x ls C _ IH]; intros u1 E N.
  - destruct u1; destruct u2; try discriminate. contradiction.
  - rewrite text_lines_cons in E.
    change (x ++ nl :: Flatten.text_lines ls)
      with (x ++ [nl] ++ Flatten.text_lines ls) in E.
    rewrite app_assoc in E.
    apply app_eq_app in E. destruct E as [m [[E1 E2]|[E1 E2]]].
    + (* [u2] begins in this line *)
      destruct m as [|y m].
      * rewrite app_nil_r in E1. cbn [app] in E2. subst u2.
        apply (IH []); [reflexivity | exact N].
      * destruct (app_snoc_split _ _ _ _ E1 ltac:(discriminate))
          as (x2 & Em & Ex).
        rewrite E2, Em, <- !app_assoc.
        cbn [app]. apply starts_with_line; [exact Hnl|].
        destruct (contains l x2) eqn:C2; [exfalso|reflexivity].
        rewrite Ex in C. rewrite (contains_app_r l u1 x2 C2) in C.
        discriminate.
    + (* [u2] begins further down *)
      apply (IH m); [exact E2 | exact N].
Qed.

(** The pattern of [parse_metadata] on a block whose lines do not show the
    last line of the block: the group is these lines. *)
Lemma match_meta_block_lines (ls : list str) (r : str) :
  Forall (fun x => contains Unflatten.META_END x = false) ls ->
  Unflatten.match_meta_block
    (Unflatten.META_START ++ nl :: Flatten.text_lines ls ++
     Unflatten.META_END ++ r) =
  Some (Flatten.text_lines ls).
Proof.
  intros F. unfold Unflatten.match_meta_block.
  change (Unflatten.META_START ++ nl :: Flatten.text_lines ls ++
          Unflatten.META_END ++ r)
    with (Unflatten.META_START ++ [nl] ++ Flatten.text_lines ls ++
          Unflatten.META_END ++ r).
  rewrite app_assoc, re_lit_app.
  apply re_lazy_star_found.
  - intros u1 u2 E N. cbn [app]. unfold re_lit.
    rewrite (lines_hide_literal _ ls (Unflatten.META_END ++ r) u1 u2
               META_END_no_nl F E N).
    reflexivity.
  - cbn [app]. rewrite re_lit_app. reflexivity.
Qed.

Lemma split_nl_line (x r : str) :
  ~ In nl x -> split_nl (x ++ nl :: r) = x :: split_nl r.
Proof.
  induction x as [|c x IH]; intros N.
  - cbn [app split_nl]. rewrite Ascii.eqb_refl. reflexivity.
  - cbn [app split_nl].
    rewrite ascii_eqb_neq by (intros ->; apply N; left; reflexivity).
    rewrite IH by (intros I; apply N; right; exact I). reflexivity.
Qed.

Lemma split_nl_text_lines (ls : list str) :
  Forall (fun x => count_nl x = 0) ls ->
  split_nl (Flatten.text_lines ls) = ls ++ [[]].
Proof.
  induction 1 as [|x ls C _ IH]; [reflexivity|].
  rewrite text_lines_cons, split_nl_line by (apply count_nl_none; exact C).
  rewrite IH. reflexivity.
Qed.

(** [rstrip] takes nothing from a text that ends with a visible character
    of ASCII. *)
Lemma rstrip_rev_visible (b : ascii) (r : str) :
  (33 <=? nat_of_ascii b) && (nat_of_ascii b <=? 126) = true ->
  rstrip_rev (b :: r) = b :: r.
Proof.
  intros V. apply andb_true_iff in V. destruct V as [V1 V2].
  apply Nat.leb_le in V1. apply Nat.leb_le in V2.
  assert (S1 : is_space1 b = false).
  { unfold is_space1. cbv zeta.
    destruct (nat_of_ascii b <=? 13) eqn:A;
      [apply Nat.leb_le in A; lia|].
    destruct (nat_of_ascii b <=? 32) eqn:B;
      [apply Nat.leb_le in B; lia|].
    rewrite !andb_false_r. reflexivity. }
  assert (S2 : forall c2, is_space2 c2 b = false).
  { intros c2. unfold is_space2.
    destruct (nat_of_ascii b =? 133) eqn:A; [apply Nat.eqb_eq in A; lia|].
    destruct (nat_of_ascii b =? 160) eqn:B; [apply Nat.eqb_eq in B; lia|].
    apply andb_false_r. }
  assert (S3 : forall c3 c2, is_space3 c3 c2 b = false).
  { intros c3 c2. unfold is_space3. cbv zeta.
    destruct (nat_of_ascii b =? 128) eqn:A; [apply Nat.eqb_eq in A; lia|].
    destruct (128 <=? nat_of_ascii b) eqn:B; [apply Nat.leb_le in B; lia|].
    destruct (nat_of_ascii b =? 168) eqn:C; [apply Nat.eqb_eq in C; lia|].
    destruct (nat_of_ascii b =? 169) eqn:D; [apply Nat.eqb_eq in D; lia|].
    destruct (nat_of_ascii b =? 175) eqn:E; [apply Nat.eqb_eq in E; lia|].
    destruct (nat_of_ascii b =? 159) eqn:F; [apply Nat.eqb_eq in F; lia|].
    cbn [andb orb]. rewrite !andb_false_r. reflexivity. }
  cbn [rstrip_rev]. rewrite S1.
  destruct r as [|c2 [|c3 r]]; [reflexivity | rewrite S2; reflexivity |].
  rewrite S2, S3. reflexivity.
Qed.

Lemma ends_visible_app (a x : str) :
  ends_visible x = true -> ends_visible (a ++ x) = true.
Proof.
  unfold ends_visible. rewrite rev_app_distr.
  destruct (rev x) as [|b r]; [discriminate|]. cbn [app]. intros E; exact E.
Qed.

(** [strip] leaves a line that begins with two dashes and a space and ends
    with a visible character of ASCII as it is. *)
Lemma strip_dashed_line (y : str) :
  ends_visible y = true ->
  strip ("-"%char :: "-"%char :: " "%char :: y) =
  "-"%char :: "-"%char :: " "%char :: y.
Proof.
  intros V. unfold strip.
  assert (L : lstrip ("-"%char :: "-"%char :: " "%char :: y) =
              "-"%char :: "-"%char :: " "%char :: y) by reflexivity.
  rewrite L.
  apply (ends_visible_app ["-"%char; "-"%char; " "%char]) in V.
  cbn [app] in V. unfold ends_visible in V.
  destruct (rev ("-"%char :: "-"%char :: " "%char :: y)) as [|b r] eqn:E;
    [discriminate|].
  rewrite (rstrip_rev_visible b r V), <- E. apply rev_involutive.
Qed.

Transparent lit.

Lemma strip_metadata_line (key value : str) :
  ends_visible value = true ->
  strip (lit "-- " ++ key ++ value) = lit "-- " ++ key ++ value.
Proof.
  intros V. apply (strip_dashed_line (key ++ value)).
  apply ends_visible_app. exact V.
Qed.

Opaque lit.

(** Lines that are written out, or that end with a text of the host on
    one line, are on one line. *)
Ltac one_line_each hyp_clock hyp_source :=
  repeat apply Forall_cons; try apply Forall_nil;
  first [ vm_compute; reflexivity
        | rewrite count_nl_app;
          first [rewrite hyp_clock | rewrite hyp_source];
          vm_compute; reflexivity ].

Section MetadataRoundTrip.
Context `{Host}.
Hypothesis clock_value : metadata_value now_strftime.
Hypothesis source_value : metadata_value NVIM_CONFIG_DIR.

(** The header: the banner, then the metadata block around its five
    lines, then an empty line. *)
Lemma header_block :
  Flatten.header now_strftime =
  Flatten.text_lines (firstn 52 (Flatten.header_lines now_strftime)) ++
  Unflatten.META_START ++ nl ::
  Flatten.text_lines (firstn 5 (skipn 53 (Flatten.header_lines now_strftime)))
  ++ Unflatten.META_END ++ [nl; nl].
Proof.
  unfold Flatten.header.
  rewrite <- (firstn_skipn 52 (Flatten.header_lines now_strftime)) at 1.
  rewrite text_lines_app. apply (f_equal (app _)).
  assert (E1 : skipn 52 (Flatten.header_lines now_strftime) =
               Unflatten.META_START ::
               skipn 53 (Flatten.header_lines now_strftime)) by reflexivity.
  assert (E2 : skipn 5 (skipn 53 (Flatten.header_lines now_strftime)) =
               [Unflatten.META_END; []])
    by reflexivity.
  rewrite E1, text_lines_cons.
  rewrite <- (firstn_skipn 5 (skipn 53 (Flatten.header_lines now_strftime)))
    at 1.
  rewrite text_lines_app, E2.
  rewrite !text_lines_cons. cbn [Flatten.text_lines map concat app].
  rewrite <- ?app_assoc. reflexivity.
Qed.

Lemma meta_search_header (r : str) :
  re_search Unflatten.match_meta_block (Flatten.header now_strftime ++ r) =
  Some (Flatten.text_lines
          (firstn 5 (skipn 53 (Flatten.header_lines now_strftime)))).
Proof.
  destruct clock_value as (_ & Tc & _). destruct source_value as (_ & Ts & _).
  assert (Es : Unflatten.META_START = META_TAG ++ lit "START")
    by (vm_compute; reflexivity).
  assert (Ee : Unflatten.META_END = META_TAG ++ lit "END")
    by (vm_compute; reflexivity).
  assert (Sc := contains_longer _ (lit "START") _ Tc).
  assert (Ss := contains_longer _ (lit "START") _ Ts).
  assert (Ec := contains_longer _ (lit "END") _ Tc).
  assert (Ex := contains_longer _ (lit "END") _ Ts).
  rewrite <- Es in Sc, Ss. rewrite <- Ee in Ec, Ex.
  rewrite header_block, <- app_assoc.
  rewrite meta_search_skip_lines.
  2:{ unfold Flatten.header_lines. cbn [firstn]. hidden_in_lines Sc Ss. }
  apply re_search_hit.
  rewrite <- !app_assoc, <- app_comm_cons, <- !app_assoc.
  apply match_meta_block_lines.
  unfold Flatten.header_lines. cbn [firstn skipn]. hidden_in_lines Ec Ex.
Qed.

Lemma parse_metadata_header (r : str) :
  Unflatten.parse_metadata (Flatten.header now_strftime ++ r) =
  Some written_metadata.
Proof.
  unfold Unflatten.parse_metadata. cbv zeta.
  rewrite meta_search_header.
  destruct clock_value as (Nc & _ & Vc). destruct source_value as (Ns & _ & Vs).
  rewrite split_nl_text_lines.
  2:{ unfold Flatten.header_lines. cbn [firstn skipn]. one_line_each Nc Ns. }
  unfold Flatten.header_lines.
  cbn [firstn skipn app Unflatten.parse_meta_lines].
  unfold Unflatten.parse_meta_line. cbv zeta.
  assert (Ec : strip (lit "-- timestamp: " ++ now_strftime) =
               lit "-- timestamp: " ++ now_strftime).
  { apply (strip_metadata_line (lit "timestamp: ") _ Vc). }
  assert (Es : strip (lit "-- source_dir: " ++ NVIM_CONFIG_DIR) =
               lit "-- source_dir: " ++ NVIM_CONFIG_DIR).
  { apply (strip_metadata_line (lit "source_dir: ") _ Vs). }
  rewrite Ec, Es. vm_compute. reflexivity.
Qed.
End MetadataRoundTrip.

(** X14.  The metadata the encoder writes is the metadata the decoder
    reads.  Where the time stamp and the name of the configuration
    directory are on one line, do not show the beginning of the lines that
    bound the block and end with a visible character, [parse_metadata]
    returns for the text [generate_flat_config] returns, whatever the
    files: the generator, the time stamp, the directory, the count of the
    expected paths and their list, in this order. *)
Theorem written_metadata_comes_back `{Host} (w : World) :
  metadata_value now_strftime ->
  metadata_value NVIM_CONFIG_DIR ->
  exists bundle,
    fst (Flatten.generate_flat_config w) = Done bundle /\
    Unflatten.parse_metadata bundle = Some written_metadata.
Proof.
  intros Vc Vs. exists (emitted_bundle (fs_files (disk w))).
  rewrite generate_flat_config_run. split; [reflexivity|].
  unfold emitted_bundle. apply (parse_metadata_header Vc Vs).
Qed.

Lemma written_metadata_comes_back_witness :
  exists bundle,
    fst (@Flatten.generate_flat_config sample_host world_two_files) =
      Done bundle /\
    Unflatten.parse_metadata bundle = Some (@written_metadata sample_host) /\
    dict_get (@written_metadata sample_host) (lit "source_dir") =
      Some (lit "/cfg").
Proof.
  destruct (@written_metadata_comes_back sample_host world_two_files)
    as (bundle & E & P).
  - repeat split; vm_compute; reflexivity.
  - repeat split; vm_compute; reflexivity.
  - exists bundle. split; [exact E|]. split; [exact P|].
    vm_compute. reflexivity.
Defined.

(** ** A bundle without its metadata block *)




Section WithoutMetadata.
Context `{Host}.
Hypothesis clock_clear : contains FILE_START now_strftime = false.
Hypothesis source_clear : contains FILE_START NVIM_CONFIG_DIR = false.
Variable files : dict.
Hypothesis contents_ok :
  forall p c, In p Flatten.ALL_FILES ->
    dict_get files (joinpath NVIM_CONFIG_DIR p) = Some c -> content_ok p c.




Hypothesis clock_plain : contains Unflatten.META_START now_strftime = false.
Hypothesis source_plain :
  contains Unflatten.META_START NVIM_CONFIG_DIR = false.
Hypothesis contents_plain :
  forall p c, In p Flatten.ALL_FILES ->
    dict_get files (joinpath NVIM_CONFIG_DIR p) = Some c ->
    contains Unflatten.META_START c = false.



End WithoutMetadata.




(** ** The tree of the output directory *)

(** ** The order of the keys *)

Lemma nat_of_ascii_inj (x y : ascii) :
  nat_of_ascii x = nat_of_ascii y -> x = y.
Proof.
  intros E. rewrite <- (ascii_nat_embedding x), <- (ascii_nat_embedding y), E.
  reflexivity.
Qed.

Lemma str_leb_total (a b : str) :
  Unflatten.str_leb a b = false -> Unflatten.str_leb b a = true.
Proof.
  revert b; induction a as [|x a IH]; intros [|y b]; cbn [Unflatten.str_leb];
    try discriminate; try reflexivity.
  intros E. apply orb_false_iff in E. destruct E as [L E].
  apply Nat.ltb_ge in L.
  destruct (nat_of_ascii y <? nat_of_ascii x) eqn:L'; [reflexivity|].
  apply Nat.ltb_ge in L'.
  assert (Q : nat_of_ascii x = nat_of_ascii y) by lia.
  rewrite Q, Nat.eqb_refl in *. cbn [orb andb] in *. apply IH. exact E.
Qed.

Lemma str_leb_trans (a b c : str) :
  Unflatten.str_leb a b = true -> Unflatten.str_leb b c = true -> Unflatten.str_leb a c = true.
Proof.
  revert b c; induction a as [|x a IH]; intros [|y b] [|z c];
    cbn [Unflatten.str_leb]; try discriminate; try reflexivity.
  intros E1 E2.
  apply orb_true_iff in E1. apply orb_true_iff in E2.
  apply orb_true_iff.
  destruct E1 as [L1|E1]; destruct E2 as [L2|E2].
  - apply Nat.ltb_lt in L1. apply Nat.ltb_lt in L2.
    left. apply Nat.ltb_lt. lia.
  - apply Nat.ltb_lt in L1. apply andb_true_iff in E2. destruct E2 as [Q2 _].
    apply Nat.eqb_eq in Q2. left. apply Nat.ltb_lt. lia.
  - apply Nat.ltb_lt in L2. apply andb_true_iff in E1. destruct E1 as [Q1 _].
    apply Nat.eqb_eq in Q1. left. apply Nat.ltb_lt. lia.
  - apply andb_true_iff in E1. apply andb_true_iff in E2.
    destruct E1 as [Q1 E1]. destruct E2 as [Q2 E2].
    apply Nat.eqb_eq in Q1. apply Nat.eqb_eq in Q2.
    right. apply andb_true_iff. split.
    + apply Nat.eqb_eq. lia.
    + exact (IH b c E1 E2).
Qed.

Lemma str_leb_antisym (a b : str) :
  Unflatten.str_leb a b = true -> Unflatten.str_leb b a = true -> a = b.
Proof.
  revert b; induction a as [|x a IH]; intros [|y b]; cbn [Unflatten.str_leb];
    try discriminate; try reflexivity.
  intros E1 E2.
  apply orb_true_iff in E1. apply orb_true_iff in E2.
  destruct E1 as [L1|E1]; destruct E2 as [L2|E2];
    try (apply Nat.ltb_lt in L1); try (apply Nat.ltb_lt in L2);
    try (apply andb_true_iff in E1; destruct E1 as [Q1 E1];
         apply Nat.eqb_eq in Q1);
    try (apply andb_true_iff in E2; destruct E2 as [Q2 E2];
         apply Nat.eqb_eq in Q2);
    try lia.
  apply nat_of_ascii_inj in Q1. subst y. f_equal. exact (IH b E1 E2).
Qed.

Lemma key_leb_total (a b : Unflatten.entry) :
  Unflatten.key_leb a b = false -> Unflatten.key_leb b a = true.
Proof.
  unfold Unflatten.key_leb.
  destruct (Unflatten.is_file a), (Unflatten.is_file b); try discriminate; try reflexivity;
    apply str_leb_total.
Qed.

Lemma key_leb_trans (a b c : Unflatten.entry) :
  Unflatten.key_leb a b = true -> Unflatten.key_leb b c = true -> Unflatten.key_leb a c = true.
Proof.
  unfold Unflatten.key_leb.
  destruct (Unflatten.is_file a), (Unflatten.is_file b), (Unflatten.is_file c);
    try discriminate; try reflexivity; apply str_leb_trans.
Qed.

Lemma key_leb_names (a b : Unflatten.entry) :
  Unflatten.key_leb a b = true -> Unflatten.key_leb b a = true ->
  Unflatten.entry_name a = Unflatten.entry_name b.
Proof.
  unfold Unflatten.key_leb.
  destruct (Unflatten.is_file a), (Unflatten.is_file b); try discriminate;
    apply str_leb_antisym.
Qed.

(** ** The sort *)

Lemma insert_sorted_swap (x y : Unflatten.entry) (es : list Unflatten.entry) :
  Unflatten.key_leb x y = true -> Unflatten.key_leb y x = false ->
  Unflatten.insert_sorted x (Unflatten.insert_sorted y es) =
  Unflatten.insert_sorted y (Unflatten.insert_sorted x es).
Proof.
  intros Lxy Lyx. induction es as [|h es IH]; cbn [Unflatten.insert_sorted].
  - rewrite Lxy, Lyx. reflexivity.
  - destruct (Unflatten.key_leb x h) eqn:Lxh; destruct (Unflatten.key_leb y h) eqn:Lyh;
      cbn [Unflatten.insert_sorted]; rewrite ?Lxy, ?Lyx, ?Lxh, ?Lyh;
      cbn [Unflatten.insert_sorted]; rewrite ?Lxh, ?Lyh; try reflexivity.
    + rewrite (key_leb_trans x y h Lxy Lyh) in Lxh. discriminate.
    + rewrite IH. reflexivity.
Qed.

Lemma sorted_swap (x y : Unflatten.entry) (es : list Unflatten.entry) :
  Unflatten.entry_name x <> Unflatten.entry_name y ->
  Unflatten.sorted (x :: y :: es) = Unflatten.sorted (y :: x :: es).
Proof.
  intros N. cbn [Unflatten.sorted].
  destruct (Unflatten.key_leb x y) eqn:Lxy; destruct (Unflatten.key_leb y x) eqn:Lyx.
  - exfalso. exact (N (key_leb_names x y Lxy Lyx)).
  - apply insert_sorted_swap; assumption.
  - symmetry. apply insert_sorted_swap; assumption.
  - apply key_leb_total in Lxy. congruence.
Qed.

Lemma insert_sorted_in (e x : Unflatten.entry) (es : list Unflatten.entry) :
  In x (Unflatten.insert_sorted e es) -> x = e \/ In x es.
Proof.
  induction es as [|h es IH]; cbn [Unflatten.insert_sorted].
  - intros [<-|[]]. left. reflexivity.
  - destruct (Unflatten.key_leb e h).
    + intros [<-|I]; [left; reflexivity | right; exact I].
    + intros [<-|I]; [right; left; reflexivity|].
      destruct (IH I) as [->|I']; [left; reflexivity | right; right; exact I'].
Qed.

Lemma sorted_in (x : Unflatten.entry) (es : list Unflatten.entry) :
  In x (Unflatten.sorted es) -> In x es.
Proof.
  induction es as [|e es IH]; cbn [Unflatten.sorted]; [intros []|].
  intros I. apply insert_sorted_in in I.
  destruct I as [->|I]; [left; reflexivity | right; exact (IH I)].
Qed.

Lemma list_sum_cons (x : nat) (l : list nat) :
  list_sum (x :: l) = x + list_sum l.
Proof. reflexivity. Qed.

Lemma insert_sorted_count (e : Unflatten.entry) (es : list Unflatten.entry) :
  list_sum (map count_entries (Unflatten.insert_sorted e es)) =
  count_entries e + list_sum (map count_entries es).
Proof.
  induction es as [|h es IH]; cbn [Unflatten.insert_sorted]; [reflexivity|].
  destruct (Unflatten.key_leb e h); cbn [map]; rewrite !list_sum_cons;
    [reflexivity|].
  rewrite IH. lia.
Qed.

Lemma sorted_count (es : list Unflatten.entry) :
  list_sum (map count_entries (Unflatten.sorted es)) =
  list_sum (map count_entries es).
Proof.
  induction es as [|e es IH]; [reflexivity|].
  cbn [Unflatten.sorted map]. rewrite insert_sorted_count, list_sum_cons, IH.
  reflexivity.
Qed.

Lemma depth_in (e : Unflatten.entry) (es : list Unflatten.entry) :
  In e es -> depth e <= list_max (map depth es).
Proof.
  intros I.
  assert (F : Forall (fun k => k <= list_max (map depth es))
                (map depth es)).
  { apply list_max_le. apply Nat.le_refl. }
  rewrite Forall_forall in F. apply F, in_map, I.
Qed.

Lemma map_snd_combine_seq {A : Type} (xs : list A) (k : nat) :
  map snd (combine (seq k (length xs)) xs) = xs.
Proof.
  revert k; induction xs as [|x xs IH]; intros k; [reflexivity|].
  cbn [length seq combine map snd]. rewrite IH. reflexivity.
Qed.

(** ** The run of [print_tree] *)

(** The loop over the sorted entries, given what the calls for the
    directories below do. *)
Lemma print_tree_loop (calls last : nat) (prefix : str) :
  (forall (directory : list Unflatten.entry) (prefix : str) (w : World),
     height directory < calls ->
     exists lines,
       Unflatten.print_tree calls directory prefix w =
         (Done tt, mkWorld (disk w) (stdout w ++ lines)) /\
       length lines = list_sum (map count_entries directory) /\
       Forall (fun line => startswith line prefix = true) lines) ->
  forall (items : list (nat * Unflatten.entry)) (w : World),
    (forall ie, In ie items -> depth (snd ie) <= calls) ->
    exists lines,
      for_each items (fun item (_ : unit) =>
        let '(i, entry) := item in
        let is_last := i =? last in
        let connector := if is_last then lit "└── " else lit "├── " in
        match entry with
        | Unflatten.Dir name sub =>
            print (prefix ++ connector ++ name ++ lit "/") ;;;
            let extension := if is_last then lit "    " else lit "│   " in
            Unflatten.print_tree calls sub (prefix ++ extension)
        | Unflatten.File name | Unflatten.Other name =>
            print (prefix ++ connector ++ name)
        end) tt w =
        (Done tt, mkWorld (disk w) (stdout w ++ lines)) /\
      length lines = list_sum (map (fun ie => count_entries (snd ie)) items) /\
      Forall (fun line => startswith line prefix = true) lines.
Proof.
  intros IH items. unfold height in IH.
  match goal with
  | |- context [for_each items ?b] => set (body := b)
  end.
  induction items as [|[i e] items IHi]; intros w D.
  - exists []. cbn [for_each map list_sum length]. unfold ret.
    rewrite app_nil_r. destruct w; repeat split. constructor.
  - cbn [for_each]. unfold body at 1. cbv beta iota zeta.
    assert (De := D (i, e) (or_introl eq_refl)). cbn [snd] in De.
    assert (Di : forall ie, In ie items -> depth (snd ie) <= calls).
    { intros ie I. apply D. right. exact I. }
    destruct e as [name|name sub|name].
    + rewrite print_bind_dep.
      match goal with
      | |- exists _, for_each _ _ _ ?W = _ /\ _ =>
          destruct (IHi W Di) as (lines & E & Ln & F)
      end.
      eexists. rewrite E. cbn [disk stdout]. rewrite <- app_assoc.
      split; [reflexivity|]. split.
      * cbn [app length map snd count_entries].
        rewrite list_sum_cons, Ln. reflexivity.
      * constructor; [apply startswith_app | exact F].
    + rewrite bind_assoc_run, print_bind.
      cbn [depth] in De.
      match goal with
      | |- context [bind (Unflatten.print_tree calls sub ?P) _ ?W] =>
          destruct (IH sub P W ltac:(lia)) as (sublines & Es & Ls & Fs)
      end.
      rewrite (bind_run _ Es).
      match goal with
      | |- exists _, for_each _ _ _ ?W = _ /\ _ =>
          destruct (IHi W Di) as (lines & E & Ln & F)
      end.
      eexists. rewrite E. cbn [disk stdout]. rewrite <- !app_assoc.
      split; [reflexivity|]. split.
      * cbn [app length map snd].
        rewrite list_sum_cons, length_app, Ls, Ln.
        change (count_entries (Unflatten.Dir name sub))
          with (S (list_sum (map count_entries sub))). lia.
      * constructor; [apply startswith_app|].
        apply Forall_app. split; [|exact F].
        revert Fs. apply Forall_impl. intros line.
        apply startswith_shorter.
    + rewrite print_bind_dep.
      match goal with
      | |- exists _, for_each _ _ _ ?W = _ /\ _ =>
          destruct (IHi W Di) as (lines & E & Ln & F)
      end.
      eexists. rewrite E. cbn [disk stdout]. rewrite <- app_assoc.
      split; [reflexivity|]. split.
      * cbn [app length map snd count_entries].
        rewrite list_sum_cons, Ln. reflexivity.
      * constructor; [apply startswith_app | exact F].
Qed.

(** With more calls allowed than the directories are deep, [print_tree]
    returns: it printed one line for every entry, each after the prefix,
    and changed nothing else. *)
Lemma print_tree_run (calls : nat) :
  forall (directory : list Unflatten.entry) (prefix : str) (w : World),
    height directory < calls ->
    exists lines,
      Unflatten.print_tree calls directory prefix w =
        (Done tt, mkWorld (disk w) (stdout w ++ lines)) /\
      length lines = list_sum (map count_entries directory) /\
      Forall (fun line => startswith line prefix = true) lines.
Proof.
  induction calls as [|calls IH]; intros directory prefix w L; [lia|].
  cbn [Unflatten.print_tree]. cbv zeta.
  destruct (print_tree_loop calls (length (Unflatten.sorted directory) - 1)
              prefix IH (Unflatten.enumerate (Unflatten.sorted directory)) w)
    as (lines & E & Ln & F).
  - intros [i e] I. apply in_combine_r in I.
    apply sorted_in, depth_in in I. cbn [snd]. unfold height in L. lia.
  - exists lines. split; [exact E|]. split; [|exact F].
    rewrite Ln, <- (map_map snd count_entries).
    unfold Unflatten.enumerate. rewrite map_snd_combine_seq. apply sorted_count.
Qed.

(** *** Directories deeper than the calls allowed *)

Lemma list_max_witness (l : list nat) (k : nat) :
  S k <= list_max l -> exists x, In x l /\ S k <= x.
Proof.
  induction l as [|a l IH].
  - cbn. lia.
  - change (list_max (a :: l)) with (Nat.max a (list_max l)). intros L.
    destruct (Nat.le_gt_cases (S k) a) as [A|A].
    + exists a. split; [left; reflexivity | exact A].
    + destruct IH as (x & I & Lx); [lia|].
      exists x. split; [right; exact I | exact Lx].
Qed.

Lemma height_witness (directory : list Unflatten.entry) (k : nat) :
  S k <= height directory ->
  exists name sub, In (Unflatten.Dir name sub) directory /\ k <= height sub.
Proof.
  intros L. apply list_max_witness in L. destruct L as (x & I & Lx).
  apply in_map_iff in I. destruct I as (e & <- & I).
  destruct e as [name|name sub|name]; cbn [depth] in Lx; try lia.
  exists name, sub. split; [exact I|]. unfold height. lia.
Qed.

Lemma insert_sorted_keeps (e x : Unflatten.entry) (es : list Unflatten.entry) :
  x = e \/ In x es -> In x (Unflatten.insert_sorted e es).
Proof.
  induction es as [|h es IH]; cbn [Unflatten.insert_sorted].
  - intros [->|[]]. left. reflexivity.
  - destruct (Unflatten.key_leb e h).
    + intros [->|I]; [left; reflexivity | right; exact I].
    + intros [->|[->|I]].
      * right. apply IH. left. reflexivity.
      * left. reflexivity.
      * right. apply IH. right. exact I.
Qed.

Lemma sorted_keeps (x : Unflatten.entry) (es : list Unflatten.entry) :
  In x es -> In x (Unflatten.sorted es).
Proof.
  induction es as [|e es IH]; cbn [Unflatten.sorted]; [intros []|].
  intros [->|I]; apply insert_sorted_keeps;
    [left; reflexivity | right; exact (IH I)].
Qed.

Lemma in_combine_seq {A : Type} (x : A) (xs : list A) (k : nat) :
  In x xs -> exists i, In (i, x) (combine (seq k (length xs)) xs).
Proof.
  revert k; induction xs as [|y xs IH]; intros k; [intros []|].
  cbn [length seq combine]. intros [->|I].
  - exists k. left. reflexivity.
  - destruct (IH (S k) I) as [i Ii]. exists i. right. exact Ii.
Qed.

(** A call of [print_tree] returns or raises [RecursionError]; either way
    it has printed lines and changed nothing else. *)
Lemma print_tree_outcome (calls : nat) :
  forall (directory : list Unflatten.entry) (prefix : str) (w : World),
    exists lines r,
      Unflatten.print_tree calls directory prefix w =
        (r, mkWorld (disk w) (stdout w ++ lines)) /\
      (r = Done tt \/ r = Raised (lit "RecursionError")).
Proof.
  induction calls as [|calls IH]; intros directory prefix w.
  - exists [], (Raised (lit "RecursionError")).
    cbn [Unflatten.print_tree]. unfold raise.
    rewrite app_nil_r. destruct w; split; [reflexivity | right; reflexivity].
  - cbn [Unflatten.print_tree]. cbv zeta.
    generalize (length (Unflatten.sorted directory) - 1) as last.
    generalize (Unflatten.enumerate (Unflatten.sorted directory)) as items.
    intros items last. revert w.
    match goal with
    | |- forall w, exists _ _, for_each items ?b _ _ = _ /\ _ =>
        set (body := b)
    end.
    induction items as [|[i e] items IHi]; intros w.
    + exists [], (Done tt). cbn [for_each]. unfold ret. rewrite app_nil_r.
      destruct w; split; [reflexivity | left; reflexivity].
    + cbn [for_each]. unfold body at 1. cbv beta iota zeta.
      destruct e as [name|name sub|name].
      * rewrite print_bind_dep.
        match goal with
        | |- exists _ _, for_each _ _ _ ?W = _ /\ _ =>
            destruct (IHi W) as (lines & r & E & O)
        end.
        eexists. exists r. rewrite E. cbn [disk stdout].
        rewrite <- app_assoc. split; [reflexivity | exact O].
      * rewrite bind_assoc_run, print_bind.
        match goal with
        | |- context [bind (Unflatten.print_tree calls sub ?P) _ ?W] =>
            destruct (IH sub P W) as (sublines & rs & Es & [-> | ->])
        end.
        -- rewrite (bind_run _ Es).
           match goal with
           | |- exists _ _, for_each _ _ _ ?W = _ /\ _ =>
               destruct (IHi W) as (lines & r & E & O)
           end.
           eexists. exists r. rewrite E. cbn [disk stdout].
           rewrite <- !app_assoc. split; [reflexivity | exact O].
        -- eexists. eexists. unfold bind at 1. rewrite Es.
           cbn [disk stdout]. rewrite <- app_assoc.
           split; [reflexivity | right; reflexivity].
      * rewrite print_bind_dep.
        match goal with
        | |- exists _ _, for_each _ _ _ ?W = _ /\ _ =>
            destruct (IHi W) as (lines & r & E & O)
        end.
        eexists. exists r. rewrite E. cbn [disk stdout].
        rewrite <- app_assoc. split; [reflexivity | exact O].
Qed.

(** Where the directories are as deep as the calls allowed or deeper,
    [print_tree] raises [RecursionError], after the lines it printed on its
    way down. *)
Lemma print_tree_deep (calls : nat) :
  forall (directory : list Unflatten.entry) (prefix : str) (w : World),
    calls <= height directory ->
    exists lines,
      Unflatten.print_tree calls directory prefix w =
        (Raised (lit "RecursionError"), mkWorld (disk w) (stdout w ++ lines)).
Proof.
  induction calls as [|calls IH]; intros directory prefix w L.
  - exists []. cbn [Unflatten.print_tree]. unfold raise.
    rewrite app_nil_r. destruct w; reflexivity.
  - apply height_witness in L. destruct L as (dname & dsub & I & L).
    apply sorted_keeps in I.
    apply (in_combine_seq _ _ 0) in I. destruct I as [di I].
    cbn [Unflatten.print_tree]. cbv zeta.
    fold (Unflatten.enumerate (Unflatten.sorted directory)) in I.
    revert I.
    generalize (length (Unflatten.sorted directory) - 1) as last.
    generalize (Unflatten.enumerate (Unflatten.sorted directory)) as items.
    intros items last. revert w.
    match goal with
    | |- forall w, _ -> exists _, for_each items ?b _ _ = _ => set (body := b)
    end.
    induction items as [|[i e] items IHi]; intros w I; [destruct I|].
    cbn [for_each]. unfold body at 1. cbv beta iota zeta.
    destruct e as [name|name sub|name].
    + destruct I as [I|I]; [discriminate|].
      rewrite print_bind_dep.
      match goal with
      | |- exists _, for_each _ _ _ ?W = _ =>
          destruct (IHi W I) as (lines & E)
      end.
      eexists. rewrite E. cbn [disk stdout]. rewrite <- app_assoc.
      reflexivity.
    + rewrite bind_assoc_run, print_bind.
      match goal with
      | |- context [bind (Unflatten.print_tree calls sub ?P) _ ?W] =>
          destruct (print_tree_outcome calls sub P W)
            as (sublines & rs & Es & [-> | ->]);
          [destruct I as [I|I];
           [injection I as Qi Qn Qs; rewrite <- Qs in L;
            destruct (IH sub P W L) as (lines' & Es'); congruence|]|]
      end.
      * rewrite (bind_run _ Es).
        match goal with
        | |- exists _, for_each _ _ _ ?W = _ =>
            destruct (IHi W I) as (lines & E)
        end.
        eexists. rewrite E. cbn [disk stdout]. rewrite <- !app_assoc.
        reflexivity.
      * eexists. unfold bind at 1. rewrite Es.
        cbn [disk stdout]. rewrite <- app_assoc. reflexivity.
    + destruct I as [I|I]; [discriminate|].
      rewrite print_bind_dep.
      match goal with
      | |- exists _, for_each _ _ _ ?W = _ =>
          destruct (IHi W I) as (lines & E)
      end.
      eexists. rewrite E. cbn [disk stdout]. rewrite <- app_assoc.
      reflexivity.
Qed.

Lemma height_chain (n : nat) : height (chain n) = n.
Proof.
  induction n as [|n IH]; [reflexivity|].
  unfold height in *. cbn [chain map depth list_max]. rewrite IH.
  cbn. lia.
Qed.

(** X15.  [print_tree] makes one nested call for every directory on the way
    down.  Where the interpreter allows more nested calls than the
    directories are deep, it returns, having changed neither a file nor a
    directory: it printed one line for every entry at every depth, no more
    and no less, and every line begins with the prefix it was given.  Where
    the directories are as deep as the calls allowed, or deeper, it raises
    [RecursionError] after the lines it printed on its way down: a chain
    of 1200 directories is beyond 1000 calls. *)
Theorem print_tree_lists_every_entry (calls : nat)
    (directory : list Unflatten.entry) (prefix : str) (w : World) :
  let run := Unflatten.print_tree calls directory prefix w in
  (height directory < calls ->
   exists lines,
     run = (Done tt, mkWorld (disk w) (stdout w ++ lines)) /\
     length lines = list_sum (map count_entries directory) /\
     Forall (fun line => startswith line prefix = true) lines) /\
  (calls <= height directory ->
   exists lines,
     run = (Raised (lit "RecursionError"),
            mkWorld (disk w) (stdout w ++ lines))) /\
  fst (Unflatten.print_tree 1000 (chain 1200) prefix w) =
    Raised (lit "RecursionError").
Proof.
  intros run. split; [|split].
  - apply print_tree_run.
  - apply print_tree_deep.
  - destruct (print_tree_deep 1000 (chain 1200) prefix w) as (lines & ->).
    + rewrite height_chain. lia.
    + reflexivity.
Qed.

(** ** The order in which a directory is listed *)

Lemma prints_alike_refl (a : Unflatten.entry) : prints_alike a a.
Proof. destruct a; cbn; auto. Qed.

Lemma prints_alike_trans (a b c : Unflatten.entry) :
  prints_alike a b -> prints_alike b c -> prints_alike a c.
Proof.
  destruct a, b, c; cbn; try tauto; try congruence.
  intros [-> E1] [-> E2]. split; [reflexivity|].
  intros calls prefix w. rewrite E1. apply E2.
Qed.

Lemma prints_alike_names (a b : Unflatten.entry) :
  prints_alike a b ->
  Unflatten.is_file a = Unflatten.is_file b /\
  Unflatten.entry_name a = Unflatten.entry_name b.
Proof.
  destruct a, b; cbn; try contradiction.
  - intros ->. split; reflexivity.
  - intros [-> _]. split; reflexivity.
  - intros ->. split; reflexivity.
Qed.

Lemma prints_alike_key (a a' b b' : Unflatten.entry) :
  prints_alike a a' -> prints_alike b b' ->
  Unflatten.key_leb a b = Unflatten.key_leb a' b'.
Proof.
  intros Ea Eb. unfold Unflatten.key_leb.
  destruct (prints_alike_names a a' Ea) as [-> ->].
  destruct (prints_alike_names b b' Eb) as [-> ->].
  reflexivity.
Qed.

Lemma Forall2_alike_refl (es : list Unflatten.entry) :
  Forall2 prints_alike es es.
Proof. induction es; constructor; [apply prints_alike_refl | assumption]. Qed.

Lemma Forall2_alike_trans (a b c : list Unflatten.entry) :
  Forall2 prints_alike a b -> Forall2 prints_alike b c ->
  Forall2 prints_alike a c.
Proof.
  intros F; revert c; induction F as [|x y a b E F IH]; intros c G;
    inversion G; subst; constructor.
  - eapply prints_alike_trans; eassumption.
  - apply IH. assumption.
Qed.

Lemma insert_sorted_alike (e e' : Unflatten.entry)
    (s s' : list Unflatten.entry) :
  prints_alike e e' -> Forall2 prints_alike s s' ->
  Forall2 prints_alike (Unflatten.insert_sorted e s)
    (Unflatten.insert_sorted e' s').
Proof.
  intros E F. induction F as [|x y s s' Exy F IH];
    cbn [Unflatten.insert_sorted].
  - constructor; [exact E | constructor].
  - rewrite (prints_alike_key e e' x y E Exy).
    destruct (Unflatten.key_leb e' y).
    + constructor; [exact E|]. constructor; assumption.
    + constructor; assumption.
Qed.

(** The loop prints the same for two lists of entries that print alike. *)
Lemma print_tree_loop_alike (calls last : nat) (prefix : str)
    (s s' : list Unflatten.entry) :
  Forall2 prints_alike s s' ->
  forall (k : nat) (w : World),
    for_each (combine (seq k (length s)) s) (fun item (_ : unit) =>
      let '(i, entry) := item in
      let is_last := i =? last in
      let connector := if is_last then lit "└── " else lit "├── " in
      match entry with
      | Unflatten.Dir name sub =>
          print (prefix ++ connector ++ name ++ lit "/") ;;;
          let extension := if is_last then lit "    " else lit "│   " in
          Unflatten.print_tree calls sub (prefix ++ extension)
      | Unflatten.File name | Unflatten.Other name =>
          print (prefix ++ connector ++ name)
      end) tt w =
    for_each (combine (seq k (length s')) s') (fun item (_ : unit) =>
      let '(i, entry) := item in
      let is_last := i =? last in
      let connector := if is_last then lit "└── " else lit "├── " in
      match entry with
      | Unflatten.Dir name sub =>
          print (prefix ++ connector ++ name ++ lit "/") ;;;
          let extension := if is_last then lit "    " else lit "│   " in
          Unflatten.print_tree calls sub (prefix ++ extension)
      | Unflatten.File name | Unflatten.Other name =>
          print (prefix ++ connector ++ name)
      end) tt w.
Proof.
  match goal with
  | |- _ -> forall k w, for_each _ ?b _ _ = _ => set (body := b)
  end.
  induction 1 as [|a b s s' E F IH]; intros k w; [reflexivity|].
  cbn [length seq combine for_each].
  assert (B : body (k, a) tt w = body (k, b) tt w).
  { unfold body. cbv beta iota zeta.
    destruct a as [n|n sub|n], b as [m|m sub'|m]; cbn in E;
      try contradiction; try (subst; reflexivity).
    destruct E as [-> E]. unfold bind, print. apply E. }
  unfold bind. rewrite B.
  destruct (body (k, b) tt w) as [[[]|code|exn] w1]; try reflexivity.
  apply IH.
Qed.

Lemma print_tree_alike (directory directory' : list Unflatten.entry) :
  Forall2 prints_alike (Unflatten.sorted directory)
    (Unflatten.sorted directory') ->
  forall (calls : nat) (prefix : str) (w : World),
    Unflatten.print_tree calls directory prefix w =
    Unflatten.print_tree calls directory' prefix w.
Proof.
  intros F [|calls] prefix w; [reflexivity|].
  cbn [Unflatten.print_tree]. cbv zeta. unfold Unflatten.enumerate.
  replace (length (Unflatten.sorted directory') - 1)
    with (length (Unflatten.sorted directory) - 1)
    by (rewrite (Forall2_length F); reflexivity).
  exact (print_tree_loop_alike calls _ prefix _ _ F 0 w).
Qed.

(** *** Names that differ *)

Lemma mem_false (x : str) (xs : list str) : mem x xs = false -> ~ In x xs.
Proof.
  unfold mem. intros E I.
  assert (T : existsb (str_eqb x) xs = true).
  { apply existsb_exists. exists x. split; [exact I | apply str_eqb_refl]. }
  congruence.
Qed.

Lemma all_differ_cons (x : str) (xs : list str) :
  all_differ (x :: xs) = true <-> ~ In x xs /\ all_differ xs = true.
Proof.
  cbn [all_differ]. rewrite andb_true_iff, negb_true_iff. split.
  - intros [M A]. split; [apply mem_false; exact M | exact A].
  - intros [N A]. split; [|exact A].
    destruct (mem x xs) eqn:M; [|reflexivity].
    contradiction N. apply mem_true. exact M.
Qed.

Lemma names_differ_cons (e : Unflatten.entry) (es : list Unflatten.entry) :
  names_differ (e :: es) = true <->
  ~ In (Unflatten.entry_name e) (map Unflatten.entry_name es) /\
  distinct_below e = true /\ names_differ es = true.
Proof.
  unfold names_differ. cbn [map forallb].
  rewrite !andb_true_iff, all_differ_cons. tauto.
Qed.

(** Two listings of the same tree, with names that differ: the names of
    the second differ as well, they are the names of the first, and the
    sorted entries print alike one by one. *)
Lemma same_tree_sorted (directory directory' : list Unflatten.entry) :
  same_tree directory directory' ->
  names_differ directory = true ->
  names_differ directory' = true /\
  Permutation (map Unflatten.entry_name directory)
    (map Unflatten.entry_name directory') /\
  Forall2 prints_alike (Unflatten.sorted directory)
    (Unflatten.sorted directory').
Proof.
  induction 1 as [es|a b es|e es es' S IH|name sub sub' es S IH
                  |es es' es'' S1 IH1 S2 IH2]; intros N.
  - split; [exact N|]. split; [apply Permutation_refl|].
    apply Forall2_alike_refl.
  - apply names_differ_cons in N. destruct N as (Na & Ba & N).
    apply names_differ_cons in N. destruct N as (Nb & Bb & N).
    cbn [map] in Na.
    assert (D : Unflatten.entry_name a <> Unflatten.entry_name b).
    { intros E. apply Na. left. symmetry. exact E. }
    split; [|split].
    + apply names_differ_cons. split; [|split; [exact Bb|]].
      * cbn [map]. intros [E|I]; [exact (D E) | exact (Nb I)].
      * apply names_differ_cons. split; [|split; assumption].
        intros I. apply Na. right. exact I.
    + cbn [map]. apply perm_swap.
    + rewrite (sorted_swap a b es D). apply Forall2_alike_refl.
  - apply names_differ_cons in N. destruct N as (Ne & Be & N).
    destruct (IH N) as (N' & P & F).
    split; [|split].
    + apply names_differ_cons. split; [|split; assumption].
      intros I. apply Ne. exact (Permutation_in _ (Permutation_sym P) I).
    + cbn [map]. apply perm_skip. exact P.
    + cbn [Unflatten.sorted]. apply insert_sorted_alike;
        [apply prints_alike_refl | exact F].
  - apply names_differ_cons in N. destruct N as (Ne & Be & N).
    change (distinct_below (Unflatten.Dir name sub))
      with (names_differ sub) in Be.
    destruct (IH Be) as (N' & P & F).
    split; [|split].
    + apply names_differ_cons. split; [exact Ne|]. split; [exact N'|exact N].
    + apply Permutation_refl.
    + cbn [Unflatten.sorted]. apply insert_sorted_alike;
        [|apply Forall2_alike_refl].
      split; [reflexivity|]. apply print_tree_alike. exact F.
  - destruct (IH1 N) as (N' & P1 & F1).
    destruct (IH2 N') as (N'' & P2 & F2).
    split; [exact N''|]. split.
    + exact (Permutation_trans P1 P2).
    + exact (Forall2_alike_trans _ _ _ F1 F2).
Qed.

(** X16.  What [print_tree] prints, and whether it returns, does not depend
    on the order in which [iterdir] lists the entries, neither in the
    directory it is given nor in any directory below, where the names in
    each directory differ: the sort on [(is_file, name)] decides the order
    at every depth. *)
Theorem print_tree_ignores_listing_order (calls : nat)
    (directory directory' : list Unflatten.entry) (prefix : str) (w : World) :
  same_tree directory directory' ->
  names_differ directory = true ->
  Unflatten.print_tree calls directory prefix w =
  Unflatten.print_tree calls directory' prefix w.
Proof.
  intros S N. apply print_tree_alike.
  apply (same_tree_sorted _ _ S N).
Qed.

Lemma print_tree_ignores_listing_order_witness :
  same_tree sample_tree sample_tree_shuffled /\
  Unflatten.print_tree 1000 sample_tree [] (world_of []) =
  Unflatten.print_tree 1000 sample_tree_shuffled [] (world_of []) /\
  stdout (snd (Unflatten.print_tree 1000 sample_tree [] (world_of []))) = [
    lit "├── lua/";
    lit "│   ├── config/";
    lit "│   │   └── options.lua";
    lit "│   └── plugins/";
    lit "│       ├── git.lua";
    lit "│       └── ui.lua";
    lit "├── README.md";
    lit "└── init.lua"
  ].
Proof.
  assert (S : same_tree sample_tree sample_tree_shuffled).
  { unfold sample_tree, sample_tree_shuffled.
    eapply same_trans.
    { (* the directories below *)
      apply same_cons. apply same_below.
      eapply same_trans; [apply same_below, same_swap | apply same_swap]. }
    eapply same_trans; [apply same_cons, same_swap | apply same_swap]. }
  split; [exact S|]. split; [|vm_compute; reflexivity].
  apply print_tree_ignores_listing_order; [exact S|].
  vm_compute. reflexivity.
Defined.

(** ** What the summary of flatten.py counts *)

(** The run of [main] that writes the bundle, with the line of the summary
    that counts the files. *)
Lemma flatten_main_summary `{Host} (prog arg1 : str) (rest : list str)
    (w : World) :
  mem arg1 [lit "-h"; lit "--help"] = false ->
  dict_get (fs_files (disk w)) (joinpath NVIM_CONFIG_DIR (lit "init.lua"))
    <> None ->
  exists w',
    Flatten.main (prog :: arg1 :: rest) w = (Done tt, w') /\
    dict_get (fs_files (disk w')) (expanduser_resolve arg1) =
      Some (emitted_bundle (fs_files (disk w))) /\
    In (lit "  Files:    " ++ str_of_nat (length Flatten.ALL_FILES) ++
        lit " embedded") (stdout w').
Proof.
  intros Hh Hi. unfold Flatten.main. rewrite Hh. cbv zeta.
  repeat step.
  destruct (dict_get (fs_files (disk w))
              (joinpath NVIM_CONFIG_DIR (lit "init.lua"))); [|congruence].
  cbn [negb]. repeat step.
  unfold bind at 1. rewrite generate_flat_config_run.
  cbn [disk stdout fs_files fs_dirs].
  repeat step.
  rewrite dict_get_set_same. cbn [app].
  eexists. split; [reflexivity|]. cbn [stdout disk fs_files].
  split; [apply dict_get_set_same|].
  do 4 (apply in_or_app; left).
  apply in_or_app. right. left. reflexivity.
Qed.

(** X17.  The summary of flatten.py counts the expected paths, not the
    files it embedded: every run that writes a bundle prints
    [Files: 19 embedded], whatever number of the nineteen files was there,
    while the bundle has a section only for those that were there and not
    empty. *)
Theorem flatten_summary_counts_expected_paths `{Host} (prog arg1 : str)
    (rest : list str) (w : World) :
  let files := fs_files (disk w) in
  let run := Flatten.main (prog :: arg1 :: rest) w in
  mem arg1 [lit "-h"; lit "--help"] = false ->
  dict_get files (joinpath NVIM_CONFIG_DIR (lit "init.lua")) <> None ->
  fst run = Done tt /\
  In (lit "  Files:    19 embedded") (stdout (snd run)) /\
  dict_get (fs_files (disk (snd run))) (expanduser_resolve arg1) =
    Some (Flatten.header now_strftime ++
          concat (map (fun category =>
                         Flatten.category_banner (fst category) ++
                         encode (embedded files (snd category)))
                      Flatten.categories) ++
          Flatten.footer) /\
  length (embedded files Flatten.ALL_FILES) <= 19.
Proof.
  intros files run Hh Hi. subst run.
  destruct (flatten_main_summary prog arg1 rest w Hh Hi) as (w' & E & G & I).
  rewrite E. cbn [fst snd].
  split; [reflexivity|]. split; [|split].
  - replace (lit "  Files:    19 embedded")
      with (lit "  Files:    " ++ str_of_nat (length Flatten.ALL_FILES) ++
            lit " embedded") by (vm_compute; reflexivity).
    exact I.
  - rewrite G. unfold emitted_bundle. fold files.
    apply (f_equal Some), (f_equal (app _)).
    apply (f_equal (fun x => x ++ Flatten.footer)), (f_equal (@concat _)).
    apply map_ext. intros [name paths]. cbn [fst snd].
    apply (f_equal (app _)), emitted_sections_embedded.
  - assert (L : forall paths,
               length (embedded files paths) <= length paths).
    { induction paths as [|p paths IH]; cbn [embedded length]; [lia|].
      destruct (dict_get files (joinpath NVIM_CONFIG_DIR p))
        as [[|c content]|]; cbn [length]; lia. }
    exact (L Flatten.ALL_FILES).
Qed.

Lemma flatten_summary_counts_expected_paths_witness :
  let run := @Flatten.main sample_host flatten_argv world_two_files in
  length (@embedded sample_host (fs_files (disk world_two_files))
            Flatten.ALL_FILES) = 2 /\
  fst run = Done tt /\
  In (lit "  Files:    19 embedded") (stdout (snd run)).
Proof.
  intros run. split; [vm_compute; reflexivity|].
  destruct (@flatten_summary_counts_expected_paths sample_host
              (lit "flatten.py") (lit "/out/flat.lua") [] world_two_files)
    as (R & I & _).
  - vm_compute. reflexivity.
  - vm_compute. discriminate.
  - split; [exact R | exact I].
Defined.

(** ** The files a run of unflatten.py leaves alone *)

(** X18.  A run of [unflatten] changes no file but those at the decoded
    paths under the output directory: every other file, the input file
    among them, is as it was, whether the run returns, ends through
    [sys.exit] or stops on the way; and a run that returns returns the
    decoded paths, in the order of the dictionary.  The decoded paths are
    those of the text as it is stored, which is the text the run reads
    where that text is read as it is stored. *)
Theorem unflatten_writes_only_decoded_paths `{Host}
    (input_file output_dir : str) (w : World) :
  let run := Unflatten.unflatten input_file output_dir w in
  let before := fs_files (disk w) in
  (forall content, dict_get before input_file = Some content ->
     plain_text content = true) ->
  (forall q,
     (forall content p, dict_get before input_file = Some content ->
        In p (map fst (Unflatten.parse_flattened_file content)) ->
        q <> joinpath output_dir p) ->
     dict_get (fs_files (disk (snd run))) q = dict_get before q) /\
  (forall created, fst run = Done created ->
     exists content,
       dict_get before input_file = Some content /\
       created = map fst (Unflatten.parse_flattened_file content)).
Proof.
  intros run before _. subst run before.
  destruct (dict_get (fs_files (disk w)) input_file) as [content|] eqn:E.
  - destruct (Unflatten.parse_flattened_file content) as [|d docs] eqn:P.
    + destruct (unflatten_no_files _ output_dir _ w E P) as [lines ->].
      cbn [fst snd disk]. split; [reflexivity | discriminate].
    + destruct (unflatten_writes input_file output_dir content w E)
        as (w' & R & Q).
      { rewrite P. discriminate. }
      rewrite R. cbn [fst snd]. split.
      * intros q N.
        destruct (Q q) as [(p & c & I & Eq & _)|[_ G]]; [exfalso | exact G].
        apply (N content p eq_refl); [|exact Eq].
        rewrite P. apply (in_map fst) in I. rewrite P in I. exact I.
      * intros created Rc. exists content. split; [reflexivity|].
        inversion Rc. rewrite P. reflexivity.
  - destruct (unflatten_missing_input _ output_dir w E) as [lines ->].
    cbn [fst snd disk]. split; [reflexivity | discriminate].
Qed.

Lemma unflatten_writes_only_decoded_paths_witness :
  let run := @Unflatten.unflatten sample_host (lit "/out/flat.lua")
               (lit "/new") world_bundle in
  plain_text (encode docs_plain) = true /\
  dict_get (fs_files (disk (snd run))) (lit "/out/flat.lua") =
    Some (encode docs_plain) /\
  dict_get (fs_files (disk (snd run))) (lit "/new/a.txt") <> None.
Proof.
  intros run.
  assert (T : plain_text (encode docs_plain) = true)
    by (vm_compute; reflexivity).
  assert (E : dict_get (fs_files (disk world_bundle)) (lit "/out/flat.lua") =
              Some (encode docs_plain))
    by (vm_compute; reflexivity).
  destruct (@unflatten_writes_only_decoded_paths sample_host
              (lit "/out/flat.lua") (lit "/new") world_bundle)
    as (F & _).
  - intros content Q. rewrite E in Q. inversion Q. exact T.
  - split; [exact T|]. split; [|vm_compute; discriminate].
    unfold run. rewrite (F (lit "/out/flat.lua")); [exact E|].
    intros content p Q I. rewrite E in Q. inversion Q; subst content.
    vm_compute in I.
    repeat (destruct I as [<-|I]; [vm_compute; discriminate|]).
    destruct I.
Defined.

(** ** A section for an absolute path *)



(** ** One line of the metadata block *)

Transparent lit.

(** The cut is at the separator that follows a key which does not hold
    one. *)
Lemma split_once_first (key value : str) :
  contains (lit ": ") key = false ->
  split_once (lit ": ") (key ++ lit ": " ++ value) = [key; value].
Proof.
  induction key as [|c key IH]; intros C.
  - reflexivity.
  - assert (S : starts_with (lit ": ") ((c :: key) ++ lit ": " ++ value)
                = None).
    { destruct (starts_with (lit ": ") ((c :: key) ++ lit ": " ++ value))
        as [t|] eqn:S; [exfalso|reflexivity].
      apply starts_with_Some in S.
      destruct key as [|d key].
      - cbn in S. inversion S.
      - cbn in S. inversion S; subst.
        cbn [contains] in C. apply orb_false_iff in C. destruct C as [C _].
        unfold startswith in C. cbn in C. discriminate. }
    change (split_once (lit ": ") ((c :: key) ++ lit ": " ++ value))
      with (match starts_with (lit ": ") ((c :: key) ++ lit ": " ++ value) with
            | Some rest => [[]; rest]
            | None =>
                match split_once (lit ": ") (key ++ lit ": " ++ value) with
                | piece :: pieces => (c :: piece) :: pieces
                | [] => [[c]]
                end
            end).
    rewrite S, IH by exact (contains_tail _ _ _ C). reflexivity.
Qed.

Opaque lit.

(** X20.  How [parse_metadata] reads one line of the block: blanks around
    the line do not count, and a line that then reads [-- key: value],
    with no colon and space in the key, sets the key to the value, cut at
    the first colon and space only: the value may hold more of them. *)
Theorem metadata_line_splits_at_first_separator (metadata : dict)
    (line key value : str) :
  strip line = lit "-- " ++ key ++ lit ": " ++ value ->
  contains (lit ": ") key = false ->
  Unflatten.parse_meta_line metadata line =
  Some (dict_set metadata key value).
Proof.
  intros E C. unfold Unflatten.parse_meta_line. cbv zeta. rewrite E.
  rewrite startswith_app.
  assert (T : contains (lit ": ") (lit "-- " ++ key ++ lit ": " ++ value)
              = true).
  { apply contains_true. exists (lit "-- " ++ key), value.
    rewrite <- !app_assoc. reflexivity. }
  rewrite T. cbn [andb].
  assert (K : skipn 3 (lit "-- " ++ key ++ lit ": " ++ value) =
              key ++ lit ": " ++ value).
  { change 3 with (length (lit "-- ") + 0).
    rewrite skipn_app, Nat.add_comm, skipn_all2 by (cbn; lia).
    replace (length (lit "-- ") + 0 - length (lit "-- ")) with 0 by lia.
    reflexivity. }
  rewrite K, (split_once_first key value C). reflexivity.
Qed.

Lemma metadata_line_splits_at_first_separator_witness :
  Unflatten.parse_meta_line [] metadata_line_sample =
  Some [(lit "source_dir", lit "/home/me: old/nvim")].
Proof.
  apply (metadata_line_splits_at_first_separator [] metadata_line_sample
           (lit "source_dir") (lit "/home/me: old/nvim"));
    vm_compute; reflexivity.
Defined.
